(** * KNX device stack: telegram codec, com-objects, action queue, TP-UART link

    A shallow embedding of the Python sources [KnxTelegram.py],
    [KnxComObject.py], [KnxDevice.py] and [KnxTPUart.py], followed by the
    properties established about them.

    Python values are modelled by [pyval]; a method that mutates its object
    is a computation in the monad [M S], which threads the state [S] and
    stops at the first uncaught exception, keeping the state reached at the
    raise (mutations done before the raise stay visible, as in Python). *)

From Stdlib Require Import ZArith Lia List Bool.
From stdpp Require Import base option list gmap.
Import ListNotations.

Set Warnings "-register-all".
Local Open Scope Z_scope.

(* ===================================================================== *)
(** ** Python values, exceptions and the effect monad *)
(* ===================================================================== *)

(** Exceptions the modelled code can raise. *)
Inductive exn :=
| TypeError | IndexError | ZeroDivisionError | ValueError | AttributeError
| SerialException.

(** The values that flow through the modelled code: [None], integers,
    lists, and references to [KnxTelegram] instances (by object identity). *)
Inductive pyval :=
| PNone
| PInt (z : Z)
| PBool (b : bool)
| PList (l : list pyval)
| PTelegram (oid : nat).

(** Python truthiness, as used by [if x:] and [while x:]. *)
Definition truthy (v : pyval) : bool :=
  match v with
  | PNone => false
  | PInt z => negb (z =? 0)
  | PBool b => b
  | PList l => negb (Nat.eqb (length l) 0)
  | PTelegram _ => true
  end.

Inductive outcome (S A : Type) :=
| Ret (a : A) (s : S)     (* normal completion *)
| Exc (e : exn) (s : S)   (* uncaught exception, with the state at the raise *)
| Timeout.                (* a [while] loop exhausted its fuel *)
Arguments Ret {S A} a s.
Arguments Exc {S A} e s.
Arguments Timeout {S A}.

Definition M (S A : Type) : Type := S -> outcome S A.

Definition ret {S A} (a : A) : M S A := fun s => Ret a s.
Definition raise {S A} (e : exn) : M S A := fun s => Exc e s.
Definition bind {S A B} (m : M S A) (k : A -> M S B) : M S B :=
  fun s => match m s with
           | Ret a s' => k a s'
           | Exc e s' => Exc e s'
           | Timeout => Timeout
           end.
Definition get {S} : M S S := fun s => Ret s s.
Definition gets {S A} (f : S -> A) : M S A := fun s => Ret (f s) s.
Definition put {S} (s : S) : M S unit := fun _ => Ret tt s.
Definition modify {S} (f : S -> S) : M S unit := fun s => Ret tt (f s).

Notation "x <- c1 ;; c2" := (bind c1 (fun x => c2))
  (at level 100, c1 at next level, right associativity).
Notation "c1 ;; c2" := (bind c1 (fun _ => c2))
  (at level 100, right associativity).

(** Run a computation on a component [T] of the state [S]. *)
Definition zoom {S T A} (proj : S -> T) (upd : T -> S -> S) (m : M T A) : M S A :=
  fun s => match m (proj s) with
           | Ret a t => Ret a (upd t s)
           | Exc e t => Exc e (upd t s)
           | Timeout => Timeout
           end.

(** [for x in xs: body x] *)
Fixpoint for_each {S X} (xs : list X) (body : X -> M S unit) : M S unit :=
  match xs with
  | [] => ret tt
  | x :: xs' => body x ;; for_each xs' body
  end.

(** [for x in xs: body x], where the body may execute [return v]
    ([Some v]); [None] means the loop ran to its end. *)
Fixpoint for_each_return {S X R} (xs : list X) (body : X -> M S (option R))
  : M S (option R) :=
  match xs with
  | [] => ret None
  | x :: xs' =>
      r <- body x ;;
      match r with
      | Some v => ret (Some v)
      | None => for_each_return xs' body
      end
  end.

(** [while cond: body], with fuel for the iterations; [vars] are the local
    variables the loop reads and updates. *)
Fixpoint while_ {S V} (fuel : nat) (vars : V) (cond : V -> M S bool) (body : V -> M S V)
  : M S V :=
  match fuel with
  | O => fun _ => Timeout
  | Datatypes.S fuel' =>
      c <- cond vars ;;
      if c then vars' <- body vars ;; while_ fuel' vars' cond body
      else ret vars
  end.

(** Python's [range(a, b)]. *)
Definition range (a b : Z) : list Z := seqZ a (b - a).

(** Python list indexing: [0 <= i < len] counts from the front,
    [-len <= i < 0] from the back, anything else is an [IndexError]. *)
Definition py_index {A} (l : list A) (i : Z) : option nat :=
  let n := Z.of_nat (length l) in
  if (0 <=? i) && (i <? n) then Some (Z.to_nat i)
  else if (- n <=? i) && (i <? 0) then Some (Z.to_nat (n + i))
  else None.

(** [l[i]] on a list object. *)
Definition list_getitem {S A} (l : list A) (i : Z) : M S A :=
  match py_index l i with
  | Some k => match l !! k with Some x => ret x | None => raise IndexError end
  | None => raise IndexError
  end.

(** [l[i] = x] on a list object; yields the updated list. *)
Definition list_setitem {S A} (l : list A) (i : Z) (x : A) : M S (list A) :=
  match py_index l i with
  | Some k => ret (<[k := x]> l)
  | None => raise IndexError
  end.

(** [v[i]] on an arbitrary value: only lists are subscriptable. *)
Definition getitem {S} (v : pyval) (i : Z) : M S pyval :=
  match v with
  | PList l => list_getitem l i
  | _ => raise TypeError
  end.

(** [v[i] = x] on an arbitrary value: only lists support item assignment. *)
Definition setitem {S} (v : pyval) (i : Z) (x : pyval) : M S pyval :=
  match v with
  | PList l => l' <- list_setitem l i x ;; ret (PList l')
  | _ => raise TypeError
  end.

(** The integer operand of [&], [|], [^], [<<], [>>], [+]: anything else
    raises [TypeError]. *)
Definition as_int {S} (v : pyval) : M S Z :=
  match v with
  | PInt z => ret z
  | PBool b => ret (if b then 1 else 0)
  | _ => raise TypeError
  end.

(** [[None] * n] *)
Definition none_list (n : Z) : list pyval := replicate (Z.to_nat n) PNone.

(** [for x in xs: acc = body acc x], for a loop that updates a local. *)
Fixpoint for_fold {S X A} (xs : list X) (acc : A) (body : A -> X -> M S A) : M S A :=
  match xs with
  | [] => ret acc
  | x :: xs' => acc' <- body acc x ;; for_fold xs' acc' body
  end.

(** [v == z] for an integer [z]. *)
Definition eq_int (v : pyval) (z : Z) : bool :=
  match v with
  | PInt y => y =? z
  | PBool b => (if b then 1 else 0) =? z
  | _ => false
  end.

(* ===================================================================== *)
(** ** KnxTelegram.py *)
(* ===================================================================== *)

Module KnxTelegram.

Definition KNX_TELEGRAM_MAX_SIZE := 23.
Definition KNX_TELEGRAM_PAYLOAD_MAX_SIZE := 16.
Definition CONTROL_FIELD_DEFAULT_VALUE := 188.
Definition CONTROL_FIELD_PRIORITY_MASK := 12.
Definition ROUTING_FIELD_DEFAULT_VALUE := 225.
Definition COMMAND_FIELD_LOW_COMMAND_MASK := 0xC0.
Definition COMMAND_FIELD_HIGH_COMMAND_MASK := 0x03.
Definition COMMAND_FIELD_LOW_DATA_MASK := 0x3F.
Definition ROUTING_FIELD_PAYLOAD_LENGTH_MASK := 15.
Definition KNX_TELEGRAM_HEADER_SIZE := 6.
Definition KNX_TELEGRAM_LENGTH_OFFSET := 8.

(** Class attributes holding the byte offsets. *)
Definition _controlField := 0.
Definition _sourceAddrH := 1.
Definition _sourceAddrL := 2.
Definition _targetAddrH := 3.
Definition _targetAddrL := 4.
Definition _routing := 5.
Definition _commandH := 6.
Definition _commandL := 7.

(** The part of the Python object store the class touches.  List objects
    live at locations; the class attribute [KnxTelegram._telegram] is
    bound to one of them by the class body; an instance is an object
    identity, and [instance_telegram] holds the binding of [_telegram] in
    the instance's own [__dict__], for the instances that have one. *)
Definition loc := nat.
Definition instance := nat.

Record store := {
  lists : gmap loc (list pyval);
  class_telegram : loc;
  instance_telegram : gmap instance loc;
  next_oid : instance
}.

(** The store once the class body has run:
    [_telegram = [None] * KNX_TELEGRAM_MAX_SIZE]; no instance exists. *)
Definition class_body : store :=
  {| lists := {[ 0%nat := none_list KNX_TELEGRAM_MAX_SIZE ]};
     class_telegram := 0%nat;
     instance_telegram := ∅;
     next_oid := 0%nat |}.

(** Attribute lookup [self._telegram]: the instance's own binding when it
    has one, the class attribute otherwise. *)
Definition resolve (st : store) (self : instance) : loc :=
  default (class_telegram st) (instance_telegram st !! self).

(** The list object [self._telegram] denotes. *)
Definition buffer_of (st : store) (self : instance) : list pyval :=
  default [] (lists st !! resolve st self).

Definition set_buffer (self : instance) (b : list pyval) (st : store) : store :=
  {| lists := <[resolve st self := b]> (lists st);
     class_telegram := class_telegram st;
     instance_telegram := instance_telegram st;
     next_oid := next_oid st |}.

(** [self._telegram[i]] *)
Definition tget (self : instance) (i : Z) : M store pyval :=
  fun st => list_getitem (buffer_of st self) i st.

(** [self._telegram[i] = v]: item assignment on the list object; nothing
    is bound on the instance. *)
Definition tset (self : instance) (i : Z) (v : pyval) : M store unit :=
  fun st => match list_setitem (buffer_of st self) i v st with
            | Ret b st' => Ret tt (set_buffer self b st')
            | Exc e st' => Exc e st'
            | Timeout => Timeout
            end.

(** [self._telegram[i]] used as an integer operand. *)
Definition tint (self : instance) (i : Z) : M store Z :=
  v <- tget self i ;; as_int v.

Definition clearTelegram (self : instance) : M store unit :=
  for_each (range 0 KNX_TELEGRAM_MAX_SIZE) (fun i =>
    tset self i (PInt 0) ;;
    tset self _controlField (PInt CONTROL_FIELD_DEFAULT_VALUE) ;;
    tset self _routing (PInt ROUTING_FIELD_DEFAULT_VALUE)).

(** [KnxTelegram()]: allocate the instance, then run [__init__], which
    only calls [clearTelegram]. *)
Definition new : M store instance :=
  st <- get ;;
  let self := next_oid st in
  put {| lists := lists st; class_telegram := class_telegram st;
         instance_telegram := instance_telegram st;
         next_oid := Datatypes.S self |} ;;
  clearTelegram self ;;
  ret self.

Definition getCommand (self : instance) : M store Z :=
  l <- tint self _commandL ;;
  h <- tint self _commandH ;;
  ret (Z.shiftr (Z.land l COMMAND_FIELD_LOW_COMMAND_MASK) 6
       + Z.shiftl (Z.land h COMMAND_FIELD_HIGH_COMMAND_MASK) 2).

Definition getPayloadLength (self : instance) : M store Z :=
  r <- tint self _routing ;;
  ret (Z.land r ROUTING_FIELD_PAYLOAD_LENGTH_MASK).

Definition getFirstPayloadByte (self : instance) : M store Z :=
  l <- tint self _commandL ;;
  ret (Z.land l COMMAND_FIELD_LOW_DATA_MASK).

(** [getLongPayload(destination, nbOfBytes)]: the state pairs the store
    with the object [destination] refers to, which the loop mutates. *)
Definition getLongPayload (self : instance) (nbOfBytes : Z) : M (store * pyval) unit :=
  let nbOfBytes :=
    if nbOfBytes >? KNX_TELEGRAM_PAYLOAD_MAX_SIZE - 2
    then KNX_TELEGRAM_PAYLOAD_MAX_SIZE - 2 else nbOfBytes in
  for_each (range 8 (nbOfBytes + 8)) (fun i =>
    v <- zoom fst (fun st p => (st, snd p)) (tget self i) ;;
    destination <- gets snd ;;
    destination' <- setitem destination i v ;;
    modify (fun p => (fst p, destination'))).

Definition getTelegramLength (self : instance) : M store Z :=
  n <- getPayloadLength self ;;
  ret (KNX_TELEGRAM_LENGTH_OFFSET + n).

Definition getChecksum (self : instance) : M store pyval :=
  tget self 8.

Definition getSourceAddress (self : instance) : M store Z :=
  l <- tint self _sourceAddrL ;;
  h <- tint self _sourceAddrH ;;
  ret (l + Z.shiftl h 8).

Definition getTargetAddress (self : instance) : M store Z :=
  l <- tint self _targetAddrL ;;
  h <- tint self _targetAddrH ;;
  ret (l + Z.shiftl h 8).

Definition setTargetAddress (self : instance) (addr : Z) : M store unit :=
  tset self _targetAddrL (PInt (Z.land addr 0xFF)) ;;
  tset self _targetAddrH (PInt (Z.land (Z.shiftr addr 8) 0xFF)).

Definition setPayloadLength (self : instance) (length : Z) : M store unit :=
  r <- tint self _routing ;;
  tset self _routing (PInt (Z.land r (Z.lnot ROUTING_FIELD_PAYLOAD_LENGTH_MASK))) ;;
  r <- tint self _routing ;;
  tset self _routing (PInt (Z.lor r (Z.land length ROUTING_FIELD_PAYLOAD_LENGTH_MASK))).

Definition setCommand (self : instance) (command : Z) : M store unit :=
  h <- tint self _commandH ;;
  tset self _commandH (PInt (Z.land h (Z.lnot COMMAND_FIELD_HIGH_COMMAND_MASK))) ;;
  h <- tint self _commandH ;;
  tset self _commandH (PInt (Z.lor h (Z.shiftr command 2))) ;;
  l <- tint self _commandL ;;
  tset self _commandL (PInt (Z.land l (Z.lnot COMMAND_FIELD_LOW_COMMAND_MASK))) ;;
  l <- tint self _commandL ;;
  tset self _commandL (PInt (Z.lor l (Z.shiftl command 6))).

Definition setSourceAddress (self : instance) (addr : Z) : M store unit :=
  tset self _sourceAddrL (PInt (Z.land addr 0xFF)) ;;
  tset self _sourceAddrH (PInt (Z.land (Z.shiftr addr 8) 0xFF)).

Definition setFirstPayloadByte (self : instance) (data : pyval) : M store unit :=
  l <- tint self _commandL ;;
  tset self _commandL (PInt (Z.land l (Z.lnot COMMAND_FIELD_LOW_DATA_MASK))) ;;
  l <- tint self _commandL ;;
  d <- as_int data ;;
  tset self _commandL (PInt (Z.lor l (Z.land d COMMAND_FIELD_LOW_DATA_MASK))).

Definition setLongPayload (self : instance) (origin : pyval) (nbOfBytes : Z) : M store unit :=
  let nbOfBytes :=
    if nbOfBytes >? KNX_TELEGRAM_PAYLOAD_MAX_SIZE - 2
    then KNX_TELEGRAM_PAYLOAD_MAX_SIZE - 2 else nbOfBytes in
  for_each (range 0 nbOfBytes) (fun i =>
    v <- getitem origin i ;;
    tset self (i + 8) v).

Definition calculateChecksum (self : instance) : M store Z :=
  n <- getPayloadLength self ;;
  let indexChecksum := KNX_TELEGRAM_HEADER_SIZE + n + 1 in
  xorSum <- for_fold (range 0 indexChecksum) 0 (fun xorSum i =>
              b <- tint self i ;; ret (Z.lxor xorSum b)) ;;
  ret (Z.land (Z.lnot xorSum) 0xFF).

Definition isChecksumCorrect (self : instance) : M store bool :=
  checksum <- getChecksum self ;;
  c <- calculateChecksum self ;;
  if eq_int checksum c then ret true else ret false.

Definition updateChecksum (self : instance) : M store unit :=
  n <- getPayloadLength self ;;
  let indexChecksum := KNX_TELEGRAM_HEADER_SIZE + n + 1 in
  xorSum <- for_fold (range 0 indexChecksum) 0 (fun xorSum i =>
              b <- tint self i ;; ret (Z.lxor xorSum b)) ;;
  tset self indexChecksum (PInt (Z.land (Z.lnot xorSum) 0xFF)).

Definition copy (self dest : instance) : M store unit :=
  length <- getTelegramLength self ;;
  for_each (range 0 length) (fun i =>
    v <- tget self i ;;
    tset dest i v).

Definition writeRawByte (self : instance) (data : pyval) (byteIndex : Z) : M store unit :=
  tset self byteIndex data.

Definition readRawByte (self : instance) (byteIndex : Z) : M store pyval :=
  tget self byteIndex.

Definition changePriority (self : instance) (priority : Z) : M store unit :=
  c <- tint self _controlField ;;
  tset self _controlField (PInt (Z.land c (Z.lnot CONTROL_FIELD_PRIORITY_MASK))) ;;
  c <- tint self _controlField ;;
  tset self _controlField (PInt (Z.lor c (Z.land priority CONTROL_FIELD_PRIORITY_MASK))).

Definition clearLongPayload (self : instance) : M store unit :=
  for_each (range 8 23) (fun i => tset self i (PInt 0)).

Definition clearFirstPayloadByte (self : instance) : M store unit :=
  l <- tint self _commandL ;;
  tset self _commandL (PInt (Z.land l (Z.lnot COMMAND_FIELD_LOW_DATA_MASK))).

End KnxTelegram.

(* ===================================================================== *)
(** ** KnxComObject.py *)
(* ===================================================================== *)

Module KnxComObject.

Definition KNX_COM_OBJ_C_INDICATOR := 0x20.
Definition KNX_COM_OBJ_R_INDICATOR := 0x10.
Definition KNX_COM_OBJ_W_INDICATOR := 0x08.
Definition KNX_COM_OBJ_T_INDICATOR := 0x04.
Definition KNX_COM_OBJ_U_INDICATOR := 0x02.
Definition KNX_COM_OBJ_I_INDICATOR := 0x01.

Definition KNX_COM_OBJECT_OK := 0.
Definition KNX_COM_OBJECT_ERROR := 255.

Definition KNX_PRIORITY_NORMAL_VALUE := 12.

Record t := {
  _addr : Z;
  dptId : Z;
  _indicator : Z;
  _length : Z;
  _validity : bool;
  _value : pyval;
  _longValue : pyval
}.

Definition set_validity (b : bool) (o : t) : t :=
  {| _addr := _addr o; dptId := dptId o; _indicator := _indicator o;
     _length := _length o; _validity := b; _value := _value o;
     _longValue := _longValue o |}.
Definition set_value (v : pyval) (o : t) : t :=
  {| _addr := _addr o; dptId := dptId o; _indicator := _indicator o;
     _length := _length o; _validity := _validity o; _value := v;
     _longValue := _longValue o |}.
Definition set_longValue (v : pyval) (o : t) : t :=
  {| _addr := _addr o; dptId := dptId o; _indicator := _indicator o;
     _length := _length o; _validity := _validity o; _value := _value o;
     _longValue := v |}.

(** [lengthCalculation].  The module [KnxDPT] is an external table;
    [dptBits id] stands for
    [KnxDPT.KnxDPTFormatToLengthBit[KnxDPT.KnxDPTIdToFormat[id]]].
    The division is the integer division of Python 2. *)
Definition lengthCalculation (dptBits : Z -> Z) (dptId : Z) : Z :=
  dptBits dptId / 8 + 1.

(** [KnxComObject(addr, dptId, indicator)]; [_value] keeps the class
    default [None]. *)
Definition new (dptBits : Z -> Z) (addr dptId indicator : Z) : t :=
  let length := lengthCalculation dptBits dptId in
  {| _addr := addr;
     dptId := dptId;
     _indicator := indicator;
     _length := length;
     _validity := if Z.land indicator KNX_COM_OBJ_I_INDICATOR =? 0 then true else false;
     _value := PNone;
     _longValue :=
       if length =? 1 then PNone
       else PList (replicate (Z.to_nat (length - 1)) (PInt 0)) |}.

Definition getIndicator (self : t) : Z := _indicator self.
Definition getAddress (self : t) : Z := _addr self.
Definition getLength (self : t) : Z := _length self.
Definition getValidity (self : t) : bool := _validity self.
Definition getValue (self : t) : pyval := _value self.
Definition getPriority (self : t) : Z := KNX_PRIORITY_NORMAL_VALUE.
Definition getDptId (self : t) : Z := dptId self.

(** Lenses used by [updateValue]: the store, the store with the object's
    [_value] slot, the store with its [_longValue] slot. *)
Definition on_store {A} (m : M KnxTelegram.store A) : M (KnxTelegram.store * t) A :=
  zoom fst (fun st p => (st, snd p)) m.
Definition on_value {A} (m : M (KnxTelegram.store * pyval) A)
  : M (KnxTelegram.store * t) A :=
  zoom (fun p => (fst p, _value (snd p)))
       (fun q p => (fst q, set_value (snd q) (snd p))) m.
Definition on_longValue {A} (m : M (KnxTelegram.store * pyval) A)
  : M (KnxTelegram.store * t) A :=
  zoom (fun p => (fst p, _longValue (snd p)))
       (fun q p => (fst q, set_longValue (snd q) (snd p))) m.

(** [updateValue(self, ori)]: the state pairs the telegram store with
    [self].  The result is the returned status, or [None] when control
    falls off the end of the method. *)
Definition updateValue (ori : pyval) : M (KnxTelegram.store * t) pyval :=
  match ori with
  | PTelegram ori =>
      n <- on_store (KnxTelegram.getPayloadLength ori) ;;
      self <- gets snd ;;
      if negb (n =? getLength self) then ret (PInt KNX_COM_OBJECT_ERROR)
      else
        (if _length self =? 1 then
           v <- on_store (KnxTelegram.getFirstPayloadByte ori) ;;
           modify (fun p => (fst p, set_value (PInt v) (snd p)))
         else if _length self =? 2 then
           on_value (KnxTelegram.getLongPayload ori 1)
         else
           on_longValue (KnxTelegram.getLongPayload ori (_length self - 1))) ;;
        modify (fun p => (fst p, set_validity true (snd p))) ;;
        ret (PInt KNX_COM_OBJECT_OK)
  | PInt _ | PBool _ =>
      self <- gets snd ;;
      if _length self >? 2 then ret (PInt KNX_COM_OBJECT_ERROR)
      else
        modify (fun p => (fst p, set_value ori (snd p))) ;;
        modify (fun p => (fst p, set_validity true (snd p))) ;;
        ret (PInt KNX_COM_OBJECT_OK)
  | PNone | PList _ => ret PNone
  end.

Definition copyAttributes (self : t) (dest : KnxTelegram.instance)
  : M KnxTelegram.store unit :=
  KnxTelegram.changePriority dest (getPriority self) ;;
  KnxTelegram.setTargetAddress dest (getAddress self) ;;
  KnxTelegram.setPayloadLength dest (_length self).

Definition copyValue (self : t) (dest : KnxTelegram.instance)
  : M KnxTelegram.store unit :=
  if _length self =? 1 then
    KnxTelegram.setFirstPayloadByte dest (_value self)
  else if _length self =? 2 then
    KnxTelegram.setLongPayload dest (_value self) 1
  else
    KnxTelegram.setLongPayload dest (_longValue self) (_length self - 1).

End KnxComObject.

(* ===================================================================== *)
(** ** KnxDevice.py: the action ring buffer *)
(* ===================================================================== *)

(** [a % b] on integers. *)
Definition py_mod {S} (a b : Z) : M S Z :=
  if b =? 0 then raise ZeroDivisionError else ret (a mod b).

Module ActionRingBuffer.
Section Elements.

(** The objects stored in the buffer; a cell holds [None] or one of them. *)
Context {A : Type}.

Record t := {
  _head : Z;
  _tail : Z;
  _buffer : list (option A);
  _size : Z;
  _elementsCurrentNb : Z
}.

(** What [pop] returns: the integer [-1], or the content of a cell. *)
Inductive popped := MinusOne | Cell (c : option A).

(** [ActionRingBuffer(size)] *)
Definition new (size : Z) : t :=
  {| _head := 0;
     _tail := 0;
     _elementsCurrentNb := 0;
     _size := size;
     _buffer := replicate (Z.to_nat size) None |}.

Definition incrementHead : M t unit :=
  self <- get ;;
  h <- py_mod (_head self + 1) (_size self) ;;
  put {| _head := h; _tail := _tail self; _buffer := _buffer self;
         _size := _size self; _elementsCurrentNb := _elementsCurrentNb self |}.

Definition incrementTail : M t unit :=
  self <- get ;;
  tl <- py_mod (_tail self + 1) (_size self) ;;
  put {| _head := _head self; _tail := tl; _buffer := _buffer self;
         _size := _size self; _elementsCurrentNb := _elementsCurrentNb self |}.

Definition append (data : A) : M t unit :=
  self <- get ;;
  (if _elementsCurrentNb self =? _size self then incrementHead
   else put {| _head := _head self; _tail := _tail self; _buffer := _buffer self;
               _size := _size self;
               _elementsCurrentNb := _elementsCurrentNb self + 1 |}) ;;
  self <- get ;;
  b <- list_setitem (_buffer self) (_tail self) (Some data) ;;
  put {| _head := _head self; _tail := _tail self; _buffer := b;
         _size := _size self; _elementsCurrentNb := _elementsCurrentNb self |} ;;
  incrementTail.

Definition pop : M t popped :=
  self <- get ;;
  if _elementsCurrentNb self =? 0 then ret MinusOne
  else
    data <- list_getitem (_buffer self) (_head self) ;;
    incrementHead ;;
    self <- get ;;
    put {| _head := _head self; _tail := _tail self; _buffer := _buffer self;
           _size := _size self;
           _elementsCurrentNb := _elementsCurrentNb self - 1 |} ;;
    ret (Cell data).

(** [for x in xs: buffer.append(x)] *)
Definition append_all (xs : list A) : M t unit :=
  for_each xs append.

(** [n] successive calls of [pop], collecting what they return. *)
Fixpoint pop_n (n : nat) : M t (list popped) :=
  match n with
  | O => ret []
  | Datatypes.S n' => x <- pop ;; xs <- pop_n n' ;; ret (x :: xs)
  end.

End Elements.
Arguments t : clear implicits.
Arguments popped : clear implicits.
End ActionRingBuffer.

(* ===================================================================== *)
(** ** KnxTPUart.py *)
(* ===================================================================== *)

Module KnxTPUart.

Definition RX_RESET := 0.
Definition RX_STOPPED := 1.
Definition RX_INIT := 2.
Definition RX_IDLE_WAITING_FOR_CTRL_FIELD := 3.
Definition RX_EIB_TELEGRAM_RECEPTION_STARTED := 4.
Definition RX_EIB_TELEGRAM_RECEPTION_ADDRESSED := 5.
Definition RX_EIB_TELEGRAM_RECEPTION_LENGTH_INVALID := 6.
Definition RX_EIB_TELEGRAM_RECEPTION_NOT_ADDRESSED := 7.

Definition TX_RESET := 0.
Definition TX_STOPPED := 1.
Definition TX_INIT := 2.
Definition TX_IDLE := 3.
Definition TX_TELEGRAM_SENDING_ONGOING := 4.
Definition TX_WAITING_ACK := 5.

Definition KNX_TPUART_OK := 0.
Definition KNX_TPUART_ERROR_NULL_ACK_CALLBACK_FCT := 252.
Definition KNX_TPUART_ERROR_NULL_EVT_CALLBACK_FCT := 253.
Definition KNX_TPUART_ERROR_NOT_INIT_STATE := 254.
Definition KNX_TPUART_ERROR := 255.

Definition BUS_MONITOR := 1.

Definition TPUART_SET_ADDR_REQ := 0x28.

Definition TPUART_EVENT_RESET := 0.
Definition TPUART_EVENT_RECEIVED_EIB_TELEGRAM := 1.
Definition TPUART_EVENT_EIB_TELEGRAM_RECEPTION_ERROR := 2.
Definition TPUART_EVENT_STATE_INDICATION := 3.

Definition ACK_RESPONSE := 0.
Definition NACK_RESPONSE := 1.
Definition NO_ANSWER_TIMEOUT := 2.
Definition TPUART_RESET_RESPONSE := 3.

Definition TPUART_RESET_REQ := [0x01].
Definition TPUART_STATE_REQ := [0x02].
Definition TPUART_ACTIVATEBUSMON_REQ := [0x05].
Definition TPUART_DATA_CONFIRM_SUCCESS := [0x8B].
Definition TPUART_RESET_INDICATION := [0x03].
Definition TPUART_STATE_INDICATION := [0x07].
Definition TPUART_DATA_CONFIRM_FAILED := [0x0B].
Definition TPUART_RX_ACK_SERVICE_NOT_ADDRESSED := [0x10].
Definition TPUART_RX_ACK_SERVICE_ADDRESSED := [0x11].
Definition TPUART_DATA_END_REQ := [0x40].
Definition TPUART_DATA_START_CONTINUE_REQ := [0x80].

Definition TPUART_STATE_INDICATION_MASK := 0x07.

Definition EIB_CONTROL_FIELD_PATTERN_MASK := 211.
Definition EIB_CONTROL_FIELD_VALID_PATTERN := 144.

Definition KNX_TELEGRAM_MAX_SIZE := 23.

(** [X[0]] for the one-element constant lists above. *)
Definition first (l : list Z) : Z := hd 0 l.

(** A callable handed over as a callback.  The link never looks inside
    it; an invocation is recorded in the [calls] log of the state. *)
Inductive callable := Function (name : nat).
Inductive call := EvtCall (event : Z) | AckCall (value : Z).

Record serial := {
  is_open : bool;   (* between open() and close() *)
  incoming : list Z;   (* bytes received and not yet read *)
  outgoing : list Z   (* bytes written so far, oldest first *)
}.

Definition set_is_open (v : bool) (r : serial) : serial :=
  {| is_open := v; incoming := incoming r; outgoing := outgoing r |}.
Definition set_incoming (v : list Z) (r : serial) : serial :=
  {| is_open := is_open r; incoming := v; outgoing := outgoing r |}.
Definition set_outgoing (v : list Z) (r : serial) : serial :=
  {| is_open := is_open r; incoming := incoming r; outgoing := v |}.

Record tx := {
  tx_state : Z;   (* tx.state *)
  sentTelegram : option KnxTelegram.instance;
  ackFctPtr : option callable;
  nbRemainingBytes : Z;
  txByteIndex : Z
}.

Definition set_tx_state (v : Z) (r : tx) : tx :=
  {| tx_state := v; sentTelegram := sentTelegram r;
     ackFctPtr := ackFctPtr r; nbRemainingBytes := nbRemainingBytes r;
     txByteIndex := txByteIndex r |}.
Definition set_sentTelegram (v : option KnxTelegram.instance) (r : tx) : tx :=
  {| tx_state := tx_state r; sentTelegram := v; ackFctPtr := ackFctPtr r;
     nbRemainingBytes := nbRemainingBytes r;
     txByteIndex := txByteIndex r |}.
Definition set_ackFctPtr (v : option callable) (r : tx) : tx :=
  {| tx_state := tx_state r; sentTelegram := sentTelegram r;
     ackFctPtr := v; nbRemainingBytes := nbRemainingBytes r;
     txByteIndex := txByteIndex r |}.
Definition set_nbRemainingBytes (v : Z) (r : tx) : tx :=
  {| tx_state := tx_state r; sentTelegram := sentTelegram r;
     ackFctPtr := ackFctPtr r; nbRemainingBytes := v;
     txByteIndex := txByteIndex r |}.
Definition set_txByteIndex (v : Z) (r : tx) : tx :=
  {| tx_state := tx_state r; sentTelegram := sentTelegram r;
     ackFctPtr := ackFctPtr r; nbRemainingBytes := nbRemainingBytes r;
     txByteIndex := v |}.

Record rx := {
  rx_state : Z;   (* rx.state *)
  receivedTelegram : KnxTelegram.instance;
  addressedComObjectIndex : pyval
}.

Definition set_rx_state (v : Z) (r : rx) : rx :=
  {| rx_state := v; receivedTelegram := receivedTelegram r;
     addressedComObjectIndex := addressedComObjectIndex r |}.
Definition set_receivedTelegram (v : KnxTelegram.instance) (r : rx) : rx :=
  {| rx_state := rx_state r; receivedTelegram := v;
     addressedComObjectIndex := addressedComObjectIndex r |}.
Definition set_addressedComObjectIndex (v : pyval) (r : rx) : rx :=
  {| rx_state := rx_state r; receivedTelegram := receivedTelegram r;
     addressedComObjectIndex := v |}.

Record globals := {
  _telegram : KnxTelegram.instance;
  _addressedComObjectIndex : pyval;
  _lastByteRxTimeMicrosec : Z;
  _readBytesNb : Z;
  _nowTime : Z;
  _txByte : list pyval;
  _sentMessageTimeMillisec : Z
}.

Definition set_global_telegram (v : KnxTelegram.instance) (r : globals) : globals :=
  {| _telegram := v;
     _addressedComObjectIndex := _addressedComObjectIndex r;
     _lastByteRxTimeMicrosec := _lastByteRxTimeMicrosec r;
     _readBytesNb := _readBytesNb r; _nowTime := _nowTime r;
     _txByte := _txByte r;
     _sentMessageTimeMillisec := _sentMessageTimeMillisec r |}.
Definition set_global_addressedComObjectIndex (v : pyval) (r : globals) : globals :=
  {| _telegram := _telegram r; _addressedComObjectIndex := v;
     _lastByteRxTimeMicrosec := _lastByteRxTimeMicrosec r;
     _readBytesNb := _readBytesNb r; _nowTime := _nowTime r;
     _txByte := _txByte r;
     _sentMessageTimeMillisec := _sentMessageTimeMillisec r |}.
Definition set_global_lastByteRxTimeMicrosec (v : Z) (r : globals) : globals :=
  {| _telegram := _telegram r;
     _addressedComObjectIndex := _addressedComObjectIndex r;
     _lastByteRxTimeMicrosec := v; _readBytesNb := _readBytesNb r;
     _nowTime := _nowTime r; _txByte := _txByte r;
     _sentMessageTimeMillisec := _sentMessageTimeMillisec r |}.
Definition set_global_readBytesNb (v : Z) (r : globals) : globals :=
  {| _telegram := _telegram r;
     _addressedComObjectIndex := _addressedComObjectIndex r;
     _lastByteRxTimeMicrosec := _lastByteRxTimeMicrosec r;
     _readBytesNb := v; _nowTime := _nowTime r; _txByte := _txByte r;
     _sentMessageTimeMillisec := _sentMessageTimeMillisec r |}.
Definition set_global_nowTime (v : Z) (r : globals) : globals :=
  {| _telegram := _telegram r;
     _addressedComObjectIndex := _addressedComObjectIndex r;
     _lastByteRxTimeMicrosec := _lastByteRxTimeMicrosec r;
     _readBytesNb := _readBytesNb r; _nowTime := v; _txByte := _txByte r;
     _sentMessageTimeMillisec := _sentMessageTimeMillisec r |}.
Definition set_global_txByte (v : list pyval) (r : globals) : globals :=
  {| _telegram := _telegram r;
     _addressedComObjectIndex := _addressedComObjectIndex r;
     _lastByteRxTimeMicrosec := _lastByteRxTimeMicrosec r;
     _readBytesNb := _readBytesNb r; _nowTime := _nowTime r; _txByte := v;
     _sentMessageTimeMillisec := _sentMessageTimeMillisec r |}.
Definition set_global_sentMessageTimeMillisec (v : Z) (r : globals) : globals :=
  {| _telegram := _telegram r;
     _addressedComObjectIndex := _addressedComObjectIndex r;
     _lastByteRxTimeMicrosec := _lastByteRxTimeMicrosec r;
     _readBytesNb := _readBytesNb r; _nowTime := _nowTime r;
     _txByte := _txByte r; _sentMessageTimeMillisec := v |}.

Record instance := {
  _serial : serial;
  _physicalAddr : Z;
  _mode : Z;
  _comObjectsList : option (list KnxComObject.t);
  _assignedComObjectsNb : Z;
  _evtCallbackFct : option callable;
  _orderedIndexTable : option (list pyval);
  _stateIndication : Z
}.

Definition set_serial (v : serial) (r : instance) : instance :=
  {| _serial := v; _physicalAddr := _physicalAddr r; _mode := _mode r;
     _comObjectsList := _comObjectsList r;
     _assignedComObjectsNb := _assignedComObjectsNb r;
     _evtCallbackFct := _evtCallbackFct r;
     _orderedIndexTable := _orderedIndexTable r;
     _stateIndication := _stateIndication r |}.
Definition set_physicalAddr (v : Z) (r : instance) : instance :=
  {| _serial := _serial r; _physicalAddr := v; _mode := _mode r;
     _comObjectsList := _comObjectsList r;
     _assignedComObjectsNb := _assignedComObjectsNb r;
     _evtCallbackFct := _evtCallbackFct r;
     _orderedIndexTable := _orderedIndexTable r;
     _stateIndication := _stateIndication r |}.
Definition set_mode (v : Z) (r : instance) : instance :=
  {| _serial := _serial r; _physicalAddr := _physicalAddr r; _mode := v;
     _comObjectsList := _comObjectsList r;
     _assignedComObjectsNb := _assignedComObjectsNb r;
     _evtCallbackFct := _evtCallbackFct r;
     _orderedIndexTable := _orderedIndexTable r;
     _stateIndication := _stateIndication r |}.
Definition set_comObjectsList (v : option (list KnxComObject.t)) (r : instance) : instance :=
  {| _serial := _serial r; _physicalAddr := _physicalAddr r;
     _mode := _mode r; _comObjectsList := v;
     _assignedComObjectsNb := _assignedComObjectsNb r;
     _evtCallbackFct := _evtCallbackFct r;
     _orderedIndexTable := _orderedIndexTable r;
     _stateIndication := _stateIndication r |}.
Definition set_assignedComObjectsNb (v : Z) (r : instance) : instance :=
  {| _serial := _serial r; _physicalAddr := _physicalAddr r;
     _mode := _mode r; _comObjectsList := _comObjectsList r;
     _assignedComObjectsNb := v; _evtCallbackFct := _evtCallbackFct r;
     _orderedIndexTable := _orderedIndexTable r;
     _stateIndication := _stateIndication r |}.
Definition set_evtCallbackFct (v : option callable) (r : instance) : instance :=
  {| _serial := _serial r; _physicalAddr := _physicalAddr r;
     _mode := _mode r; _comObjectsList := _comObjectsList r;
     _assignedComObjectsNb := _assignedComObjectsNb r;
     _evtCallbackFct := v; _orderedIndexTable := _orderedIndexTable r;
     _stateIndication := _stateIndication r |}.
Definition set_orderedIndexTable (v : option (list pyval)) (r : instance) : instance :=
  {| _serial := _serial r; _physicalAddr := _physicalAddr r;
     _mode := _mode r; _comObjectsList := _comObjectsList r;
     _assignedComObjectsNb := _assignedComObjectsNb r;
     _evtCallbackFct := _evtCallbackFct r; _orderedIndexTable := v;
     _stateIndication := _stateIndication r |}.
Definition set_stateIndication (v : Z) (r : instance) : instance :=
  {| _serial := _serial r; _physicalAddr := _physicalAddr r;
     _mode := _mode r; _comObjectsList := _comObjectsList r;
     _assignedComObjectsNb := _assignedComObjectsNb r;
     _evtCallbackFct := _evtCallbackFct r;
     _orderedIndexTable := _orderedIndexTable r; _stateIndication := v |}.

Record world := {
  telegrams : KnxTelegram.store;   (* the KnxTelegram objects *)
  module : globals;   (* the module-level variables *)
  _tx : tx;   (* the tx object shared through the class attribute *)
  _rx : rx;   (* the rx object shared through the class attribute *)
  self : instance;   (* the KnxTPUart instance *)
  calls : list call   (* callback invocations so far, oldest first *)
}.

Definition set_telegrams (v : KnxTelegram.store) (r : world) : world :=
  {| telegrams := v; module := module r; _tx := _tx r; _rx := _rx r;
     self := self r; calls := calls r |}.
Definition set_module (v : globals) (r : world) : world :=
  {| telegrams := telegrams r; module := v; _tx := _tx r; _rx := _rx r;
     self := self r; calls := calls r |}.
Definition set_tx (v : tx) (r : world) : world :=
  {| telegrams := telegrams r; module := module r; _tx := v; _rx := _rx r;
     self := self r; calls := calls r |}.
Definition set_rx (v : rx) (r : world) : world :=
  {| telegrams := telegrams r; module := module r; _tx := _tx r; _rx := v;
     self := self r; calls := calls r |}.
Definition set_self (v : instance) (r : world) : world :=
  {| telegrams := telegrams r; module := module r; _tx := _tx r;
     _rx := _rx r; self := v; calls := calls r |}.
Definition set_calls (v : list call) (r : world) : world :=
  {| telegrams := telegrams r; module := module r; _tx := _tx r;
     _rx := _rx r; self := self r; calls := v |}.


Definition upd_module (f : globals -> globals) : M world unit :=
  modify (fun w => set_module (f (module w)) w).
Definition upd_tx (f : tx -> tx) : M world unit :=
  modify (fun w => set_tx (f (_tx w)) w).
Definition upd_rx (f : rx -> rx) : M world unit :=
  modify (fun w => set_rx (f (_rx w)) w).
Definition upd_self (f : instance -> instance) : M world unit :=
  modify (fun w => set_self (f (self w)) w).
Definition upd_serial (f : serial -> serial) : M world unit :=
  upd_self (fun i => set_serial (f (_serial i)) i).

(** Run a [KnxTelegram] method from the link. *)
Definition on_telegrams {A} (m : M KnxTelegram.store A) : M world A :=
  zoom telegrams set_telegrams m.

(** [self._evtCallbackFct(event)] *)
Definition call_evt (event : Z) : M world unit :=
  w <- get ;;
  match _evtCallbackFct (self w) with
  | None => raise TypeError
  | Some _ => modify (fun w => set_calls (calls w ++ [EvtCall event]) w)
  end.

(** [self._tx.ackFctPtr(value)] *)
Definition call_ack (value : Z) : M world unit :=
  w <- get ;;
  match ackFctPtr (_tx w) with
  | None => raise TypeError
  | Some _ => modify (fun w => set_calls (calls w ++ [AckCall value]) w)
  end.

(** [bytearray(l)]: every element must be an integer in [range(256)]. *)
Fixpoint bytearray {S} (l : list pyval) : M S (list Z) :=
  match l with
  | [] => ret []
  | v :: l' =>
      b <- as_int v ;;
      if (0 <=? b) && (b <? 256)
      then bs <- bytearray l' ;; ret (b :: bs)
      else raise ValueError
  end.

(** The serial port, as far as the link uses it. *)
Definition serial_open : M world unit :=
  w <- get ;;
  if is_open (_serial (self w)) then raise SerialException
  else upd_serial (set_is_open true).

Definition serial_close : M world unit :=
  upd_serial (set_is_open false).

Definition serial_write (data : list Z) : M world unit :=
  w <- get ;;
  if is_open (_serial (self w))
  then upd_serial (fun s => set_outgoing (outgoing s ++ data) s)
  else raise SerialException.

Definition serial_inWaiting : M world Z :=
  w <- get ;;
  if is_open (_serial (self w))
  then ret (Z.of_nat (length (incoming (_serial (self w)))))
  else raise SerialException.

(** [ord(self._serial.read())], called only when a byte is waiting. *)
Definition serial_read : M world Z :=
  w <- get ;;
  if is_open (_serial (self w)) then
    match incoming (_serial (self w)) with
    | [] => raise TypeError
    | c :: rest => upd_serial (set_incoming rest) ;; ret c
    end
  else raise SerialException.

(** The state before the module body has run: the telegram store as the
    class body of [KnxTelegram] leaves it, and placeholders for what the
    module body and the constructor are going to bind. *)
Definition blank : world :=
  {| telegrams := KnxTelegram.class_body;
     module := {| _telegram := 0%nat;
                  _addressedComObjectIndex := PNone;
                  _lastByteRxTimeMicrosec := 0;
                  _readBytesNb := 0;
                  _nowTime := 0;
                  _txByte := [];
                  _sentMessageTimeMillisec := 0 |};
     _tx := {| tx_state := 0; sentTelegram := None; ackFctPtr := None;
               nbRemainingBytes := 0; txByteIndex := 0 |};
     _rx := {| rx_state := 0; receivedTelegram := 0%nat;
               addressedComObjectIndex := PNone |};
     self := {| _serial := {| is_open := false; incoming := []; outgoing := [] |};
                _physicalAddr := 0;
                _mode := 0;
                _comObjectsList := None;
                _assignedComObjectsNb := 0;
                _evtCallbackFct := None;
                _orderedIndexTable := None;
                _stateIndication := 0 |};
     calls := [] |}.

(** The module body: [_telegram = KnxTelegram.KnxTelegram()] and the other
    globals, then the class bodies of [tx] and [rx], each of which creates
    one telegram bound to a class attribute. *)
Definition module_body : M world unit :=
  t0 <- on_telegrams KnxTelegram.new ;;
  upd_module (fun _ =>
    {| _telegram := t0;
       _addressedComObjectIndex := PNone;
       _lastByteRxTimeMicrosec := 0;
       _readBytesNb := 0;
       _nowTime := 0;
       _txByte := none_list 2;
       _sentMessageTimeMillisec := 0 |}) ;;
  t1 <- on_telegrams KnxTelegram.new ;;
  upd_tx (fun _ =>
    {| tx_state := 0; sentTelegram := Some t1; ackFctPtr := None;
       nbRemainingBytes := 0; txByteIndex := 0 |}) ;;
  t2 <- on_telegrams KnxTelegram.new ;;
  upd_rx (fun _ =>
    {| rx_state := 0; receivedTelegram := t2;
       addressedComObjectIndex := PNone |}).

(** [KnxTPUart(cserial, physicalAddr, mode)].  The serial port object is
    created closed; [input] is what the transceiver is going to deliver on
    it. *)
Definition new (input : list Z) (physicalAddr mode : Z) : M world unit :=
  upd_self (fun _ =>
    {| _serial := {| is_open := false; incoming := input; outgoing := [] |};
       _physicalAddr := physicalAddr;
       _mode := mode;
       _comObjectsList := None;
       _assignedComObjectsNb := 0;
       _evtCallbackFct := None;
       _orderedIndexTable := None;
       _stateIndication := 0 |}) ;;
  upd_rx (set_rx_state RX_RESET) ;;
  upd_rx (set_addressedComObjectIndex (PInt 0)) ;;
  upd_tx (set_tx_state TX_RESET) ;;
  upd_tx (set_sentTelegram None) ;;
  upd_tx (set_ackFctPtr None) ;;
  upd_tx (set_nbRemainingBytes 0) ;;
  upd_tx (set_txByteIndex 0).

(** The inner polling loop of [reset]; [clock] holds the successive
    readings of [millis()], and the result tells whether the reset
    indication was seen, with the readings left. *)
Fixpoint reset_wait (clock : list Z) (startTime nowTime : Z) : M world (bool * list Z) :=
  if nowTime - startTime <? 1000 then
    match clock with
    | [] => fun _ => Timeout
    | nowTime' :: clock' =>
        n <- serial_inWaiting ;;
        if n >? 0 then
          c <- serial_read ;;
          if c =? first TPUART_RESET_INDICATION then
            upd_rx (set_rx_state RX_INIT) ;;
            upd_tx (set_tx_state TX_INIT) ;;
            ret (true, clock')
          else reset_wait clock' startTime nowTime'
        else reset_wait clock' startTime nowTime'
    end
  else ret (false, clock).

Fixpoint reset_attempts (attempts : nat) (clock : list Z) : M world Z :=
  match attempts with
  | O => serial_close ;; ret KNX_TPUART_ERROR
  | Datatypes.S attempts' =>
      serial_write TPUART_RESET_REQ ;;
      match clock with
      | [] => fun _ => Timeout
      | startTime :: clock' =>
          r <- reset_wait clock' startTime startTime ;;
          if fst r then ret KNX_TPUART_OK
          else reset_attempts attempts' (snd r)
      end
  end.

Definition reset (clock : list Z) : M world Z :=
  w <- get ;;
  (if (rx_state (_rx w) >? RX_RESET) || (tx_state (_tx w) >? TX_RESET) then
     serial_close ;;
     upd_rx (set_rx_state RX_RESET) ;;
     upd_tx (set_tx_state TX_RESET)
   else ret tt) ;;
  serial_open ;;
  reset_attempts 10 clock.

Definition init : M world Z :=
  w <- get ;;
  if negb (rx_state (_rx w) =? RX_INIT) || negb (tx_state (_tx w) =? TX_INIT)
  then ret KNX_TPUART_ERROR_NOT_INIT_STATE
  else if _mode (self w) =? BUS_MONITOR then
    serial_write TPUART_ACTIVATEBUSMON_REQ ;;
    ret KNX_TPUART_OK
  else
    match _evtCallbackFct (self w), ackFctPtr (_tx w) with
    | None, _ => ret KNX_TPUART_ERROR_NULL_EVT_CALLBACK_FCT
    | Some _, None => ret KNX_TPUART_ERROR_NULL_ACK_CALLBACK_FCT
    | Some _, Some _ =>
        tpuartCmd <- bytearray [PInt TPUART_SET_ADDR_REQ;
                                PInt (Z.shiftr (_physicalAddr (self w)) 8);
                                PInt (Z.land (_physicalAddr (self w)) 0x0F)] ;;
        serial_write tpuartCmd ;;
        serial_write TPUART_STATE_REQ ;;
        upd_rx (set_rx_state RX_IDLE_WAITING_FOR_CTRL_FIELD) ;;
        upd_tx (set_tx_state TX_IDLE) ;;
        ret KNX_TPUART_OK
    end.

Definition sendTelegram (sentTelegram : KnxTelegram.instance) : M world Z :=
  w <- get ;;
  if negb (tx_state (_tx w) =? TX_IDLE) then ret KNX_TPUART_ERROR
  else
    src <- on_telegrams (KnxTelegram.getSourceAddress sentTelegram) ;;
    (if negb (src =? _physicalAddr (self w)) then
       on_telegrams (KnxTelegram.setSourceAddress sentTelegram (_physicalAddr (self w))) ;;
       on_telegrams (KnxTelegram.updateChecksum sentTelegram)
     else ret tt) ;;
    upd_tx (set_sentTelegram (Some sentTelegram)) ;;
    n <- on_telegrams (KnxTelegram.getTelegramLength sentTelegram) ;;
    upd_tx (set_nbRemainingBytes n) ;;
    upd_tx (set_txByteIndex 0) ;;
    upd_tx (set_tx_state TX_TELEGRAM_SENDING_ONGOING) ;;
    ret KNX_TPUART_OK.

Definition setEvtCallback (evtCallbackFct : option callable) : M world Z :=
  w <- get ;;
  match evtCallbackFct with
  | None => ret KNX_TPUART_ERROR
  | Some _ =>
      if negb (rx_state (_rx w) =? RX_INIT) || negb (tx_state (_tx w) =? TX_INIT)
      then ret KNX_TPUART_ERROR_NOT_INIT_STATE
      else upd_self (set_evtCallbackFct evtCallbackFct) ;; ret KNX_TPUART_OK
  end.

Definition setAckCallback (ackFctPtr : option callable) : M world Z :=
  w <- get ;;
  match ackFctPtr with
  | None => ret KNX_TPUART_ERROR
  | Some _ =>
      if negb (rx_state (_rx w) =? RX_INIT) || negb (tx_state (_tx w) =? TX_INIT)
      then ret KNX_TPUART_ERROR_NOT_INIT_STATE
      else upd_tx (set_ackFctPtr ackFctPtr) ;; ret KNX_TPUART_OK
  end.

Definition getTargetedComObjectIndex : M world pyval :=
  gets (fun w => addressedComObjectIndex (_rx w)).

Definition getReceivedTelegram : M world KnxTelegram.instance :=
  gets (fun w => receivedTelegram (_rx w)).

(** [isCom(objectList, index)] *)
Definition isCom {S} (objectList : list KnxComObject.t) (index : Z) : M S Z :=
  o <- list_getitem objectList index ;;
  ret (Z.land (KnxComObject.getIndicator o) KnxComObject.KNX_COM_OBJ_C_INDICATOR).

(** [isCom(j)]: the call in the de-duplication loop passes one argument
    to a function of two, so it raises [TypeError] before the body runs. *)
Definition isCom_one_argument {S} (j : Z) : M S Z := raise TypeError.

(** [self._comObjectsList[self._orderedIndexTable[k]].getAddress()] *)
Definition address_at (k : Z) : M world Z :=
  w <- get ;;
  match _orderedIndexTable (self w) with
  | None => raise TypeError
  | Some table =>
      c <- list_getitem table k ;;
      match _comObjectsList (self w), c with
      | Some l, PInt j => o <- list_getitem l j ;; ret (KnxComObject.getAddress o)
      | _, _ => raise TypeError
      end
  end.

(** [self._orderedIndexTable[k]] *)
Definition table_at (k : Z) : M world pyval :=
  w <- get ;;
  match _orderedIndexTable (self w) with
  | None => raise TypeError
  | Some table => list_getitem table k
  end.

(** [self._orderedIndexTable[k] = v] *)
Definition table_set (k : Z) (v : pyval) : M world unit :=
  w <- get ;;
  match _orderedIndexTable (self w) with
  | None => raise TypeError
  | Some table =>
      table' <- list_setitem table k v ;;
      upd_self (set_orderedIndexTable (Some table'))
  end.

(** [isAddressedAssigned(addr, index)]; both [while] loops draw on [fuel].
    The result is [True], [False], or [None] when control falls off the
    end. *)
Definition isAddressedAssigned (fuel : nat) (addr : Z) (index : pyval) : M world pyval :=
  w <- get ;;
  if _assignedComObjectsNb (self w) =? 0 then ret (PBool false)
  else
    v <- while_ fuel (4, 0)
           (fun '(i, divisionCounter) =>
              w <- get ;;
              ret (negb (Z.shiftr (_assignedComObjectsNb (self w)) i =? 0)))
           (fun '(i, divisionCounter) => ret (i, divisionCounter + 1)) ;;
    let divisionCounter := snd v in
    w <- get ;;
    let searchIndexStart := 0 in
    let searchIndexStop := _assignedComObjectsNb (self w) - 1 in
    let searchIndexRange := _assignedComObjectsNb (self w) in
    v <- while_ fuel (divisionCounter, searchIndexStart, searchIndexStop, searchIndexRange)
           (fun '(divisionCounter, _, _, _) => ret (negb (divisionCounter =? 0)))
           (fun '(divisionCounter, searchIndexStart, searchIndexStop, searchIndexRange) =>
              let searchIndexRange := Z.shiftr searchIndexRange 1 in
              a <- address_at (searchIndexStart + searchIndexRange) ;;
              if addr >=? a
              then ret (divisionCounter - 1, searchIndexStart + searchIndexRange,
                        searchIndexStop, searchIndexRange)
              else ret (divisionCounter - 1, searchIndexStart,
                        searchIndexStop - searchIndexRange, searchIndexRange)) ;;
    let '(_, searchIndexStart, searchIndexStop, _) := v in
    r <- for_each_return (range searchIndexStart searchIndexStop) (fun i =>
           a <- address_at i ;;
           if a =? addr then
             index <- table_at i ;;
             upd_module (set_global_addressedComObjectIndex index) ;;
             ret (Some (PBool true))
           else if i >? searchIndexStop then ret (Some (PBool false))
           else ret None) ;;
    match r with
    | Some v => ret v
    | None => ret PNone
    end.

Definition attachComObjectsList (comObjectsList : option (list KnxComObject.t))
    (listSize : option Z) : M world Z :=
  w <- get ;;
  if negb (rx_state (_rx w) =? RX_INIT) || negb (tx_state (_tx w) =? TX_INIT)
  then ret KNX_TPUART_ERROR_NOT_INIT_STATE
  else
    (match _orderedIndexTable (self w) with
     | Some _ =>
         upd_self (set_orderedIndexTable None) ;;
         upd_self (set_comObjectsList None) ;;
         upd_self (set_assignedComObjectsNb 0)
     | None => ret tt
     end) ;;
    match comObjectsList, listSize with
    | Some comObjectsList, Some listSize =>
        if listSize =? 0 then ret KNX_TPUART_OK
        else
          for_each (range 0 listSize) (fun i =>
            c <- isCom comObjectsList i ;;
            if negb (c =? 0)
            then upd_self (fun s => set_assignedComObjectsNb (_assignedComObjectsNb s + 1) s)
            else ret tt) ;;
          w <- get ;;
          if _assignedComObjectsNb (self w) =? 0 then ret KNX_TPUART_OK
          else
            for_each (range 0 listSize) (fun i =>
              c <- isCom comObjectsList i ;;
              if negb (c =? 0) then ret tt
              else
                for_each_return (range 0 listSize) (fun j =>
                  if negb (i =? j) then
                    oj <- list_getitem comObjectsList j ;;
                    oi <- list_getitem comObjectsList i ;;
                    if negb (KnxComObject.getAddress oj =? KnxComObject.getAddress oi) then
                      c <- isCom_one_argument j ;;
                      if negb (c =? 0) then
                        if j <? i then ret (Some tt)
                        else
                          upd_self (fun s =>
                            set_assignedComObjectsNb (_assignedComObjectsNb s - 1) s) ;;
                          ret None
                      else ret None
                    else ret None
                  else ret None) ;;
                ret tt) ;;
            upd_self (set_comObjectsList (Some comObjectsList)) ;;
            w <- get ;;
            upd_self (set_orderedIndexTable
                        (Some (none_list (_assignedComObjectsNb (self w))))) ;;
            w <- get ;;
            for_fold (range 0 (_assignedComObjectsNb (self w))) (0x0000, 0xFFFF)
              (fun '(minMin, foundMin) i =>
                 foundMin <- for_fold (range 0 listSize) foundMin (fun foundMin j =>
                   c <- isCom comObjectsList j ;;
                   if negb (c =? 0) then
                     oj <- list_getitem comObjectsList j ;;
                     if KnxComObject.getAddress oj >=? minMin then
                       oi <- list_getitem comObjectsList i ;;
                       if KnxComObject.getAddress oi <=? foundMin then
                         table_set i (PInt j) ;;
                         ret (KnxComObject.getAddress oj)
                       else ret foundMin
                     else ret foundMin
                   else ret foundMin) ;;
                 ret (foundMin + 1, 0xFF)) ;;
            ret KNX_TPUART_OK
    | _, _ => ret KNX_TPUART_OK
    end.

(** [RxTask()].  [nowTime] is the reading of [micros()] taken for the
    inter-byte timeout, [rxTime] the one taken when a byte is read. *)
Definition RxTask (fuel : nat) (nowTime rxTime : Z) : M world unit :=
  w <- get ;;
  (if rx_state (_rx w) >=? RX_EIB_TELEGRAM_RECEPTION_STARTED then
     if nowTime - _lastByteRxTimeMicrosec (module w) >? 2000 then
       let rxState := rx_state (_rx w) in
       (if rxState =? RX_EIB_TELEGRAM_RECEPTION_LENGTH_INVALID then
          call_evt TPUART_EVENT_EIB_TELEGRAM_RECEPTION_ERROR
        else if rxState =? RX_EIB_TELEGRAM_RECEPTION_ADDRESSED then
          ok <- on_telegrams (KnxTelegram.isChecksumCorrect (_telegram (module w))) ;;
          if ok then
            on_telegrams (KnxTelegram.copy (_telegram (module w))
                                           (receivedTelegram (_rx w))) ;;
            upd_rx (set_addressedComObjectIndex
                      (_addressedComObjectIndex (module w))) ;;
            call_evt TPUART_EVENT_RECEIVED_EIB_TELEGRAM
          else ret tt
        else
          call_evt TPUART_EVENT_EIB_TELEGRAM_RECEPTION_ERROR) ;;
       upd_rx (set_rx_state RX_IDLE_WAITING_FOR_CTRL_FIELD)
     else ret tt
   else ret tt) ;;
  n <- serial_inWaiting ;;
  if n >? 0 then
    incomingByte <- serial_read ;;
    upd_module (set_global_lastByteRxTimeMicrosec rxTime) ;;
    w <- get ;;
    if rx_state (_rx w) =? RX_IDLE_WAITING_FOR_CTRL_FIELD then
      if Z.land incomingByte EIB_CONTROL_FIELD_PATTERN_MASK =? EIB_CONTROL_FIELD_VALID_PATTERN then
        upd_rx (set_rx_state RX_EIB_TELEGRAM_RECEPTION_STARTED) ;;
        upd_module (set_global_readBytesNb 1) ;;
        on_telegrams (KnxTelegram.writeRawByte (_telegram (module w)) (PInt incomingByte) 0)
      else if incomingByte =? first TPUART_DATA_CONFIRM_SUCCESS then
        if tx_state (_tx w) =? TX_WAITING_ACK then
          call_ack ACK_RESPONSE ;;
          upd_tx (set_tx_state TX_IDLE)
        else ret tt
      else if incomingByte =? first TPUART_RESET_INDICATION then
        (if (tx_state (_tx w) =? TX_TELEGRAM_SENDING_ONGOING)
            || (tx_state (_tx w) =? TX_WAITING_ACK)
         then call_ack TPUART_RESET_RESPONSE else ret tt) ;;
        upd_tx (set_tx_state TX_STOPPED) ;;
        upd_rx (set_rx_state RX_STOPPED) ;;
        call_evt TPUART_EVENT_RESET
      else if Z.land incomingByte TPUART_STATE_INDICATION_MASK =? first TPUART_STATE_INDICATION then
        call_evt TPUART_EVENT_STATE_INDICATION ;;
        upd_self (set_stateIndication incomingByte)
      else if incomingByte =? first TPUART_DATA_CONFIRM_FAILED then
        if tx_state (_tx w) =? TX_WAITING_ACK then
          call_ack NACK_RESPONSE ;;
          upd_tx (set_tx_state TX_IDLE)
        else ret tt
      else ret tt
    else if rx_state (_rx w) =? RX_EIB_TELEGRAM_RECEPTION_STARTED then
      on_telegrams (KnxTelegram.writeRawByte (_telegram (module w)) (PInt incomingByte)
                                             (_readBytesNb (module w))) ;;
      upd_module (fun g => set_global_readBytesNb (_readBytesNb g + 1) g) ;;
      w <- get ;;
      if _readBytesNb (module w) =? 3 then
        src <- on_telegrams (KnxTelegram.getSourceAddress (_telegram (module w))) ;;
        if src =? _physicalAddr (self w)
        then upd_rx (set_rx_state RX_EIB_TELEGRAM_RECEPTION_NOT_ADDRESSED)
        else ret tt
      else if _readBytesNb (module w) =? 6 then
        target <- on_telegrams (KnxTelegram.getTargetAddress (_telegram (module w))) ;;
        assigned <- isAddressedAssigned fuel target (_addressedComObjectIndex (module w)) ;;
        if truthy assigned then
          upd_rx (set_rx_state RX_EIB_TELEGRAM_RECEPTION_ADDRESSED) ;;
          serial_write TPUART_RX_ACK_SERVICE_ADDRESSED
        else
          upd_rx (set_rx_state RX_EIB_TELEGRAM_RECEPTION_NOT_ADDRESSED) ;;
          serial_write TPUART_RX_ACK_SERVICE_NOT_ADDRESSED
      else ret tt
    else if rx_state (_rx w) =? RX_EIB_TELEGRAM_RECEPTION_ADDRESSED then
      if _readBytesNb (module w) =? KNX_TELEGRAM_MAX_SIZE
      then upd_rx (set_rx_state RX_EIB_TELEGRAM_RECEPTION_LENGTH_INVALID)
      else
        on_telegrams (KnxTelegram.writeRawByte (_telegram (module w)) (PInt incomingByte)
                                               (_readBytesNb (module w))) ;;
        upd_module (fun g => set_global_readBytesNb (_readBytesNb g + 1) g)
    else ret tt
  else ret tt.

(** The two statements that fill [_txByte] and write it to the port. *)
Definition send_byte (service : Z) : M world unit :=
  w <- get ;;
  b0 <- list_setitem (_txByte (module w)) 0 (PInt (service + txByteIndex (_tx w))) ;;
  upd_module (set_global_txByte b0) ;;
  match sentTelegram (_tx w) with
  | None => raise AttributeError
  | Some t =>
      v <- on_telegrams (KnxTelegram.readRawByte t (txByteIndex (_tx w))) ;;
      b1 <- list_setitem b0 1 v ;;
      upd_module (set_global_txByte b1) ;;
      data <- bytearray b1 ;;
      serial_write data
  end.

(** [TxTask()].  [nowTime] is the reading of [millis()] taken for the
    acknowledge timeout, [sentTime] the one taken after the last byte of a
    telegram was written. *)
Definition TxTask (nowTime sentTime : Z) : M world unit :=
  w <- get ;;
  (if tx_state (_tx w) =? TX_WAITING_ACK then
     upd_module (set_global_nowTime nowTime) ;;
     if nowTime - _sentMessageTimeMillisec (module w) >? 500 then
       call_ack NO_ANSWER_TIMEOUT ;;
       upd_tx (set_tx_state TX_IDLE)
     else ret tt
   else ret tt) ;;
  w <- get ;;
  if tx_state (_tx w) =? TX_TELEGRAM_SENDING_ONGOING then
    if negb (rx_state (_rx w) =? RX_EIB_TELEGRAM_RECEPTION_STARTED) then
      if nbRemainingBytes (_tx w) =? 1 then
        send_byte (first TPUART_DATA_END_REQ) ;;
        upd_module (set_global_sentMessageTimeMillisec sentTime) ;;
        upd_tx (set_tx_state TX_WAITING_ACK)
      else
        send_byte (first TPUART_DATA_START_CONTINUE_REQ) ;;
        upd_tx (fun t => set_txByteIndex (txByteIndex t + 1) t) ;;
        upd_tx (fun t => set_nbRemainingBytes (nbRemainingBytes t - 1) t)
    else ret tt
  else ret tt.

End KnxTPUart.

(* ===================================================================== *)
(** ** KnxDevice.py: the device coordinator *)
(* ===================================================================== *)

Module KnxDevice.

Definition NORMAL := 0.
Definition BUS_MONITOR := 1.
Definition INIT := 0.
Definition IDLE := 1.
Definition TX_ONGOING := 2.

Definition KNX_DEVICE_OK := 0.
Definition KNX_DEVICE_ERROR := 255.

Definition ACTIONS_QUEUE_SIZE := 16.

Definition EIB_READ_REQUEST := 0.
Definition EIB_WRITE_REQUEST := 1.
Definition EIB_RESPONSE_REQUEST := 2.

Definition KNX_COMMAND_VALUE_READ := 0.
Definition KNX_COMMAND_VALUE_RESPONSE := 1.
Definition KNX_COMMAND_VALUE_WRITE := 2.

(** [class tx_action]: every attribute defaults to [None]. *)
Record tx_action := {
  command : pyval;
  index : pyval;
  byteValue : pyval;
  notUsed : pyval;
  valuePtr : pyval
}.

(** [tx_action()] *)
Definition new_tx_action : tx_action :=
  {| command := PNone; index := PNone; byteValue := PNone;
     notUsed := PNone; valuePtr := PNone |}.

Definition set_command (v : pyval) (a : tx_action) : tx_action :=
  {| command := v; index := index a; byteValue := byteValue a;
     notUsed := notUsed a; valuePtr := valuePtr a |}.
Definition set_index (v : pyval) (a : tx_action) : tx_action :=
  {| command := command a; index := v; byteValue := byteValue a;
     notUsed := notUsed a; valuePtr := valuePtr a |}.
Definition set_byteValue (v : pyval) (a : tx_action) : tx_action :=
  {| command := command a; index := index a; byteValue := v;
     notUsed := notUsed a; valuePtr := valuePtr a |}.
Definition set_valuePtr (v : pyval) (a : tx_action) : tx_action :=
  {| command := command a; index := index a; byteValue := byteValue a;
     notUsed := notUsed a; valuePtr := v |}.

(** The device with the module [KnxTPUart] below it.  [tpuart] is the
    state of that module, which holds the telegram store; [_tpuart] tells
    whether the attribute of that name is bound to the link instance
    ([begin] binds it) or is still [None]. *)
Record t := {
  tpuart : KnxTPUart.world;
  _tpuart : bool;
  _comObjectsList : option (list KnxComObject.t);
  _comObjectsNb : Z;
  _state : Z;
  _txTelegram : KnxTelegram.instance;
  _txActionsList : ActionRingBuffer.t tx_action
}.

Definition set_tpuart (v : KnxTPUart.world) (d : t) : t :=
  {| tpuart := v; _tpuart := _tpuart d; _comObjectsList := _comObjectsList d;
     _comObjectsNb := _comObjectsNb d; _state := _state d;
     _txTelegram := _txTelegram d; _txActionsList := _txActionsList d |}.
Definition set_comObjectsList (v : option (list KnxComObject.t)) (d : t) : t :=
  {| tpuart := tpuart d; _tpuart := _tpuart d; _comObjectsList := v;
     _comObjectsNb := _comObjectsNb d; _state := _state d;
     _txTelegram := _txTelegram d; _txActionsList := _txActionsList d |}.
Definition set_state (v : Z) (d : t) : t :=
  {| tpuart := tpuart d; _tpuart := _tpuart d; _comObjectsList := _comObjectsList d;
     _comObjectsNb := _comObjectsNb d; _state := v;
     _txTelegram := _txTelegram d; _txActionsList := _txActionsList d |}.
Definition set_txActionsList (v : ActionRingBuffer.t tx_action) (d : t) : t :=
  {| tpuart := tpuart d; _tpuart := _tpuart d; _comObjectsList := _comObjectsList d;
     _comObjectsNb := _comObjectsNb d; _state := _state d;
     _txTelegram := _txTelegram d; _txActionsList := v |}.

Definition on_tpuart {A} (m : M KnxTPUart.world A) : M t A :=
  d <- get ;;
  if _tpuart d then zoom tpuart set_tpuart m else raise AttributeError.

Definition on_telegrams {A} (m : M KnxTelegram.store A) : M t A :=
  zoom tpuart set_tpuart (KnxTPUart.on_telegrams m).

Definition on_txActionsList {A} (m : M (ActionRingBuffer.t tx_action) A) : M t A :=
  zoom _txActionsList set_txActionsList m.

(** [self._comObjectsList[index]], read. *)
Definition comObject (index : pyval) : M t KnxComObject.t :=
  d <- get ;;
  match _comObjectsList d, index with
  | Some l, PInt i => list_getitem l i
  | _, _ => raise TypeError
  end.

(** [self._comObjectsList[index].updateValue(ori)]: the method runs on the
    object stored in the list and on the telegram store. *)
Definition comObject_updateValue (index : pyval) (ori : pyval) : M t pyval :=
  o <- comObject index ;;
  d <- get ;;
  match _comObjectsList d, index with
  | Some l, PInt i =>
      zoom (fun d => (KnxTPUart.telegrams (tpuart d), o))
           (fun p d =>
              set_comObjectsList
                (match py_index l i with
                 | Some k => Some (<[k := snd p]> l)
                 | None => Some l
                 end)
                (set_tpuart (KnxTPUart.set_telegrams (fst p) (tpuart d)) d))
           (KnxComObject.updateValue ori)
  | _, _ => raise TypeError
  end.

(** The telegram composition shared by the three kinds of action:
    [command] is written, the checksum updated and the telegram handed to
    the link. *)
Definition send (command : Z) : M t unit :=
  d <- get ;;
  on_telegrams (KnxTelegram.setCommand (_txTelegram d) command) ;;
  on_telegrams (KnxTelegram.updateChecksum (_txTelegram d)) ;;
  on_tpuart (KnxTPUart.sendTelegram (_txTelegram d)) ;;
  modify (set_state TX_ONGOING).

(** The part of [task()] guarded by [if self._state == IDLE:], which pops
    one action and carries it out. *)
Definition task_actions : M t unit :=
  d <- get ;;
  if _state d =? IDLE then
    action <- on_txActionsList ActionRingBuffer.pop ;;
    match action with
    | ActionRingBuffer.MinusOne => ret tt
    | ActionRingBuffer.Cell None => raise AttributeError
    | ActionRingBuffer.Cell (Some action) =>
        (if eq_int (command action) EIB_READ_REQUEST then
           o <- comObject (index action) ;;
           on_telegrams (KnxComObject.copyAttributes o (_txTelegram d)) ;;
           on_telegrams (KnxTelegram.clearLongPayload (_txTelegram d)) ;;
           on_telegrams (KnxTelegram.clearFirstPayloadByte (_txTelegram d)) ;;
           send KNX_COMMAND_VALUE_READ
         else ret tt) ;;
        (if eq_int (command action) EIB_RESPONSE_REQUEST then
           o <- comObject (index action) ;;
           on_telegrams (KnxComObject.copyAttributes o (_txTelegram d)) ;;
           o <- comObject (index action) ;;
           on_telegrams (KnxComObject.copyValue o (_txTelegram d)) ;;
           send KNX_COMMAND_VALUE_RESPONSE
         else ret tt) ;;
        (if eq_int (command action) EIB_WRITE_REQUEST then
           o <- comObject (index action) ;;
           (if KnxComObject.getLength o <=? 2
            then comObject_updateValue (index action) (byteValue action)
            else comObject_updateValue (index action) (valuePtr action)) ;;
           o <- comObject (index action) ;;
           if negb (Z.land (KnxComObject.getIndicator o)
                           KnxComObject.KNX_COM_OBJ_T_INDICATOR =? 0) then
             o <- comObject (index action) ;;
             on_telegrams (KnxComObject.copyAttributes o (_txTelegram d)) ;;
             o <- comObject (index action) ;;
             on_telegrams (KnxComObject.copyValue o (_txTelegram d)) ;;
             send KNX_COMMAND_VALUE_WRITE
           else ret tt
         else ret tt)
    end
  else ret tt.

(** The state before the module is imported. *)
Definition blank : t :=
  {| tpuart := KnxTPUart.blank;
     _tpuart := false;
     _comObjectsList := None;
     _comObjectsNb := 0;
     _state := INIT;
     _txTelegram := 0%nat;
     _txActionsList := ActionRingBuffer.new 0 |}.

(** Importing the module: [import KnxTPUart] runs that module's body, then
    the class body of [KnxDevice] creates [_rxTelegram], [_txTelegram] and
    the action queue. *)
Definition module_body : M t unit :=
  zoom tpuart set_tpuart KnxTPUart.module_body ;;
  _rxTelegram <- on_telegrams KnxTelegram.new ;;
  _txTelegram <- on_telegrams KnxTelegram.new ;;
  modify (fun d => {| tpuart := tpuart d; _tpuart := _tpuart d;
                      _comObjectsList := _comObjectsList d;
                      _comObjectsNb := _comObjectsNb d; _state := _state d;
                      _txTelegram := _txTelegram;
                      _txActionsList := ActionRingBuffer.new ACTIONS_QUEUE_SIZE |}).

(** [Knx = KnxDevice.KnxDevice()], followed by the two assignments of the
    script that bind the com-object list and its size. *)
Definition new (comObjectsList : list KnxComObject.t) : M t unit :=
  modify (set_state INIT) ;;
  modify (fun d => {| tpuart := tpuart d; _tpuart := false;
                      _comObjectsList := Some comObjectsList;
                      _comObjectsNb := Z.of_nat (length comObjectsList);
                      _state := _state d;
                      _txTelegram := _txTelegram d;
                      _txActionsList := _txActionsList d |}).

(** [begin(serial, physicalAddr, Knx, knxEvtCallback)].  [input] is what
    the serial port is going to deliver and [clock] the readings of
    [millis()] that [reset] takes; the two callbacks handed to the link are
    the bound methods [getTpUartEvents] and [txTelegramAck].  The bindings
    of [_Knx], [_knxEventsCallback], [_rxTelegram] and of the two time
    stamps are left out: nothing modelled here reads them. *)
Definition begin (input clock : list Z) (physicalAddr : Z) : M t Z :=
  zoom tpuart set_tpuart (KnxTPUart.new input physicalAddr NORMAL) ;;
  modify (fun d => {| tpuart := tpuart d; _tpuart := true;
                      _comObjectsList := _comObjectsList d;
                      _comObjectsNb := _comObjectsNb d; _state := _state d;
                      _txTelegram := _txTelegram d;
                      _txActionsList := _txActionsList d |}) ;;
  r <- on_tpuart (KnxTPUart.reset clock) ;;
  if negb (r =? KnxTPUart.KNX_TPUART_OK) then
    modify (fun d => {| tpuart := tpuart d; _tpuart := false;
                        _comObjectsList := _comObjectsList d;
                        _comObjectsNb := _comObjectsNb d; _state := _state d;
                        _txTelegram := _txTelegram d;
                        _txActionsList := _txActionsList d |}) ;;
    ret KNX_DEVICE_ERROR
  else
    d <- get ;;
    on_tpuart (KnxTPUart.attachComObjectsList (_comObjectsList d) (Some (_comObjectsNb d))) ;;
    on_tpuart (KnxTPUart.setEvtCallback (Some (KnxTPUart.Function 0))) ;;
    on_tpuart (KnxTPUart.setAckCallback (Some (KnxTPUart.Function 1))) ;;
    on_tpuart KnxTPUart.init ;;
    modify (set_state IDLE) ;;
    ret KNX_DEVICE_OK.

Definition G_ADDR (maingrp midgrp subgrp : Z) : Z :=
  Z.shiftl (Z.land maingrp 0x1F) 11 + Z.shiftl (Z.land midgrp 0x7) 8 + subgrp.

Definition P_ADDR (area line busdevice : Z) : Z :=
  Z.shiftl (Z.land area 0xF) 12 + Z.shiftl (Z.land line 0xF) 8 + busdevice.

(** [read(index)] *)
Definition read (index : pyval) : M t pyval :=
  o <- comObject index ;;
  ret (KnxComObject.getValue o).

(** [write(objectIndex, value)] *)
Definition write (objectIndex : pyval) (value : pyval) : M t Z :=
  let action := new_tx_action in
  o <- comObject objectIndex ;;
  let length := KnxComObject.getLength o in
  action <- (if length <=? 2 then
               v <- as_int value ;;
               ret (set_byteValue (PInt (Z.land v 0xFF)) action)
             else
               let destValue := none_list (length - 1) in
               ret (set_valuePtr (PList destValue) action)) ;;
  let action := set_command (PInt EIB_WRITE_REQUEST) action in
  let action := set_index objectIndex action in
  on_txActionsList (ActionRingBuffer.append action) ;;
  ret KNX_DEVICE_OK.

End KnxDevice.

(* ===================================================================== *)
(** ** Vocabulary of the properties *)
(* ===================================================================== *)

(** What the caller observes of a run: the returned value, the exception
    that escaped, or no return at all. *)
Inductive observed (A : Type) :=
| Returned (a : A)
| Raised (e : exn)
| Diverged.
Arguments Returned {A} a.
Arguments Raised {A} e.
Arguments Diverged {A}.

Definition observe {S A} (o : outcome S A) : observed A :=
  match o with
  | Ret a _ => Returned a
  | Exc e _ => Raised e
  | Timeout => Diverged
  end.

(** The state a run ends in, when it ends. *)
Definition final {S A} (o : outcome S A) : option S :=
  match o with
  | Ret _ s => Some s
  | Exc _ s => Some s
  | Timeout => None
  end.

(** Started in a state with [P], the computation [m] ends, by a return or
    by an exception, in a state with [P]. *)
Definition keeps {S A} (P : S -> Prop) (m : M S A) : Prop :=
  forall s, P s ->
    match m s with
    | Ret _ s' => P s'
    | Exc _ s' => P s'
    | Timeout => False
    end.

(** *** Clients of the telegram class *)

Module Client.
Import KnxTelegram.

(** One call of a method of [KnxTelegram] that touches the store, or of
    the constructor. *)
Inductive method_call :=
| Construct
| ClearTelegram (self : instance)
| GetCommand (self : instance)
| GetPayloadLength (self : instance)
| GetFirstPayloadByte (self : instance)
| GetLongPayload (self : instance) (destination : pyval) (nbOfBytes : Z)
| GetTelegramLength (self : instance)
| GetChecksum (self : instance)
| GetSourceAddress (self : instance)
| GetTargetAddress (self : instance)
| SetTargetAddress (self : instance) (addr : Z)
| SetPayloadLength (self : instance) (length : Z)
| SetCommand (self : instance) (command : Z)
| SetSourceAddress (self : instance) (addr : Z)
| SetFirstPayloadByte (self : instance) (data : pyval)
| SetLongPayload (self : instance) (origin : pyval) (nbOfBytes : Z)
| IsChecksumCorrect (self : instance)
| CalculateChecksum (self : instance)
| UpdateChecksum (self : instance)
| Copy (self dest : instance)
| WriteRawByte (self : instance) (data : pyval) (byteIndex : Z)
| ReadRawByte (self : instance) (byteIndex : Z)
| ChangePriority (self : instance) (priority : Z)
| ClearLongPayload (self : instance)
| ClearFirstPayloadByte (self : instance).

(** Run a method for its effect on the store. *)
Definition effect {A} (m : M store A) : M store unit := m ;; ret tt.

Definition run_call (c : method_call) : M store unit :=
  match c with
  | Construct => effect new
  | ClearTelegram self => clearTelegram self
  | GetCommand self => effect (getCommand self)
  | GetPayloadLength self => effect (getPayloadLength self)
  | GetFirstPayloadByte self => effect (getFirstPayloadByte self)
  | GetLongPayload self destination nbOfBytes =>
      fun st => match getLongPayload self nbOfBytes (st, destination) with
                | Ret _ p => Ret tt (fst p)
                | Exc e p => Exc e (fst p)
                | Timeout => Timeout
                end
  | GetTelegramLength self => effect (getTelegramLength self)
  | GetChecksum self => effect (getChecksum self)
  | GetSourceAddress self => effect (getSourceAddress self)
  | GetTargetAddress self => effect (getTargetAddress self)
  | SetTargetAddress self addr => setTargetAddress self addr
  | SetPayloadLength self length => setPayloadLength self length
  | SetCommand self command => setCommand self command
  | SetSourceAddress self addr => setSourceAddress self addr
  | SetFirstPayloadByte self data => setFirstPayloadByte self data
  | SetLongPayload self origin nbOfBytes => setLongPayload self origin nbOfBytes
  | IsChecksumCorrect self => effect (isChecksumCorrect self)
  | CalculateChecksum self => effect (calculateChecksum self)
  | UpdateChecksum self => updateChecksum self
  | Copy self dest => copy self dest
  | WriteRawByte self data byteIndex => writeRawByte self data byteIndex
  | ReadRawByte self byteIndex => effect (readRawByte self byteIndex)
  | ChangePriority self priority => changePriority self priority
  | ClearLongPayload self => clearLongPayload self
  | ClearFirstPayloadByte self => clearFirstPayloadByte self
  end.

(** Any program over telegrams, as the sequence of its calls, started in
    the store the class body leaves. *)
Definition run_calls (cs : list method_call) : outcome store unit :=
  for_each cs run_call class_body.

(** All attribute lookups of [_telegram] end at the class attribute, which
    holds a list of 23 cells. *)
Definition one_buffer (st : store) : Prop :=
  instance_telegram st = ∅ /\
  exists b, lists st !! class_telegram st = Some b /\ length b = 23%nat.

(** The buffer as [clearTelegram] leaves it. *)
Definition cleared : list pyval :=
  PInt CONTROL_FIELD_DEFAULT_VALUE :: replicate 4 (PInt 0)
  ++ PInt ROUTING_FIELD_DEFAULT_VALUE :: replicate 17 (PInt 0).

End Client.

(** *** The ring buffer as a queue *)

Section Queue.
Context {A : Type}.
Import ActionRingBuffer.

(** [rb] holds the queue [q], oldest element first: the cells from
    [_head] on, modulo [_size], are the elements of [q], and [_tail] is the
    cell after the last of them. *)
Definition holds (rb : ActionRingBuffer.t A) (q : list A) : Prop :=
  0 < _size rb /\
  length (_buffer rb) = Z.to_nat (_size rb) /\
  0 <= _head rb < _size rb /\
  _elementsCurrentNb rb = Z.of_nat (length q) /\
  Z.of_nat (length q) <= _size rb /\
  _tail rb = (_head rb + Z.of_nat (length q)) mod _size rb /\
  forall i x, q !! i = Some x ->
    _buffer rb !! Z.to_nat ((_head rb + Z.of_nat i) mod _size rb) = Some (Some x).

(** The last [n] elements of [l]. *)
Definition last_n (n : nat) (l : list A) : list A := drop (length l - n) l.

(** The queue after one more element arrives, with room for [n]. *)
Definition enqueue (n : nat) (q : list A) (x : A) : list A :=
  if (length q <? n)%nat then q ++ [x] else tail q ++ [x].

(** One call on the buffer. *)
Inductive queue_call :=
| Append (x : A)
| Pop.

(** The calls [cs] in order; the result lists what the pops returned. *)
Fixpoint run_queue_calls (cs : list queue_call)
  : M (ActionRingBuffer.t A) (list (ActionRingBuffer.popped A)) :=
  match cs with
  | [] => ret []
  | Append x :: cs' => append x ;; run_queue_calls cs'
  | Pop :: cs' => r <- pop ;; rs <- run_queue_calls cs' ;; ret (r :: rs)
  end.

(** The same calls on a plain queue [q] with room for [n] that drops its
    oldest element when full: what the pops return, and the queue left. *)
Fixpoint queue_calls (n : nat) (cs : list queue_call) (q : list A)
  : list (ActionRingBuffer.popped A) * list A :=
  match cs with
  | [] => ([], q)
  | Append x :: cs' => queue_calls n cs' (enqueue n q x)
  | Pop :: cs' =>
      match q with
      | [] => let r := queue_calls n cs' [] in (MinusOne :: fst r, snd r)
      | y :: q' => let r := queue_calls n cs' q' in (Cell (Some y) :: fst r, snd r)
      end
  end.

End Queue.
Arguments queue_call : clear implicits.

(** *** Frames *)

Section Frames.
Import KnxTelegram.

(** All telegram instances read the frame [zs]: the one list holds the
    integers [zs], 23 of them. *)
Definition frame (st : store) (zs : list Z) : Prop :=
  Client.one_buffer st /\ lists st !! class_telegram st = Some (PInt <$> zs).

(** Started on the frame [zs], [m] returns [a] and leaves the frame [zs']. *)
Definition yields {A} (m : M store A) (zs : list Z) (a : A) (zs' : list Z) : Prop :=
  forall st, frame st zs -> exists st', m st = Ret a st' /\ frame st' zs'.

(** On the frame [zs], [m] returns [a] and leaves the store as it is. *)
Definition reads {A} (m : M store A) (zs : list Z) (a : A) : Prop :=
  forall st, frame st zs -> m st = Ret a st.

(** The XOR of a run of cells. *)
Definition xor_all (zs : list Z) : Z := fold_left Z.lxor zs 0.

(** The cell of the frame at an offset. *)
Definition cell (zs : list Z) (i : Z) : Z := default 0 (zs !! Z.to_nat i).

(** The frame [clearTelegram] leaves. *)
Definition cleared_frame : list Z :=
  CONTROL_FIELD_DEFAULT_VALUE :: replicate 4 0
  ++ ROUTING_FIELD_DEFAULT_VALUE :: replicate 17 0.

End Frames.

(** *** Scenarios *)

Module Scenario.

(** A stand-in for the external DPT table: DPT 0 is one bit wide (a switch,
    as in the example script), DPT 1 eight bits, DPT 2 sixteen bits; the
    object lengths are 1, 2 and 3. *)
Definition dptBits (dptId : Z) : Z :=
  if dptId =? 0 then 1 else if dptId =? 1 then 8 else 16.

(** The com-objects of [example_script.py]. *)
Definition example_objects : list KnxComObject.t :=
  [ KnxComObject.new dptBits (KnxDevice.G_ADDR 0 0 1) 0 0x2E;
    KnxComObject.new dptBits (KnxDevice.G_ADDR 0 0 1) 0 0x2C ].

(** C-flagged one-bit objects at the given group addresses. *)
Definition objects_at (addrs : list Z) : list KnxComObject.t :=
  map (fun a => KnxComObject.new dptBits a 0 0x2E) addrs.

Definition physicalAddr : Z := KnxDevice.P_ADDR 1 1 3.

(** The link once imported, constructed and reset, the transceiver
    answering the reset request at once; [input] is what it delivers
    afterwards. *)
Definition reset_link (input : list Z) : M KnxTPUart.world Z :=
  KnxTPUart.module_body ;;
  KnxTPUart.new (0x03 :: input) physicalAddr 0 ;;
  KnxTPUart.reset [0; 1].

(** The same, followed by the attachment of [objs]; the result is the
    status [attachComObjectsList] returns. *)
Definition attach (objs : list KnxComObject.t) (input : list Z) : M KnxTPUart.world Z :=
  reset_link input ;;
  KnxTPUart.attachComObjectsList (Some objs) (Some (Z.of_nat (length objs))).

(** The same, followed by the binding of the callbacks and [init]. *)
Definition start (objs : list KnxComObject.t) (input : list Z) : M KnxTPUart.world Z :=
  attach objs input ;;
  KnxTPUart.setEvtCallback (Some (KnxTPUart.Function 0)) ;;
  KnxTPUart.setAckCallback (Some (KnxTPUart.Function 1)) ;;
  KnxTPUart.init.

(** One call of [RxTask] at each of the given readings of [micros()]. *)
Definition rx_ticks (times : list Z) : M KnxTPUart.world unit :=
  for_each times (fun now => KnxTPUart.RxTask 1 now now).

(** A WRITE telegram from 1.1.1 to group 0/0/1 with payload length 1 and
    value 1, followed by the given checksum byte. *)
Definition write_frame (checksum : Z) : list Z :=
  [0xBC; 0x11; 0x01; 0x00; 0x01; 0xE1; 0x00; 0x81; checksum].

(** The link of the example script after it received [write_frame], one
    byte every 100 microseconds. *)
Definition received (checksum : Z) : M KnxTPUart.world unit :=
  start example_objects (write_frame checksum) ;;
  rx_ticks (map (fun k => 100 * k) (seqZ 1 9)).

(** The device of a script with the com-objects [objs], imported,
    constructed and begun; [input] is what the transceiver delivers after
    the reset indication. *)
Definition begun (objs : list KnxComObject.t) (input : list Z) : M KnxDevice.t Z :=
  KnxDevice.module_body ;;
  KnxDevice.new objs ;;
  KnxDevice.begin (0x03 :: input) [0; 1] physicalAddr.

(** A device with one transmitting one-bit object that wrote the value 1:
    the action was carried out and [TxTask] ran once per byte of the
    9-byte telegram, at the readings 1 to 9 of [millis()]. *)
Definition sent (input : list Z) : M KnxDevice.t unit :=
  begun [KnxComObject.new dptBits (KnxDevice.G_ADDR 0 0 1) 0 0x2C] input ;;
  KnxDevice.write (PInt 0) (PInt 1) ;;
  KnxDevice.task_actions ;;
  for_each (seqZ 1 9) (fun now => KnxDevice.on_tpuart (KnxTPUart.TxTask now now)).

(** The telegram store after one [KnxTelegram()]. *)
Definition fresh_store : KnxTelegram.store :=
  default KnxTelegram.class_body (final (KnxTelegram.new KnxTelegram.class_body)).

(** The link a scenario ends in. *)
Definition link_after {A} (m : M KnxTPUart.world A) : KnxTPUart.world :=
  default KnxTPUart.blank (final (m KnxTPUart.blank)).

(** The link below the device a scenario ends in. *)
Definition link_below {A} (m : M KnxDevice.t A) : KnxTPUart.world :=
  default KnxTPUart.blank (KnxDevice.tpuart <$> final (m KnxDevice.blank)).

End Scenario.

(** *** The serial line *)

Section Line.
Import KnxTPUart.

(** One call of [TxTask] at each of the given readings of [millis()]. *)
Definition tx_ticks (times : list Z) : M world unit :=
  for_each times (fun now => TxTask now now).

(** The bytes a telegram goes out as, from the index [i] on: every byte of
    the telegram follows a service byte that carries its index, 0x80 +
    index, and 0x40 + index for the last byte. *)
Fixpoint framed (i : Z) (bytes : list Z) : list Z :=
  match bytes with
  | [] => []
  | b :: rest =>
      match rest with
      | [] => [0x40 + i; b]
      | _ :: _ => 0x80 + i :: b :: framed (i + 1) rest
      end
  end.

(** The cells of a frame are bytes. *)
Definition all_bytes (zs : list Z) : Prop := Forall (fun z => 0 <= z < 256) zs.

(** No state lies below the reset state, and the port is open only when
    the link has left the reset state, as [reset] arranges it. *)
Definition port_follows_state (w : world) : Prop :=
  RX_RESET <= rx_state (_rx w) /\ TX_RESET <= tx_state (_tx w) /\
  (is_open (_serial (self w)) = true ->
   rx_state (_rx w) > RX_RESET \/ tx_state (_tx w) > TX_RESET).

(** The readings of [millis()] of [n] reset attempts that each give up at
    their second reading. *)
Definition expired (clock : list Z) (n : nat) : Prop :=
  exists pairs : list (Z * Z),
    length pairs = n /\
    Forall (fun p => snd p - fst p >= 1000) pairs /\
    clock = concat (map (fun p => [fst p; snd p]) pairs).

(** The link is sending the telegram [t], whose cells are [zs]: [n] bytes
    remain from the index [i] on, the receiver is not in the middle of a
    header, and the port is open. *)
Definition sending (w : world) (t : KnxTelegram.instance) (zs : list Z) (i n : Z) : Prop :=
  tx_state (_tx w) = TX_TELEGRAM_SENDING_ONGOING /\
  sentTelegram (_tx w) = Some t /\
  txByteIndex (_tx w) = i /\
  nbRemainingBytes (_tx w) = n /\
  rx_state (_rx w) <> RX_EIB_TELEGRAM_RECEPTION_STARTED /\
  is_open (_serial (self w)) = true /\
  length (_txByte (module w)) = 2%nat /\
  frame (telegrams w) zs.

(** The first of the table entries [idx], indices into the list [l], whose
    object is at the address [addr]. *)
Fixpoint first_match (l : list KnxComObject.t) (addr : Z) (idx : list Z) : option Z :=
  match idx with
  | [] => None
  | j :: rest =>
      match l !! Z.to_nat j with
      | Some o =>
          if KnxComObject.getAddress o =? addr then Some j
          else first_match l addr rest
      | None => None
      end
  end.

(** The link has the objects [l] attached: all positions of the table but
    the last hold the indices [idx] into [l], and the last position holds
    [last]. *)
Definition attached (w : world) (l : list KnxComObject.t) (idx : list Z)
    (last : pyval) : Prop :=
  _comObjectsList (self w) = Some l /\
  _orderedIndexTable (self w) = Some ((PInt <$> idx) ++ [last]) /\
  _assignedComObjectsNb (self w) = Z.of_nat (length idx) + 1 /\
  Forall (fun j => 0 <= j < Z.of_nat (length l)) idx.

End Line.

(** The device of [Scenario.sent] before the first [TxTask]: the write
    action was carried out and the telegram handed to the link. *)
Definition armed (input : list Z) : M KnxDevice.t unit :=
  Scenario.begun [KnxComObject.new Scenario.dptBits (KnxDevice.G_ADDR 0 0 1) 0 0x2C] input ;;
  KnxDevice.write (PInt 0) (PInt 1) ;;
  KnxDevice.task_actions.

(** The frame of that telegram: a WRITE of the value 1 from 1.1.3 to the
    group 0/0/1, with its checksum 0x30. *)
Definition armed_frame : list Z :=
  [0xBC; 0x11; 0x03; 0x00; 0x01; 0xE1; 0x00; 0x81; 0x30] ++ replicate 14 0.

(* ===================================================================== *)
(** ** Properties of the telegram codec *)
(* ===================================================================== *)

Section Keeps.
Context {S : Type} (P : S -> Prop).

Lemma keeps_ret {A} (a : A) : keeps P (ret a).
Proof. intros s Hs. exact Hs. Qed.

Lemma keeps_raise {A} (e : exn) : keeps P (@raise S A e).
Proof. intros s Hs. exact Hs. Qed.

Lemma keeps_bind {A B} (m : M S A) (k : A -> M S B) :
  keeps P m -> (forall a, keeps P (k a)) -> keeps P (bind m k).
Proof.
  intros Hm Hk s Hs. unfold bind. specialize (Hm s Hs).
  destruct (m s) as [a s'|e s'|]; [apply Hk| |]; assumption.
Qed.

Lemma keeps_gets {A} (f : S -> A) : keeps P (gets f).
Proof. intros s Hs. exact Hs. Qed.

Lemma keeps_get : keeps P get.
Proof. intros s Hs. exact Hs. Qed.

Lemma keeps_as_int (v : pyval) : keeps P (as_int v).
Proof. intros s Hs. destruct v as [|z|[]|l|o]; exact Hs. Qed.

Lemma keeps_list_getitem {A} (l : list A) (i : Z) : keeps P (list_getitem l i).
Proof.
  intros s Hs. unfold list_getitem.
  destruct (py_index l i) as [k|]; [destruct (l !! k)|]; exact Hs.
Qed.

Lemma keeps_list_setitem {A} (l : list A) (i : Z) (x : A) : keeps P (list_setitem l i x).
Proof.
  intros s Hs. unfold list_setitem. destruct (py_index l i); exact Hs.
Qed.

Lemma keeps_getitem (v : pyval) (i : Z) : keeps P (getitem v i).
Proof.
  destruct v; try apply keeps_raise. apply keeps_list_getitem.
Qed.

Lemma keeps_setitem (v : pyval) (i : Z) (x : pyval) : keeps P (setitem v i x).
Proof.
  destruct v; try apply keeps_raise.
  apply keeps_bind; [apply keeps_list_setitem | intros; apply keeps_ret].
Qed.

Lemma keeps_for_each {X} (xs : list X) (body : X -> M S unit) :
  (forall x, keeps P (body x)) -> keeps P (for_each xs body).
Proof.
  intros Hb. induction xs as [|x xs IH]; simpl.
  - apply keeps_ret.
  - apply keeps_bind; [apply Hb | intros _; exact IH].
Qed.

Lemma keeps_for_fold {X A} (xs : list X) (acc : A) (body : A -> X -> M S A) :
  (forall a x, keeps P (body a x)) -> keeps P (for_fold xs acc body).
Proof.
  intros Hb. revert acc. induction xs as [|x xs IH]; intros acc; simpl.
  - apply keeps_ret.
  - apply keeps_bind; [apply Hb | intros a; apply IH].
Qed.

Lemma keeps_if {A} (c : bool) (m1 m2 : M S A) :
  keeps P m1 -> keeps P m2 -> keeps P (if c then m1 else m2).
Proof. destruct c; auto. Qed.

End Keeps.

Lemma keeps_final {S A} (P : S -> Prop) (m : M S A) (s : S) :
  keeps P m -> P s -> exists s', final (m s) = Some s' /\ P s'.
Proof.
  intros Hm Hs. specialize (Hm s Hs).
  destruct (m s) as [a s'|e s'|]; [exists s'|exists s'|contradiction]; auto.
Qed.

Create HintDb keeps.
#[local] Hint Resolve keeps_ret keeps_raise keeps_gets keeps_get keeps_as_int
  keeps_list_getitem keeps_list_setitem keeps_getitem keeps_setitem : keeps.

(** Break a computation into its primitive steps. *)
Ltac keeps_step :=
  lazymatch goal with
  | |- forall _, _ => intro
  | |- keeps _ (bind _ _) => apply keeps_bind
  | |- keeps _ (for_each _ _) => apply keeps_for_each
  | |- keeps _ (for_fold _ _ _) => apply keeps_for_fold
  | |- keeps _ (if _ then _ else _) => apply keeps_if
  | |- keeps _ (let _ := _ in _) => cbv zeta
  | |- keeps _ _ => solve [eauto with keeps]
  end.
Ltac keeps_steps := repeat keeps_step.

Section OneBuffer.
Import KnxTelegram Client.

Lemma one_buffer_class_body : one_buffer class_body.
Proof.
  split; [reflexivity|]. exists (none_list KNX_TELEGRAM_MAX_SIZE).
  split; reflexivity.
Qed.

Lemma one_buffer_resolve st self :
  one_buffer st -> resolve st self = class_telegram st.
Proof.
  intros [Hi _]. unfold resolve. rewrite Hi, lookup_empty. reflexivity.
Qed.

Lemma one_buffer_buffer_of st self :
  one_buffer st ->
  lists st !! class_telegram st = Some (buffer_of st self) /\
  length (buffer_of st self) = 23%nat.
Proof.
  intros H. unfold buffer_of. rewrite (one_buffer_resolve st self H).
  destruct H as [_ (b & Hb & Hlen)]. rewrite Hb. simpl. auto.
Qed.

Lemma one_buffer_set_buffer st self b :
  one_buffer st -> length b = 23%nat -> one_buffer (set_buffer self b st).
Proof.
  intros H Hlen. pose proof (one_buffer_resolve st self H) as Hr.
  destruct H as [Hi _]. split; [exact Hi|]. exists b.
  unfold set_buffer. cbn [lists class_telegram]. rewrite Hr.
  split; [apply lookup_insert_eq | exact Hlen].
Qed.

Lemma buffer_of_set_buffer st t1 t2 b :
  one_buffer st -> buffer_of (set_buffer t1 b st) t2 = b.
Proof.
  intros H. pose proof (one_buffer_resolve st t1 H) as Hr.
  destruct H as [Hi _]. unfold buffer_of, resolve, set_buffer.
  cbn [lists class_telegram instance_telegram].
  fold (resolve st t1). rewrite Hr, Hi, lookup_empty. cbn [default].
  rewrite lookup_insert_eq. reflexivity.
Qed.

Lemma set_buffer_same st self :
  one_buffer st -> set_buffer self (buffer_of st self) st = st.
Proof.
  intros H. destruct (one_buffer_buffer_of st self H) as [Hb _].
  unfold set_buffer. rewrite (one_buffer_resolve st self H).
  rewrite insert_id by exact Hb. destruct st; reflexivity.
Qed.

Lemma py_index_in_range {A} (l : list A) (i : Z) :
  0 <= i < Z.of_nat (length l) -> py_index l i = Some (Z.to_nat i).
Proof.
  intros H. unfold py_index.
  destruct (0 <=? i) eqn:E1; [|lia]. destruct (i <? Z.of_nat (length l)) eqn:E2; [|lia].
  reflexivity.
Qed.

Lemma py_index_lt {A} (l : list A) (i : Z) (k : nat) :
  py_index l i = Some k -> (k < length l)%nat.
Proof.
  unfold py_index.
  destruct ((0 <=? i) && (i <? Z.of_nat (length l))) eqn:E1.
  - intros [= <-]. apply andb_true_iff in E1. lia.
  - destruct ((- Z.of_nat (length l) <=? i) && (i <? 0)) eqn:E2; [|discriminate].
    intros [= <-]. apply andb_true_iff in E2. lia.
Qed.

(** A read leaves the store as it is. *)
Lemma tget_unchanged (P : store -> Prop) self i : keeps P (tget self i).
Proof. intros st Hst. unfold tget. apply keeps_list_getitem. exact Hst. Qed.

(** An item assignment goes to the one list. *)
Lemma tset_one_buffer self i v : keeps one_buffer (tset self i v).
Proof.
  intros st Hst. unfold tset, list_setitem.
  destruct (py_index (buffer_of st self) i) as [k|] eqn:E; simpl; [|exact Hst].
  apply one_buffer_set_buffer; [exact Hst|].
  rewrite length_insert. apply one_buffer_buffer_of. exact Hst.
Qed.

#[local] Hint Resolve tget_unchanged tset_one_buffer : keeps.

Lemma tint_one_buffer self i : keeps one_buffer (tint self i).
Proof. unfold tint. keeps_steps. Qed.

#[local] Hint Resolve tint_one_buffer : keeps.

Lemma clearTelegram_one_buffer self : keeps one_buffer (clearTelegram self).
Proof. unfold clearTelegram. keeps_steps. Qed.

Lemma new_one_buffer : keeps one_buffer new.
Proof.
  intros st Hst. unfold new, bind, get, put.
  match goal with
  | |- context [clearTelegram ?self ?st1] =>
      assert (H1 : one_buffer st1) by (destruct Hst as [Hi Hb]; split; assumption);
      pose proof (clearTelegram_one_buffer self st1 H1) as H2;
      destruct (clearTelegram self st1)
  end; assumption.
Qed.

Lemma getLongPayload_one_buffer self nbOfBytes :
  keeps (fun p : store * pyval => one_buffer (fst p)) (getLongPayload self nbOfBytes).
Proof.
  unfold getLongPayload. keeps_steps.
  - intros [st d] Hst. unfold zoom. cbn [fst snd] in *.
    pose proof (tget_unchanged one_buffer self x st Hst) as H.
    destruct (tget self x st); exact H.
  - intros [st d] Hst. exact Hst.
Qed.

(** Every method keeps all lookups of [_telegram] at the class attribute. *)
Lemma run_call_one_buffer (c : method_call) : keeps one_buffer (run_call c).
Proof.
  destruct c; cbn [run_call]; unfold effect;
    try (apply keeps_bind; [apply new_one_buffer | keeps_steps]);
    try apply clearTelegram_one_buffer.
  all: try (unfold getCommand, getPayloadLength, getFirstPayloadByte,
              getTelegramLength, getPayloadLength, getChecksum, getSourceAddress,
              getTargetAddress, setTargetAddress, setPayloadLength, setCommand,
              setSourceAddress, setFirstPayloadByte, setLongPayload,
              isChecksumCorrect, getChecksum, calculateChecksum, getPayloadLength,
              updateChecksum, getPayloadLength, copy, getTelegramLength,
              getPayloadLength, writeRawByte, readRawByte, changePriority,
              clearLongPayload, clearFirstPayloadByte; keeps_steps).
  intros st Hst.
  pose proof (getLongPayload_one_buffer self nbOfBytes (st, destination) Hst) as H.
  destruct (getLongPayload self nbOfBytes (st, destination)); exact H.
Qed.

Lemma run_calls_one_buffer (cs : list method_call) (st : store) :
  run_calls cs = Ret tt st -> one_buffer st.
Proof.
  unfold run_calls. intros H.
  pose proof (keeps_for_each one_buffer cs run_call run_call_one_buffer
                class_body one_buffer_class_body) as K.
  rewrite H in K. exact K.
Qed.

Lemma buffer_of_any st t1 t2 :
  one_buffer st -> buffer_of st t1 = buffer_of st t2.
Proof.
  intros H. unfold buffer_of.
  rewrite (one_buffer_resolve st t1 H), (one_buffer_resolve st t2 H). reflexivity.
Qed.

Lemma tset_in_range st self i v :
  one_buffer st -> 0 <= i < 23 ->
  tset self i v st
  = Ret tt (set_buffer self (<[Z.to_nat i := v]> (buffer_of st self)) st).
Proof.
  intros H Hi. destruct (one_buffer_buffer_of st self H) as [_ Hlen].
  unfold tset, list_setitem. rewrite py_index_in_range by lia. reflexivity.
Qed.

Lemma tget_in_range st self i v :
  0 <= i < Z.of_nat (length (buffer_of st self)) ->
  buffer_of st self !! Z.to_nat i = Some v ->
  tget self i st = Ret v st.
Proof.
  intros Hi Hv. unfold tget, list_getitem.
  rewrite py_index_in_range by lia. rewrite Hv. reflexivity.
Qed.

(** The loop of [clearTelegram], cell by cell. *)
Lemma clearTelegram_loop self (idx : list Z) :
  Forall (fun i => 0 <= i < 23) idx ->
  forall st, one_buffer st ->
    exists st',
      for_each idx (fun i =>
        tset self i (PInt 0) ;;
        tset self _controlField (PInt CONTROL_FIELD_DEFAULT_VALUE) ;;
        tset self _routing (PInt ROUTING_FIELD_DEFAULT_VALUE)) st = Ret tt st'
      /\ one_buffer st'
      /\ buffer_of st' self
         = fold_left (fun b i =>
             <[5%nat := PInt ROUTING_FIELD_DEFAULT_VALUE]>
               (<[0%nat := PInt CONTROL_FIELD_DEFAULT_VALUE]>
                  (<[Z.to_nat i := PInt 0]> b))) idx (buffer_of st self).
Proof.
  induction 1 as [|i idx Hi _ IH]; intros st Hst.
  - exists st. cbn. auto.
  - cbn [for_each fold_left]. unfold bind at 1 2 3.
    rewrite tset_in_range by assumption.
    set (b1 := <[Z.to_nat i := PInt 0]> (buffer_of st self)).
    assert (L1 : length b1 = 23%nat)
      by (unfold b1; rewrite length_insert; apply one_buffer_buffer_of, Hst).
    pose proof (one_buffer_set_buffer st self b1 Hst L1) as H1.
    rewrite tset_in_range by (assumption || (unfold _controlField; lia)).
    rewrite buffer_of_set_buffer by assumption.
    set (b2 := <[Z.to_nat _controlField := _]> b1).
    assert (L2 : length b2 = 23%nat) by (unfold b2; rewrite length_insert; exact L1).
    pose proof (one_buffer_set_buffer _ self b2 H1 L2) as H2.
    rewrite tset_in_range by (assumption || (unfold _routing; lia)).
    rewrite buffer_of_set_buffer by assumption.
    set (b3 := <[Z.to_nat _routing := _]> b2).
    assert (L3 : length b3 = 23%nat) by (unfold b3; rewrite length_insert; exact L2).
    pose proof (one_buffer_set_buffer _ self b3 H2 L3) as H3.
    destruct (IH _ H3) as (st' & E & Hst' & Hb).
    exists st'. split; [exact E|]. split; [exact Hst'|].
    rewrite Hb, buffer_of_set_buffer by assumption. reflexivity.
Qed.

Lemma clearTelegram_cleared st t1 t2 :
  one_buffer st ->
  exists st', clearTelegram t1 st = Ret tt st' /\ buffer_of st' t2 = cleared.
Proof.
  intros Hst. unfold clearTelegram.
  destruct (clearTelegram_loop t1 (range 0 KNX_TELEGRAM_MAX_SIZE)) with (st := st)
    as (st' & E & Hst' & Hb); [|exact Hst|].
  - vm_compute. repeat constructor; discriminate.
  - exists st'. split; [exact E|].
    rewrite (buffer_of_any st' t2 t1 Hst'), Hb.
    destruct (one_buffer_buffer_of st t1 Hst) as [_ Hlen].
    destruct (buffer_of st t1) as [|x0 b]; [discriminate|].
    do 22 (destruct b as [|? b]; [discriminate|]).
    destruct b; [reflexivity|discriminate].
Qed.

(** Copying a cell onto itself changes nothing. *)
Lemma copy_cell_unchanged st t1 t2 i :
  one_buffer st ->
  keeps (fun s => s = st) (v <- tget t1 i ;; tset t2 i v).
Proof.
  intros Hst s ->. unfold bind, tget, list_getitem.
  destruct (py_index (buffer_of st t1) i) as [k|] eqn:E; [|reflexivity].
  destruct (buffer_of st t1 !! k) as [v|] eqn:Ev; [|reflexivity].
  unfold tset, list_setitem, ret.
  rewrite (buffer_of_any st t2 t1 Hst), E.
  rewrite list_insert_id by exact Ev.
  rewrite <- (buffer_of_any st t2 t1 Hst). apply set_buffer_same, Hst.
Qed.

Lemma copy_unchanged st t1 t2 :
  one_buffer st -> final (copy t1 t2 st) = Some st.
Proof.
  intros Hst.
  assert (K : keeps (fun s => s = st) (copy t1 t2)).
  { unfold copy. apply keeps_bind.
    - unfold getTelegramLength, getPayloadLength, tint. keeps_steps.
    - intros n. apply keeps_for_each. intros i. apply copy_cell_unchanged, Hst. }
  destruct (keeps_final _ _ st K eq_refl) as (s' & E & ->). exact E.
Qed.

End OneBuffer.

Lemma new_cleared st t2 :
  Client.one_buffer st ->
  exists t st', KnxTelegram.new st = Ret t st' /\
                KnxTelegram.buffer_of st' t2 = Client.cleared.
Proof.
  intros [Hi Hb]. unfold KnxTelegram.new, bind, get, put.
  match goal with
  | |- context [KnxTelegram.clearTelegram ?self ?st1] =>
      destruct (clearTelegram_cleared st1 self t2) as (st' & E & Hc);
        [split; assumption|]; rewrite E
  end.
  eexists _, st'. split; [reflexivity | exact Hc].
Qed.

(** C9 — every [KnxTelegram] instance shares the one 23-cell list bound to
    the class attribute [_telegram].  After any sequence of method calls
    and constructions: any two instances [t1], [t2] resolve [_telegram] to
    the same list object; a raw byte written through [t1] is the byte read
    through [t2] at the same index; clearing [t1], or constructing one more
    instance, leaves [t2] with the cleared frame; copying [t1] into [t2]
    leaves the store exactly as it was, so the two can never hold distinct
    frames. *)
Theorem telegram_instances_share_one_buffer
    (cs : list Client.method_call) (st : KnxTelegram.store)
    (t1 t2 : KnxTelegram.instance) :
  Client.run_calls cs = Ret tt st ->
  KnxTelegram.resolve st t1 = KnxTelegram.resolve st t2 /\
  (forall (i : Z) (d : pyval), 0 <= i < 23 ->
     exists st', KnxTelegram.writeRawByte t1 d i st = Ret tt st' /\
                 KnxTelegram.readRawByte t2 i st' = Ret d st') /\
  (exists st', KnxTelegram.clearTelegram t1 st = Ret tt st' /\
               KnxTelegram.buffer_of st' t2 = Client.cleared) /\
  (exists t st', KnxTelegram.new st = Ret t st' /\
                 KnxTelegram.buffer_of st' t2 = Client.cleared) /\
  final (KnxTelegram.copy t1 t2 st) = Some st /\
  (forall i, KnxTelegram.readRawByte t1 i st = KnxTelegram.readRawByte t2 i st).
Proof.
  intros Hrun. pose proof (run_calls_one_buffer cs st Hrun) as Hst.
  repeat split.
  - rewrite !one_buffer_resolve by exact Hst. reflexivity.
  - intros i d Hi. unfold KnxTelegram.writeRawByte, KnxTelegram.readRawByte.
    rewrite tset_in_range by assumption. eexists. split; [reflexivity|].
    destruct (one_buffer_buffer_of st t1 Hst) as [_ Hlen].
    apply tget_in_range; rewrite buffer_of_set_buffer by exact Hst.
    + rewrite length_insert. lia.
    + apply list_lookup_insert_eq. lia.
  - apply clearTelegram_cleared, Hst.
  - apply new_cleared, Hst.
  - apply copy_unchanged, Hst.
  - intros i. unfold KnxTelegram.readRawByte, KnxTelegram.tget.
    rewrite (buffer_of_any st t1 t2 Hst). reflexivity.
Qed.

Lemma telegram_instances_share_one_buffer_witness :
  exists st,
    Client.run_calls [Client.Construct; Client.Construct] = Ret tt st /\
    KnxTelegram.resolve st 0%nat = KnxTelegram.resolve st 1%nat /\
    final (KnxTelegram.copy 0%nat 1%nat st) = Some st.
Proof.
  eexists. split; [vm_compute; reflexivity|].
  split.
  - refine (proj1 (telegram_instances_share_one_buffer
                     [Client.Construct; Client.Construct] _ 0%nat 1%nat _)).
    vm_compute. reflexivity.
  - refine (proj1 (proj2 (proj2 (proj2 (proj2
              (telegram_instances_share_one_buffer
                 [Client.Construct; Client.Construct] _ 0%nat 1%nat _)))))).
    vm_compute. reflexivity.
Defined.

(** The telegrams the link works with are three instances on one list:
    the assembly telegram [_telegram], [tx.sentTelegram] and
    [rx.receivedTelegram]. *)
Example link_telegrams_one_storage :
  observe ((KnxTPUart.module_body ;;
            w <- get ;;
            let st := KnxTPUart.telegrams w in
            ret (KnxTPUart._telegram (KnxTPUart.module w),
                 KnxTPUart.sentTelegram (KnxTPUart._tx w),
                 KnxTPUart.receivedTelegram (KnxTPUart._rx w),
                 KnxTelegram.resolve st 0%nat,
                 KnxTelegram.resolve st 1%nat,
                 KnxTelegram.resolve st 2%nat)) KnxTPUart.blank)
  = Returned (0%nat, Some 1%nat, 2%nat, 0%nat, 0%nat, 0%nat).
Proof. vm_compute. reflexivity. Qed.

(** C1 — on a telegram of payload length 2, [updateChecksum] writes the
    checksum 161 at offset 6+2+1 = 9, while [isChecksumCorrect] compares
    the cell at offset 8, which holds 0, with the computed 161 and returns
    [False]. *)
Theorem updateChecksum_isChecksumCorrect_payload_length_2 :
  observe ((t <- KnxTelegram.new ;;
            KnxTelegram.setPayloadLength t 2 ;;
            KnxTelegram.updateChecksum t ;;
            written <- KnxTelegram.readRawByte t 9 ;;
            computed <- KnxTelegram.calculateChecksum t ;;
            compared <- KnxTelegram.getChecksum t ;;
            ok <- KnxTelegram.isChecksumCorrect t ;;
            ret (written, computed, compared, ok)) KnxTelegram.class_body)
  = Returned (PInt 161, 161, PInt 0, false).
Proof. vm_compute. reflexivity. Qed.

(** With payload length 1 the two offsets coincide and the check passes. *)
Example updateChecksum_isChecksumCorrect_payload_length_1 :
  observe ((t <- KnxTelegram.new ;;
            KnxTelegram.setPayloadLength t 1 ;;
            KnxTelegram.setFirstPayloadByte t (PInt 1) ;;
            KnxTelegram.updateChecksum t ;;
            KnxTelegram.isChecksumCorrect t) KnxTelegram.class_body)
  = Returned true.
Proof. vm_compute. reflexivity. Qed.

(* ===================================================================== *)
(** ** Properties of the action ring buffer *)
(* ===================================================================== *)

Section QueueFacts.
Context {A : Type}.
Implicit Types (q l : list A) (x : A) (n : nat).

Lemma last_n_all n l : (length l <= n)%nat -> last_n n l = l.
Proof.
  intros H. unfold last_n. replace (length l - n)%nat with 0%nat by lia.
  reflexivity.
Qed.

Lemma last_n_length n l : (n <= length l)%nat -> length (last_n n l) = n.
Proof. intros H. unfold last_n. rewrite length_drop. lia. Qed.

Lemma last_n_app n l1 l2 : last_n n (last_n n l1 ++ l2) = last_n n (l1 ++ l2).
Proof.
  unfold last_n at 2.
  rewrite <- drop_app_le by lia.
  unfold last_n. rewrite drop_drop. f_equal.
  rewrite length_drop, !length_app. lia.
Qed.

Lemma enqueue_last_n n q x :
  (0 < n)%nat -> (length q <= n)%nat -> enqueue n q x = last_n n (q ++ [x]).
Proof.
  intros Hn Hq. unfold enqueue, last_n. rewrite length_app. cbn [length].
  destruct (Nat.ltb_spec (length q) n) as [Hlt|Hge].
  - replace (length q + 1 - n)%nat with 0%nat by lia. reflexivity.
  - replace (length q + 1 - n)%nat with 1%nat by lia.
    destruct q as [|y q]; [cbn in *; lia|]. reflexivity.
Qed.

Lemma enqueue_length n q x :
  (0 < n)%nat -> (length q <= n)%nat -> (length (enqueue n q x) <= n)%nat.
Proof.
  intros Hn Hq. unfold enqueue.
  destruct (Nat.ltb_spec (length q) n) as [Hlt|Hge]; rewrite length_app; cbn [length].
  - lia.
  - destruct q; cbn [tail length] in *; lia.
Qed.

(** Feeding [l] into a queue with room for [n] leaves the last [n] elements. *)
Lemma fold_enqueue n l q :
  (0 < n)%nat -> (length q <= n)%nat ->
  fold_left (enqueue n) l q = last_n n (q ++ l).
Proof.
  intros Hn. revert q. induction l as [|x l IH]; intros q Hq; cbn [fold_left].
  - rewrite app_nil_r. symmetry. apply last_n_all, Hq.
  - rewrite IH by (apply enqueue_length; assumption).
    rewrite enqueue_last_n by assumption.
    rewrite last_n_app, <- app_assoc. reflexivity.
Qed.

End QueueFacts.

(** The wrap-around of an index that ran at most one lap ahead. *)
Lemma mod_wrap (a n : Z) :
  0 < n -> 0 <= a < 2 * n -> a mod n = if a <? n then a else a - n.
Proof.
  intros Hn Ha. destruct (Z.ltb_spec a n).
  - apply Z.mod_small. lia.
  - symmetry. apply (Z.mod_unique a n 1); lia.
Qed.

Section RingFacts.
Context {A : Type}.
Import ActionRingBuffer.
Implicit Types (rb : ActionRingBuffer.t A) (q : list A) (x : A).

Lemma incrementHead_run rb :
  _size rb <> 0 ->
  incrementHead rb
  = Ret tt {| _head := (_head rb + 1) mod _size rb; _tail := _tail rb;
              _buffer := _buffer rb; _size := _size rb;
              _elementsCurrentNb := _elementsCurrentNb rb |}.
Proof.
  intros H. unfold incrementHead, bind, get, py_mod, put.
  destruct (Z.eqb_spec (_size rb) 0); [contradiction|reflexivity].
Qed.

Lemma incrementTail_run rb :
  _size rb <> 0 ->
  incrementTail rb
  = Ret tt {| _head := _head rb; _tail := (_tail rb + 1) mod _size rb;
              _buffer := _buffer rb; _size := _size rb;
              _elementsCurrentNb := _elementsCurrentNb rb |}.
Proof.
  intros H. unfold incrementTail, bind, get, py_mod, put.
  destruct (Z.eqb_spec (_size rb) 0); [contradiction|reflexivity].
Qed.

Lemma append_run rb x :
  _size rb <> 0 ->
  0 <= _tail rb < Z.of_nat (length (_buffer rb)) ->
  append x rb
  = Ret tt {| _head := if _elementsCurrentNb rb =? _size rb
                       then (_head rb + 1) mod _size rb else _head rb;
              _tail := (_tail rb + 1) mod _size rb;
              _buffer := <[Z.to_nat (_tail rb) := Some x]> (_buffer rb);
              _size := _size rb;
              _elementsCurrentNb := if _elementsCurrentNb rb =? _size rb
                                    then _elementsCurrentNb rb
                                    else _elementsCurrentNb rb + 1 |}.
Proof.
  intros Hn Ht. unfold append. unfold bind at 1. unfold get at 1.
  destruct (_elementsCurrentNb rb =? _size rb).
  - unfold bind at 1. rewrite incrementHead_run by exact Hn.
    unfold bind at 1, get at 1. unfold bind at 1, list_setitem.
    cbn [_buffer _tail]. rewrite py_index_in_range by exact Ht.
    unfold ret at 1, bind at 1, put. rewrite incrementTail_run by exact Hn.
    reflexivity.
  - unfold bind at 1, put at 1.
    unfold bind at 1, get at 1. unfold bind at 1, list_setitem.
    cbn [_buffer _tail]. rewrite py_index_in_range by exact Ht.
    unfold ret at 1, bind at 1, put. rewrite incrementTail_run by exact Hn.
    reflexivity.
Qed.

Lemma pop_run rb :
  _size rb <> 0 ->
  pop rb
  = if _elementsCurrentNb rb =? 0 then Ret MinusOne rb
    else match py_index (_buffer rb) (_head rb) with
         | Some k =>
             match _buffer rb !! k with
             | Some data =>
                 Ret (Cell data)
                     {| _head := (_head rb + 1) mod _size rb; _tail := _tail rb;
                        _buffer := _buffer rb; _size := _size rb;
                        _elementsCurrentNb := _elementsCurrentNb rb - 1 |}
             | None => Exc IndexError rb
             end
         | None => Exc IndexError rb
         end.
Proof.
  intros Hn. unfold pop. unfold bind at 1, get at 1.
  destruct (_elementsCurrentNb rb =? 0); [reflexivity|].
  unfold bind at 1, list_getitem.
  destruct (py_index (_buffer rb) (_head rb)) as [k|]; [|reflexivity].
  destruct (_buffer rb !! k) as [data|]; [|reflexivity].
  unfold ret at 1, bind at 1. rewrite incrementHead_run by exact Hn.
  reflexivity.
Qed.

Lemma holds_new (size : Z) : 0 < size -> holds (new size) ([] : list A).
Proof.
  intros H. unfold holds, new. cbn [_size _head _tail _buffer _elementsCurrentNb length].
  rewrite Z.add_0_l, Z.mod_0_l by lia.
  repeat split; try lia.
  - apply length_replicate.
  - intros i x Hx. discriminate.
Qed.

Lemma holds_tail rb q :
  holds rb q -> 0 <= _tail rb < Z.of_nat (length (_buffer rb)).
Proof.
  intros (Hn & Hlen & _ & _ & _ & Ht & _). rewrite Ht, Hlen.
  pose proof (Z.mod_pos_bound (_head rb + Z.of_nat (length q)) (_size rb) Hn). lia.
Qed.

(** Two slots of one lap coincide only when their offsets do. *)
Lemma slot_inj (h n i j : Z) :
  0 < n -> 0 <= h < n -> 0 <= i < n -> 0 <= j < n ->
  (h + i) mod n = (h + j) mod n -> i = j.
Proof.
  intros Hn Hh Hi Hj. rewrite !mod_wrap by lia.
  destruct (Z.ltb_spec (h + i) n), (Z.ltb_spec (h + j) n); lia.
Qed.

Lemma slot_succ (h n i : Z) :
  0 < n -> 0 <= h < n -> 0 <= i < n ->
  ((h + 1) mod n + i) mod n = (h + (i + 1)) mod n.
Proof.
  intros Hn Hh Hi. rewrite Z.add_mod_idemp_l by lia. f_equal. lia.
Qed.

Lemma append_holds rb q x :
  holds rb q ->
  exists rb', append x rb = Ret tt rb' /\
              holds rb' (enqueue (Z.to_nat (_size rb)) q x) /\
              _size rb' = _size rb.
Proof.
  intros H. pose proof (holds_tail rb q H) as Htl.
  destruct H as (Hn & Hlen & Hh & Hc & Hq & Ht & Hcells).
  rewrite append_run by lia.
  eexists. split; [reflexivity|]. split; [|reflexivity].
  unfold holds, enqueue. cbn [_size _head _tail _buffer _elementsCurrentNb].
  set (n := _size rb) in *. set (h := _head rb) in *.
  destruct (Z.eqb_spec (_elementsCurrentNb rb) n) as [Hfull|Hroom].
  - destruct (Nat.ltb_spec (length q) (Z.to_nat n)) as [|_]; [lia|].
    assert (Hlq : Z.of_nat (length q) = n) by lia.
    assert (Hq' : length (tail q ++ [x]) = length q).
    { destruct q; cbn in *; [lia|]. rewrite length_app. cbn. lia. }
    assert (Hth : _tail rb = h).
    { rewrite Ht, Hlq, <- (Z.mul_1_l n) at 1. rewrite Z.mod_add by lia.
      apply Z.mod_small. lia. }
    rewrite Hq', Hth.
    split; [exact Hn|]. split; [rewrite length_insert; exact Hlen|].
    split; [apply Z.mod_pos_bound; lia|]. split; [lia|]. split; [lia|].
    split.
    + rewrite Hlq. rewrite <- (Z.mul_1_l n) at 3. rewrite Z.mod_add by lia.
      rewrite Z.mod_mod by lia. reflexivity.
    + intros i y Hy.
      assert (Hi : (i < length q)%nat) by (apply lookup_lt_Some in Hy; lia).
      rewrite slot_succ by lia.
      destruct (decide (i = (length q - 1)%nat)) as [->|Hne].
      * rewrite lookup_app_r in Hy by (destruct q; cbn in *; lia).
        replace (length q - 1 - length (tail q))%nat with 0%nat in Hy
          by (destruct q; cbn in *; lia).
        injection Hy as <-.
        replace (Z.of_nat (length q - 1) + 1) with n by lia.
        rewrite <- (Z.mul_1_l n) at 1. rewrite Z.mod_add, Z.mod_small by lia.
        apply list_lookup_insert_eq. lia.
      * rewrite lookup_app_l in Hy by (destruct q; cbn in *; lia).
        rewrite lookup_tail in Hy. apply Hcells in Hy.
        rewrite list_lookup_insert_ne.
        { rewrite <- Hy. do 3 f_equal. lia. }
        intros E. apply Z2Nat.inj in E; [| lia | apply Z.mod_pos_bound; lia].
        rewrite <- (Z.mod_small h n) in E at 1 by lia.
        replace h with (h + 0) in E at 1 by lia.
        apply slot_inj in E; lia.
  - destruct (Nat.ltb_spec (length q) (Z.to_nat n)) as [_|]; [|lia].
    rewrite length_app. cbn [length].
    split; [exact Hn|]. split; [rewrite length_insert; exact Hlen|].
    split; [exact Hh|]. split; [lia|]. split; [lia|].
    split.
    + rewrite Ht, Z.add_mod_idemp_l by lia. f_equal. lia.
    + intros i y Hy.
      assert (Hi : (i < length q + 1)%nat)
        by (apply lookup_lt_Some in Hy; rewrite length_app in Hy; cbn in Hy; lia).
      destruct (decide (i = length q)) as [->|Hne].
      * rewrite lookup_app_r in Hy by lia.
        replace (length q - length q)%nat with 0%nat in Hy by lia.
        injection Hy as <-. rewrite <- Ht. apply list_lookup_insert_eq. lia.
      * rewrite lookup_app_l in Hy by lia. apply Hcells in Hy.
        rewrite list_lookup_insert_ne; [exact Hy|].
        intros E. rewrite Ht in E.
        apply Z2Nat.inj in E; [| apply Z.mod_pos_bound; lia | apply Z.mod_pos_bound; lia].
        apply slot_inj in E; lia.
Qed.

Lemma pop_holds rb x q :
  holds rb (x :: q) ->
  exists rb', pop rb = Ret (Cell (Some x)) rb' /\ holds rb' q /\ _size rb' = _size rb.
Proof.
  intros (Hn & Hlen & Hh & Hc & Hq & Ht & Hcells).
  rewrite pop_run by lia. cbn [length] in *.
  destruct (Z.eqb_spec (_elementsCurrentNb rb) 0) as [|_]; [lia|].
  rewrite py_index_in_range by lia.
  pose proof (Hcells 0%nat x eq_refl) as H0.
  rewrite Z.add_0_r, Z.mod_small in H0 by lia. rewrite H0.
  eexists. split; [reflexivity|]. split; [|reflexivity].
  unfold holds. cbn [_size _head _tail _buffer _elementsCurrentNb].
  split; [exact Hn|]. split; [exact Hlen|].
  split; [apply Z.mod_pos_bound; lia|]. split; [lia|]. split; [lia|].
  split.
  - rewrite Ht, Z.add_mod_idemp_l by lia. f_equal. lia.
  - intros i y Hy. rewrite slot_succ by (apply lookup_lt_Some in Hy; lia).
    replace (Z.of_nat i + 1) with (Z.of_nat (Datatypes.S i)) by lia.
    apply Hcells. exact Hy.
Qed.

Lemma pop_empty rb : holds rb [] -> pop rb = Ret MinusOne rb.
Proof.
  intros (Hn & _ & _ & Hc & _). rewrite pop_run by lia.
  cbn [length] in Hc. rewrite Hc. reflexivity.
Qed.

Lemma append_all_holds l rb q :
  holds rb q ->
  exists rb', append_all l rb = Ret tt rb' /\
              holds rb' (fold_left (enqueue (Z.to_nat (_size rb))) l q) /\
              _size rb' = _size rb.
Proof.
  revert rb q. induction l as [|x l IH]; intros rb q H.
  - exists rb. auto.
  - destruct (append_holds rb q x H) as (rb1 & E1 & H1 & S1).
    destruct (IH rb1 _ H1) as (rb2 & E2 & H2 & S2).
    exists rb2. unfold append_all in *. cbn [for_each fold_left]. unfold bind.
    rewrite E1, E2. rewrite S1 in H2. split; [reflexivity|].
    split; [exact H2 | congruence].
Qed.

Lemma pop_n_holds q rb :
  holds rb q ->
  exists rb', pop_n (length q) rb = Ret (map (fun a => Cell (Some a)) q) rb' /\
              holds rb' [].
Proof.
  revert rb. induction q as [|x q IH]; intros rb H.
  - exists rb. auto.
  - destruct (pop_holds rb x q H) as (rb1 & E1 & H1 & _).
    destruct (IH rb1 H1) as (rb2 & E2 & H2).
    exists rb2. cbn [length pop_n map]. unfold bind. rewrite E1, E2.
    split; [reflexivity | exact H2].
Qed.

End RingFacts.


(** Whatever a buffer of capacity 16 holds, at least 16 appends leave it
    holding the last 16 items appended. *)
Lemma append_all_overwrites {A : Type} (rb : ActionRingBuffer.t A) (q l : list A) :
  holds rb q -> ActionRingBuffer._size rb = 16 -> (16 <= length l)%nat ->
  exists rb', ActionRingBuffer.append_all l rb = Ret tt rb' /\
              holds rb' (last_n 16 l).
Proof.
  intros H Hs Hl. destruct (append_all_holds l rb q H) as (rb' & E & H' & _).
  exists rb'. split; [exact E|].
  assert (Hq : (length q <= 16)%nat) by (destruct H as (_ & _ & _ & _ & Hq & _); lia).
  rewrite Hs in H'. change (Z.to_nat 16) with 16%nat in H'.
  rewrite fold_enqueue in H' by lia.
  unfold last_n in *. rewrite length_app in H'.
  replace (length q + length l - 16)%nat
    with (length q + (length l - 16))%nat in H' by lia.
  rewrite drop_app_add in H'. exact H'.
Qed.

(** C3 — after any sequence of at least 16 appends to the action queue of
    capacity 16, the element count is 16 and sixteen pops return the last
    16 appended items, oldest first, after which the queue is empty; one
    more append to that full buffer advances the head by one and writes
    the new item at the tail, the count staying 16. *)
Theorem ring_buffer_keeps_last_16 {A : Type} (l : list A) (x : A) :
  (16 <= length l)%nat ->
  exists rb,
    ActionRingBuffer.append_all l (ActionRingBuffer.new KnxDevice.ACTIONS_QUEUE_SIZE)
    = Ret tt rb /\
    ActionRingBuffer._elementsCurrentNb rb = 16 /\
    (exists rb',
       ActionRingBuffer.pop_n 16 rb
       = Ret (map (fun a => ActionRingBuffer.Cell (Some a)) (last_n 16 l)) rb' /\
       ActionRingBuffer.pop rb' = Ret ActionRingBuffer.MinusOne rb') /\
    ActionRingBuffer.append x rb
    = Ret tt {| ActionRingBuffer._head := (ActionRingBuffer._head rb + 1) mod 16;
                ActionRingBuffer._tail := (ActionRingBuffer._tail rb + 1) mod 16;
                ActionRingBuffer._buffer :=
                  <[Z.to_nat (ActionRingBuffer._tail rb) := Some x]>
                    (ActionRingBuffer._buffer rb);
                ActionRingBuffer._size := 16;
                ActionRingBuffer._elementsCurrentNb := 16 |}.
Proof.
  intros Hl.
  assert (H0 : holds (ActionRingBuffer.new KnxDevice.ACTIONS_QUEUE_SIZE) ([] : list A))
    by (apply holds_new; reflexivity).
  destruct (append_all_holds l _ [] H0) as (rb & E & H & Hs).
  change (ActionRingBuffer._size (ActionRingBuffer.new KnxDevice.ACTIONS_QUEUE_SIZE))
    with 16 in H, Hs.
  change (Z.to_nat 16) with 16%nat in H.
  rewrite fold_enqueue in H by (cbn; lia). cbn [app] in H.
  pose proof (last_n_length 16 l Hl) as Hlen.
  exists rb. split; [exact E|].
  assert (Hc : ActionRingBuffer._elementsCurrentNb rb = 16).
  { destruct H as (_ & _ & _ & Hc & _). rewrite Hc, Hlen. reflexivity. }
  split; [exact Hc|]. split.
  - destruct (pop_n_holds _ rb H) as (rb' & P & H').
    rewrite Hlen in P. exists rb'. split; [exact P | apply pop_empty, H'].
  - pose proof (holds_tail rb _ H) as Ht.
    rewrite append_run by lia. rewrite Hs, Hc. reflexivity.
Qed.

Lemma ring_buffer_keeps_last_16_witness :
  exists rb rb',
    ActionRingBuffer.append_all (seq 1 20) (ActionRingBuffer.new 16) = Ret tt rb /\
    ActionRingBuffer.pop_n 16 rb
    = Ret (map (fun a => ActionRingBuffer.Cell (Some a)) (seq 5 16)) rb'.
Proof.
  assert (H : (16 <= length (seq 1 20))%nat) by (vm_compute; lia).
  destruct (ring_buffer_keeps_last_16 (seq 1 20) 21%nat H)
    as (rb & E & _ & (rb' & P & _) & _).
  exists rb, rb'. split; [exact E | exact P].
Defined.

(* ===================================================================== *)
(** ** Properties of the TP-UART link *)
(* ===================================================================== *)

(** Split a link state into its fields. *)
Ltac link_fields w :=
  let st := fresh "st" in let g := fresh "g" in let t := fresh "t" in
  let r := fresh "r" in let s := fresh "s" in let c := fresh "c" in
  let ser := fresh "ser" in
  destruct w as [st g t r s c];
  destruct t as [? ? ? ? ?]; destruct r as [? ? ?];
  destruct s as [ser ? ? ? ? ? ? ?]; destruct ser as [? ? ?];
  destruct g as [? ? ? ? ? ? ?];
  cbn [KnxTPUart.telegrams KnxTPUart.module KnxTPUart._tx KnxTPUart._rx
       KnxTPUart.self KnxTPUart.calls KnxTPUart.tx_state KnxTPUart.sentTelegram
       KnxTPUart.ackFctPtr KnxTPUart.nbRemainingBytes KnxTPUart.txByteIndex
       KnxTPUart.rx_state KnxTPUart.receivedTelegram
       KnxTPUart.addressedComObjectIndex KnxTPUart._serial
       KnxTPUart._physicalAddr KnxTPUart._mode KnxTPUart._comObjectsList
       KnxTPUart._assignedComObjectsNb KnxTPUart._evtCallbackFct
       KnxTPUart._orderedIndexTable KnxTPUart._stateIndication
       KnxTPUart.is_open KnxTPUart.incoming KnxTPUart.outgoing
       KnxTPUart._telegram KnxTPUart._addressedComObjectIndex
       KnxTPUart._lastByteRxTimeMicrosec KnxTPUart._readBytesNb
       KnxTPUart._nowTime KnxTPUart._txByte
       KnxTPUart._sentMessageTimeMillisec] in *.

Section Link.
Import KnxTPUart.

(** A confirm byte read in the idle RX state while TX waits for the
    acknowledge. *)
Lemma RxTask_confirm (fuel : nat) (w : world) (f : callable)
    (b code : Z) (rest : list Z) (nowTime rxTime : Z) :
  (b = 0x8B /\ code = ACK_RESPONSE) \/ (b = 0x0B /\ code = NACK_RESPONSE) ->
  tx_state (_tx w) = TX_WAITING_ACK ->
  ackFctPtr (_tx w) = Some f ->
  rx_state (_rx w) = RX_IDLE_WAITING_FOR_CTRL_FIELD ->
  is_open (_serial (self w)) = true ->
  incoming (_serial (self w)) = b :: rest ->
  exists w', RxTask fuel nowTime rxTime w = Ret tt w' /\
             calls w' = calls w ++ [AckCall code] /\
             tx_state (_tx w') = TX_IDLE.
Proof.
  intros Hb Htx Hack Hrx Hopen Hin. link_fields w. subst.
  destruct Hb as [[-> ->]|[-> ->]]; cbn;
    (eexists; split; [reflexivity|]; split; reflexivity).
Qed.

Lemma TxTask_no_answer (w : world) (f : callable) (nowTime sentTime : Z) :
  tx_state (_tx w) = TX_WAITING_ACK ->
  ackFctPtr (_tx w) = Some f ->
  nowTime - _sentMessageTimeMillisec (module w) > 500 ->
  exists w', TxTask nowTime sentTime w = Ret tt w' /\
             calls w' = calls w ++ [AckCall NO_ANSWER_TIMEOUT] /\
             tx_state (_tx w') = TX_IDLE.
Proof.
  intros Htx Hack Hlate. link_fields w. subst.
  unfold TxTask, bind, get, upd_module, modify. cbn.
  match goal with
  | |- context [?x >? 500] =>
      replace (x >? 500) with true by (symmetry; apply Z.gtb_lt; lia)
  end.
  cbn. eexists; split; [reflexivity|]; split; reflexivity.
Qed.

(** Within the 500 ms the transmitter keeps waiting and calls nothing. *)
Lemma TxTask_still_waiting (w : world) (nowTime sentTime : Z) :
  tx_state (_tx w) = TX_WAITING_ACK ->
  nowTime - _sentMessageTimeMillisec (module w) <= 500 ->
  exists w', TxTask nowTime sentTime w = Ret tt w' /\
             calls w' = calls w /\
             tx_state (_tx w') = TX_WAITING_ACK.
Proof.
  intros Htx Hlate. link_fields w. subst.
  unfold TxTask, bind, get, upd_module, modify. cbn.
  match goal with
  | |- context [?x >? 500] =>
      replace (x >? 500) with false by (symmetry; rewrite Z.gtb_ltb; apply Z.ltb_ge; lia)
  end.
  cbn. eexists; split; [reflexivity|]; split; reflexivity.
Qed.


(** A loop whose test stays true and whose body leaves the state alone
    never exits; [I] is what holds of its local variables. *)
Lemma while_forever {S V : Type} (I : V -> Prop)
    (cond : V -> M S bool) (body : V -> M S V) (s : S) :
  (forall v, I v -> cond v s = Ret true s) ->
  (forall v, I v -> exists v', body v s = Ret v' s /\ I v') ->
  forall (fuel : nat) (v : V), I v -> while_ fuel v cond body s = Timeout.
Proof.
  intros Hc Hb fuel. induction fuel as [|fuel IH]; intros v Hv; cbn [while_].
  - reflexivity.
  - unfold bind. rewrite (Hc v Hv). destruct (Hb v Hv) as (v' & E & Hv').
    rewrite E. apply IH, Hv'.
Qed.

Lemma shiftr_4_nonzero (n : Z) : 16 <= n -> (Z.shiftr n 4 =? 0) = false.
Proof.
  intros H. apply Z.eqb_neq. rewrite Z.shiftr_div_pow2 by lia.
  change (2 ^ 4) with 16. intros E.
  pose proof (Z.div_le_lower_bound n 16 1 ltac:(lia) ltac:(lia)). lia.
Qed.

(** C8 — with TX in WAITING_ACK and the acknowledge callback bound: the
    byte 0x8B read in the idle RX state makes [RxTask] call the callback
    with ACK_RESPONSE and set TX to IDLE; the byte 0x0B makes it call the
    callback with NACK_RESPONSE and set TX to IDLE; and a [TxTask] run more
    than 500 ms after the recorded send time of the last byte calls the
    callback with NO_ANSWER_TIMEOUT and sets TX to IDLE. *)
Theorem waiting_ack_is_resolved (fuel : nat) (w : world) (f : callable) :
  tx_state (_tx w) = TX_WAITING_ACK ->
  ackFctPtr (_tx w) = Some f ->
  (forall rest nowTime rxTime,
     rx_state (_rx w) = RX_IDLE_WAITING_FOR_CTRL_FIELD ->
     is_open (_serial (self w)) = true ->
     incoming (_serial (self w)) = 0x8B :: rest ->
     exists w', RxTask fuel nowTime rxTime w = Ret tt w' /\
                calls w' = calls w ++ [AckCall ACK_RESPONSE] /\
                tx_state (_tx w') = TX_IDLE) /\
  (forall rest nowTime rxTime,
     rx_state (_rx w) = RX_IDLE_WAITING_FOR_CTRL_FIELD ->
     is_open (_serial (self w)) = true ->
     incoming (_serial (self w)) = 0x0B :: rest ->
     exists w', RxTask fuel nowTime rxTime w = Ret tt w' /\
                calls w' = calls w ++ [AckCall NACK_RESPONSE] /\
                tx_state (_tx w') = TX_IDLE) /\
  (forall nowTime sentTime,
     nowTime - _sentMessageTimeMillisec (module w) > 500 ->
     exists w', TxTask nowTime sentTime w = Ret tt w' /\
                calls w' = calls w ++ [AckCall NO_ANSWER_TIMEOUT] /\
                tx_state (_tx w') = TX_IDLE).
Proof.
  intros Htx Hack. split; [|split].
  - intros rest nowTime rxTime Hrx Hopen Hin.
    apply (RxTask_confirm fuel w f 0x8B ACK_RESPONSE rest); auto.
  - intros rest nowTime rxTime Hrx Hopen Hin.
    apply (RxTask_confirm fuel w f 0x0B NACK_RESPONSE rest); auto.
  - intros nowTime sentTime Hlate.
    apply (TxTask_no_answer w f); assumption.
Qed.

(** The device of the scenario wrote the value 1; the last byte of the
    telegram left at the reading 9 of [millis()], and the byte 0x8B
    waits on the serial port. *)
Lemma waiting_ack_is_resolved_witness :
  let w := Scenario.link_below (Scenario.sent [0x8B]) in
  (exists w', RxTask 1 0 0 w = Ret tt w' /\
              calls w' = calls w ++ [AckCall ACK_RESPONSE] /\
              tx_state (_tx w') = TX_IDLE) /\
  (exists w', TxTask 510 510 w = Ret tt w' /\
              calls w' = calls w ++ [AckCall NO_ANSWER_TIMEOUT] /\
              tx_state (_tx w') = TX_IDLE).
Proof.
  intros w.
  assert (H : tx_state (_tx w) = TX_WAITING_ACK) by (vm_compute; reflexivity).
  assert (H' : ackFctPtr (_tx w) = Some (Function 1)) by (vm_compute; reflexivity).
  destruct (waiting_ack_is_resolved 1 w (Function 1) H H') as (Hack & _ & Hlate).
  split.
  - apply (Hack [] 0 0); vm_compute; reflexivity.
  - apply (Hlate 510 510). vm_compute. reflexivity.
Defined.

(** In that scenario the send time recorded for the last byte is 9; a
    [TxTask] at 509 still waits, one at 510 reports the timeout. *)
Example no_answer_boundary :
  let w := Scenario.link_below (Scenario.sent []) in
  _sentMessageTimeMillisec (module w) = 9 /\
  (fun w' => (tx_state (_tx w'), calls w')) <$> final (TxTask 509 509 w)
  = Some (TX_WAITING_ACK, []) /\
  (fun w' => (tx_state (_tx w'), calls w')) <$> final (TxTask 510 510 w)
  = Some (TX_IDLE, [AckCall NO_ANSWER_TIMEOUT]).
Proof. repeat split; vm_compute; reflexivity. Qed.

(** C6 — in RECEPTION_ADDRESSED, when the inter-byte timeout fires on a
    telegram whose checksum does not verify, [RxTask] invokes no callback
    at all: the log of calls is unchanged; the telegram store, the receive
    slot and the published index are unchanged, and the RX state is back
    to IDLE_WAITING_FOR_CTRL_FIELD. *)
Theorem RxTask_timeout_bad_checksum_no_event
    (fuel : nat) (w : world) (nowTime rxTime : Z) :
  rx_state (_rx w) = RX_EIB_TELEGRAM_RECEPTION_ADDRESSED ->
  nowTime - _lastByteRxTimeMicrosec (module w) > 2000 ->
  KnxTelegram.isChecksumCorrect (_telegram (module w)) (telegrams w)
  = Ret false (telegrams w) ->
  is_open (_serial (self w)) = true ->
  incoming (_serial (self w)) = [] ->
  exists w', RxTask fuel nowTime rxTime w = Ret tt w' /\
             calls w' = calls w /\
             telegrams w' = telegrams w /\
             receivedTelegram (_rx w') = receivedTelegram (_rx w) /\
             addressedComObjectIndex (_rx w') = addressedComObjectIndex (_rx w) /\
             rx_state (_rx w') = RX_IDLE_WAITING_FOR_CTRL_FIELD.
Proof.
  intros Hrx Hlate Hsum Hopen Hin. link_fields w. subst.
  unfold RxTask. unfold bind at 1, get at 1.
  cbn [rx_state _rx module _lastByteRxTimeMicrosec _telegram].
  change (RX_EIB_TELEGRAM_RECEPTION_ADDRESSED >=? RX_EIB_TELEGRAM_RECEPTION_STARTED)
    with true.
  match goal with
  | |- context [?x >? 2000] =>
      replace (x >? 2000) with true by (symmetry; apply Z.gtb_lt; lia)
  end.
  cbv iota.
  change (RX_EIB_TELEGRAM_RECEPTION_ADDRESSED =? RX_EIB_TELEGRAM_RECEPTION_LENGTH_INVALID)
    with false.
  change (RX_EIB_TELEGRAM_RECEPTION_ADDRESSED =? RX_EIB_TELEGRAM_RECEPTION_ADDRESSED)
    with true.
  cbv iota.
  unfold bind at 1 2 3. unfold on_telegrams at 1, zoom.
  cbn [telegrams]. rewrite Hsum.
  cbn. eexists. split; [reflexivity|]. repeat split; reflexivity.
Qed.

(** The link of the example script received a WRITE telegram for group
    0/0/1 whose last byte is 0 where the checksum 0x32 belongs; the last
    byte came at 900 microseconds and [RxTask] runs at 2901. *)
Lemma RxTask_timeout_bad_checksum_no_event_witness :
  let w := Scenario.link_after (Scenario.received 0) in
  exists w', RxTask 1 2901 2901 w = Ret tt w' /\
             calls w' = calls w /\
             telegrams w' = telegrams w /\
             receivedTelegram (_rx w') = receivedTelegram (_rx w) /\
             addressedComObjectIndex (_rx w') = addressedComObjectIndex (_rx w) /\
             rx_state (_rx w') = RX_IDLE_WAITING_FOR_CTRL_FIELD.
Proof.
  intros w.
  apply (RxTask_timeout_bad_checksum_no_event 1 w 2901 2901);
    vm_compute; reflexivity.
Defined.

(** What the caller sees in that scenario: no callback was ever invoked;
    with the right checksum the event RECEIVED_EIB_TELEGRAM is delivered. *)
Example bad_checksum_is_silent :
  calls (Scenario.link_after (Scenario.received 0 ;; RxTask 1 2901 2901)) = []
  /\ calls (Scenario.link_after (Scenario.received 0x32 ;; RxTask 1 2901 2901))
     = [EvtCall TPUART_EVENT_RECEIVED_EIB_TELEGRAM].
Proof. split; vm_compute; reflexivity. Qed.

(** Below 16 assigned objects the halving loop is left at its first test,
    with no halving counted. *)
Lemma halving_loop_skipped (fuel : nat) (w : world) :
  0 <= _assignedComObjectsNb (self w) < 16 ->
  while_ (Datatypes.S fuel) (4, 0)
    (fun '(i, divisionCounter) =>
       w <- get ;;
       ret (negb (Z.shiftr (_assignedComObjectsNb (self w)) i =? 0)))
    (fun '(i, divisionCounter) => ret (i, divisionCounter + 1)) w
  = Ret (4, 0) w.
Proof.
  intros Hnb. cbn [while_]. unfold bind, get, ret.
  rewrite Z.shiftr_div_pow2 by lia. change (2 ^ 4) with 16.
  rewrite Z.div_small by lia. reflexivity.
Qed.

Lemma keeps_for_each_return {S X R} (P : S -> Prop) (xs : list X)
    (body : X -> M S (option R)) :
  (forall x, keeps P (body x)) -> keeps P (for_each_return xs body).
Proof.
  intros Hb. induction xs as [|x xs IH]; cbn [for_each_return].
  - apply keeps_ret.
  - apply keeps_bind; [apply Hb|]. intros [v|]; [apply keeps_ret | exact IH].
Qed.

Lemma keeps_modify {S} (P : S -> Prop) (f : S -> S) :
  (forall s, P s -> P (f s)) -> keeps P (modify f).
Proof. intros Hf s Hs. apply Hf, Hs. Qed.

(** With fewer than 16 assigned objects [isAddressedAssigned] ends, by a
    return or by an exception, as soon as it has fuel for one test of each
    loop. *)
Lemma isAddressedAssigned_ends_below_16
    (fuel : nat) (w : world) (addr : Z) (index : pyval) :
  0 <= _assignedComObjectsNb (self w) < 16 ->
  observe (isAddressedAssigned (Datatypes.S fuel) addr index w) <> Diverged.
Proof.
  intros Hnb.
  enough (K : isAddressedAssigned (Datatypes.S fuel) addr index w <> Timeout)
    by (destruct (isAddressedAssigned _ addr index w); [discriminate..|contradiction]).
  unfold isAddressedAssigned. unfold bind at 1, get at 1.
  destruct (_assignedComObjectsNb (self w) =? 0); [discriminate|].
  unfold bind at 1. rewrite halving_loop_skipped by exact Hnb.
  cbn [snd]. unfold bind at 1, get at 1. unfold bind at 1.
  cbn [while_]. unfold bind at 1, ret at 1. cbn [Z.eqb negb].
  unfold ret at 1.
  match goal with
  | |- bind ?m ?k w <> Timeout =>
      assert (Km : keeps (fun _ : world => True) (bind m k))
  end.
  { apply keeps_bind.
    - apply keeps_for_each_return. intros i. unfold address_at, table_at.
      apply keeps_bind.
      + apply keeps_bind; [apply keeps_get|]. intros w0.
        destruct (_orderedIndexTable (self w0)); [|apply keeps_raise].
        apply keeps_bind; [apply keeps_list_getitem|]. intros c.
        destruct (_comObjectsList (self w0)) as [l0|];
          destruct c as [|j|b|l1|t]; try apply (keeps_raise _ TypeError).
        apply keeps_bind; [apply keeps_list_getitem|]. intros o. apply keeps_ret.
      + intros a. destruct (a =? addr).
        * apply keeps_bind.
          { apply keeps_bind; [apply keeps_get|]. intros w0.
            destruct (_orderedIndexTable (self w0)); [|apply keeps_raise].
            apply keeps_list_getitem. }
          intros v. apply keeps_bind; [|intros; apply keeps_ret].
          apply keeps_modify. auto.
        * destruct (i >? _); apply keeps_ret.
    - intros [v|]; apply keeps_ret. }
  specialize (Km w I). intros E. rewrite E in Km. exact Km.
Qed.
(** C10 — with 16 or more assigned com-objects the loop
    [while (self._assignedComObjectsNb >> i)] never exits, whatever the
    fuel: [isAddressedAssigned] does not return. *)
Theorem isAddressedAssigned_loops_from_16
    (fuel : nat) (w : world) (addr : Z) (index : pyval) :
  16 <= _assignedComObjectsNb (self w) ->
  isAddressedAssigned fuel addr index w = Timeout.
Proof.
  intros Hnb. unfold isAddressedAssigned. unfold bind at 1, get at 1.
  destruct (Z.eqb_spec (_assignedComObjectsNb (self w)) 0) as [|_]; [lia|].
  unfold bind at 1.
  rewrite (while_forever (fun v : Z * Z => fst v = 4)); [reflexivity| | |reflexivity].
  - intros [i dc] Hi. cbn in Hi. subst i. unfold bind, get, ret.
    rewrite shiftr_4_nonzero by exact Hnb. reflexivity.
  - intros [i dc] Hi. eexists. split; [reflexivity | exact Hi].
Qed.

(** Sixteen C-flagged objects at the group addresses 1 to 16 attach with
    status OK, and the search for address 5 does not return. *)
Lemma isAddressedAssigned_loops_from_16_witness :
  observe (Scenario.attach (Scenario.objects_at (seqZ 1 16)) [] blank)
  = Returned KNX_TPUART_OK /\
  isAddressedAssigned 1000 5 PNone
    (Scenario.link_after (Scenario.attach (Scenario.objects_at (seqZ 1 16)) []))
  = Timeout.
Proof.
  split; [vm_compute; reflexivity|].
  apply isAddressedAssigned_loops_from_16. vm_compute. discriminate.
Defined.

(** C4 — with exactly one attached C-flagged object, at group address
    0x11, the table is [[0]], the halving loop is skipped and the final
    loop runs over the empty [range(0, 0)]: [isAddressedAssigned(0x11)]
    falls off its end and returns [None], which is false, and no index is
    published. *)
Theorem isAddressedAssigned_single_object_not_found :
  observe ((status <- Scenario.attach (Scenario.objects_at [0x11]) [] ;;
            found <- isAddressedAssigned 1 0x11 PNone ;;
            w <- get ;;
            ret (status,
                 _assignedComObjectsNb (self w),
                 _orderedIndexTable (self w),
                 found, truthy found,
                 _addressedComObjectIndex (module w))) blank)
  = Returned (KNX_TPUART_OK, 1, Some [PInt 0], PNone, false, PNone).
Proof. vm_compute. reflexivity. Qed.

(** The ten objects of the address-search scenario: the lookup of 0x77
    subscripts the list with the [None] left in the table and raises;
    only the last object, which the table lists first, is found. *)
Example isAddressedAssigned_ten_objects :
  let objs := Scenario.objects_at
                [0x11; 0x22; 0x33; 0x40; 0x55; 0x60; 0x77; 0x80; 0x99; 0xAA] in
  observe ((Scenario.attach objs [] ;; isAddressedAssigned 1 0x77 PNone) blank)
  = Raised TypeError /\
  observe ((Scenario.attach objs [] ;; isAddressedAssigned 1 0xAA PNone) blank)
  = Returned (PBool true).
Proof. split; vm_compute; reflexivity. Qed.

(** C5 — two C-flagged objects at the ascending group addresses 0x11 and
    0x22 attach with status OK, and the ordered index table is
    [[1, None]]: its first entry is the object with the larger address, its
    second entry was never written. *)
Theorem attachComObjectsList_two_ascending :
  observe ((status <- Scenario.attach (Scenario.objects_at [0x11; 0x22]) [] ;;
            w <- get ;;
            ret (status,
                 _assignedComObjectsNb (self w),
                 _orderedIndexTable (self w))) blank)
  = Returned (KNX_TPUART_OK, 2, Some [PInt 1; PNone]).
Proof. vm_compute. reflexivity. Qed.

(** The table for the two objects of the example script, and for the ten
    objects of the address-search scenario. *)
Example attachComObjectsList_tables :
  _orderedIndexTable (self (Scenario.link_after
    (Scenario.attach Scenario.example_objects [])))
  = Some [PInt 1; PNone] /\
  _orderedIndexTable (self (Scenario.link_after
    (Scenario.attach (Scenario.objects_at
       [0x11; 0x22; 0x33; 0x40; 0x55; 0x60; 0x77; 0x80; 0x99; 0xAA]) [])))
  = Some (PInt 9 :: replicate 9 PNone).
Proof. split; vm_compute; reflexivity. Qed.

(** A list with an object that lacks the C flag next to an object at
    another address: the de-duplication loop reaches its call [isCom(j)]
    and the attachment raises. *)
Example attachComObjectsList_without_C_flag :
  observe (Scenario.attach
             [KnxComObject.new Scenario.dptBits 0x11 0 0x2E;
              KnxComObject.new Scenario.dptBits 0x22 0 0x0E] [] blank)
  = Raised TypeError.
Proof. vm_compute. reflexivity. Qed.

End Link.

(* ===================================================================== *)
(** ** Properties of the com-objects and of the device coordinator *)
(* ===================================================================== *)

Section Objects.
Import KnxComObject.

(** A telegram whose payload length is not the length of the object is
    refused with the error status, and the object is left as it was. *)
Lemma updateValue_length_mismatch (st : KnxTelegram.store) (o : t)
    (ori : KnxTelegram.instance) (n : Z) :
  KnxTelegram.getPayloadLength ori st = Ret n st ->
  n <> getLength o ->
  updateValue (PTelegram ori) (st, o) = Ret (PInt KNX_COM_OBJECT_ERROR) (st, o).
Proof.
  intros Hn Hne. unfold updateValue. unfold bind at 1, on_store, zoom.
  cbn [fst snd]. rewrite Hn. unfold bind at 1, gets. cbn [snd].
  destruct (Z.eqb_spec n (getLength o)); [contradiction|reflexivity].
Qed.

(** An object of length 1 takes the first payload byte of the telegram,
    becomes valid, and copies the same byte into another telegram. *)
Example updateValue_copyValue_length_1 :
  observe ((t <- KnxTelegram.new ;;
            KnxTelegram.setPayloadLength t 1 ;;
            KnxTelegram.setFirstPayloadByte t (PInt 0x2A) ;;
            st <- get ;;
            match updateValue (PTelegram t) (st, new Scenario.dptBits 1 0 0x2F) with
            | Ret status (_, o) =>
                fresh <- KnxTelegram.new ;;
                copyValue o fresh ;;
                byte <- KnxTelegram.getFirstPayloadByte fresh ;;
                ret (Returned (status, _validity o, _value o, byte))
            | Exc e _ => ret (Raised e)
            | Timeout => ret Diverged
            end) KnxTelegram.class_body)
  = Returned (Returned (PInt KNX_COM_OBJECT_OK, true, PInt 0x2A, 0x2A)).
Proof. vm_compute. reflexivity. Qed.

(** C2 — for an object of length 3 and a telegram of payload length 3,
    [updateValue] raises [IndexError]: [getLongPayload] assigns
    [destination[8]] in the two-cell list [_longValue]; for an object of
    length 2 and a telegram of payload length 2 it raises [TypeError]:
    [getLongPayload] assigns an item of [_value], which is [None].  In both
    cases the validity flag of the I-flagged object stays false and the
    value is not taken. *)
Theorem updateValue_long_payload_raises :
  (let o := new Scenario.dptBits 1 2 0x2F in
   observe ((t <- KnxTelegram.new ;;
             KnxTelegram.setPayloadLength t 3 ;;
             KnxTelegram.setLongPayload t (PList [PInt 0x12; PInt 0x34]) 2 ;;
             st <- get ;;
             ret (_length o,
                  observe (updateValue (PTelegram t) (st, o)),
                  snd <$> final (updateValue (PTelegram t) (st, o))))
              KnxTelegram.class_body)
   = Returned (3, Raised IndexError, Some o)) /\
  (let o := new Scenario.dptBits 1 1 0x2F in
   observe ((t <- KnxTelegram.new ;;
             KnxTelegram.setPayloadLength t 2 ;;
             KnxTelegram.setLongPayload t (PList [PInt 0x12]) 1 ;;
             st <- get ;;
             ret (_length o,
                  observe (updateValue (PTelegram t) (st, o)),
                  snd <$> final (updateValue (PTelegram t) (st, o))))
              KnxTelegram.class_body)
   = Returned (2, Raised TypeError, Some o)).
Proof. split; vm_compute; reflexivity. Qed.

End Objects.

Section Device.
Import KnxDevice.

(** For an object longer than 2, [write] does not look at the value. *)
Lemma write_ignores_long_value (d : t) (objectIndex value1 value2 : pyval)
    (o : KnxComObject.t) :
  comObject objectIndex d = Ret o d ->
  2 < KnxComObject.getLength o ->
  write objectIndex value1 d = write objectIndex value2 d.
Proof.
  intros Ho Hlen.
  assert (E : forall value,
    write objectIndex value d
    = (on_txActionsList
         (ActionRingBuffer.append
            (set_index objectIndex
               (set_command (PInt EIB_WRITE_REQUEST)
                  (set_valuePtr (PList (none_list (KnxComObject.getLength o - 1)))
                     new_tx_action)))) ;;
       ret KNX_DEVICE_OK) d).
  { intros value. unfold write. unfold bind at 1. rewrite Ho.
    destruct (Z.leb_spec (KnxComObject.getLength o) 2); [lia|reflexivity]. }
  rewrite (E value1), (E value2). reflexivity.
Qed.

(** C7 — a device with one object of length 3 (flags C, W, T, I) writes
    the value [[0x12, 0x34]]: [write] returns OK, but the queued action
    carries [[None, None]] in [valuePtr]; when the action is dispatched,
    [updateValue] gets that list, returns [None] and changes nothing: the
    object keeps [[0, 0]] and stays invalid, and the WRITE telegram that
    goes out carries the payload bytes 0, 0. *)
Theorem write_long_value_is_lost :
  observe ((Scenario.begun [KnxComObject.new Scenario.dptBits 1 2 0x2D] [] ;;
            status <- write (PInt 0) (PList [PInt 0x12; PInt 0x34]) ;;
            d <- get ;;
            let queued := ActionRingBuffer._buffer (_txActionsList d) !! 0%nat in
            task_actions ;;
            o <- comObject (PInt 0) ;;
            d <- get ;;
            byte8 <- on_telegrams (KnxTelegram.readRawByte (_txTelegram d) 8) ;;
            byte9 <- on_telegrams (KnxTelegram.readRawByte (_txTelegram d) 9) ;;
            ret (status,
                 valuePtr <$> mjoin queued,
                 KnxComObject._longValue o,
                 KnxComObject._validity o,
                 _state d, byte8, byte9)) blank)
  = Returned (KNX_DEVICE_OK,
              Some (PList [PNone; PNone]),
              PList [PInt 0; PInt 0],
              false,
              TX_ONGOING, PInt 0, PInt 0).
Proof. vm_compute. reflexivity. Qed.

(** A one-byte value does arrive in the object. *)
Example write_short_value_arrives :
  observe ((Scenario.begun [KnxComObject.new Scenario.dptBits 1 0 0x2D] [] ;;
            write (PInt 0) (PInt 1) ;;
            task_actions ;;
            o <- comObject (PInt 0) ;;
            ret (KnxComObject._value o, KnxComObject._validity o)) blank)
  = Returned (PInt 1, true).
Proof. vm_compute. reflexivity. Qed.

End Device.

(* ===================================================================== *)
(** ** Further properties of the action ring buffer *)
(* ===================================================================== *)

Section RingCalls.
Context {A : Type}.
Import ActionRingBuffer.

Lemma run_queue_calls_holds (cs : list (queue_call A)) (rb : ActionRingBuffer.t A)
    (q : list A) :
  holds rb q ->
  exists rb',
    run_queue_calls cs rb
    = Ret (fst (queue_calls (Z.to_nat (_size rb)) cs q)) rb' /\
    holds rb' (snd (queue_calls (Z.to_nat (_size rb)) cs q)) /\
    _size rb' = _size rb.
Proof.
  revert rb q. induction cs as [|[x|] cs IH]; intros rb q H.
  - exists rb. auto.
  - destruct (append_holds rb q x H) as (rb1 & E1 & H1 & S1).
    destruct (IH rb1 _ H1) as (rb2 & E2 & H2 & S2).
    rewrite S1 in E2, H2.
    exists rb2. cbn [run_queue_calls queue_calls]. unfold bind.
    rewrite E1, E2. split; [reflexivity|]. split; [exact H2|congruence].
  - destruct q as [|y q].
    + destruct (IH rb [] H) as (rb2 & E2 & H2 & S2).
      exists rb2. cbn [run_queue_calls queue_calls fst snd]. unfold bind.
      rewrite (pop_empty rb H), E2. auto.
    + destruct (pop_holds rb y q H) as (rb1 & E1 & H1 & S1).
      destruct (IH rb1 _ H1) as (rb2 & E2 & H2 & S2).
      rewrite S1 in E2, H2.
      exists rb2. cbn [run_queue_calls queue_calls fst snd]. unfold bind.
      rewrite E1, E2. split; [reflexivity|]. split; [exact H2|congruence].
Qed.

(** X1 — a buffer created with a positive capacity answers any sequence of
    appends and pops as the bounded queue that drops its oldest element on
    overflow: no call raises, every pop returns the oldest element still
    queued, or -1 when nothing is queued. *)
Theorem ring_buffer_is_bounded_queue (size : Z) (cs : list (queue_call A)) :
  0 < size ->
  exists rb,
    run_queue_calls cs (new size)
    = Ret (fst (queue_calls (Z.to_nat size) cs [])) rb /\
    holds rb (snd (queue_calls (Z.to_nat size) cs [])).
Proof.
  intros Hs.
  destruct (run_queue_calls_holds cs (new size) [] (holds_new size Hs))
    as (rb & E & H & _).
  exists rb. split; [exact E | exact H].
Qed.

End RingCalls.

Lemma ring_buffer_is_bounded_queue_witness :
  exists rb,
    run_queue_calls [Append 1%nat; Append 2%nat; Pop; Append 3%nat; Append 4%nat;
                     Pop; Pop; Pop; Pop] (ActionRingBuffer.new 2)
    = Ret [ActionRingBuffer.Cell (Some 1%nat); ActionRingBuffer.Cell (Some 3%nat); ActionRingBuffer.Cell (Some 4%nat);
           ActionRingBuffer.MinusOne; ActionRingBuffer.MinusOne] rb.
Proof.
  destruct (ring_buffer_is_bounded_queue 2
              [Append 1%nat; Append 2%nat; Pop; Append 3%nat; Append 4%nat;
               Pop; Pop; Pop; Pop] ltac:(lia)) as (rb & E & _).
  exists rb. exact E.
Defined.

(* ===================================================================== *)
(** ** Further properties of the telegram codec *)
(* ===================================================================== *)

(** A frame established by evaluation. *)
Ltac frame_computed :=
  split; [split; [vm_compute; reflexivity
                 | eexists; split; vm_compute; reflexivity]
         | vm_compute; reflexivity].

Section FrameFacts.
Import KnxTelegram Client.

Lemma frame_length st zs : frame st zs -> length zs = 23%nat.
Proof.
  intros [[_ (b & Hb & Hlen)] Hz]. rewrite Hz in Hb. injection Hb as <-.
  rewrite length_fmap in Hlen. exact Hlen.
Qed.

Lemma frame_buffer_of st zs self : frame st zs -> buffer_of st self = PInt <$> zs.
Proof.
  intros [H Hz]. destruct (one_buffer_buffer_of st self H) as [Hb _].
  rewrite Hz in Hb. injection Hb as <-. reflexivity.
Qed.

Lemma cell_lookup zs i :
  0 <= i < Z.of_nat (length zs) -> zs !! Z.to_nat i = Some (cell zs i).
Proof.
  intros Hi. unfold cell.
  destruct (lookup_lt_is_Some_2 zs (Z.to_nat i)) as [z Hz]; [lia|].
  rewrite Hz. reflexivity.
Qed.

Lemma cell_insert_eq zs (k : nat) v i :
  Z.to_nat i = k -> (k < length zs)%nat -> cell (<[k := v]> zs) i = v.
Proof.
  intros <- Hk. unfold cell. rewrite list_lookup_insert_eq by lia. reflexivity.
Qed.

Lemma cell_insert_ne zs (k : nat) v i :
  Z.to_nat i <> k -> cell (<[k := v]> zs) i = cell zs i.
Proof.
  intros Hne. unfold cell. rewrite list_lookup_insert_ne by lia. reflexivity.
Qed.

Lemma yields_ret {A} (a : A) zs : yields (ret a) zs a zs.
Proof. intros st H. exists st. auto. Qed.

Lemma yields_bind {A B} (m : M store A) (k : A -> M store B) zs a zs1 b zs2 :
  yields m zs a zs1 -> yields (k a) zs1 b zs2 -> yields (bind m k) zs b zs2.
Proof.
  intros Hm Hk st H. destruct (Hm st H) as (st1 & E1 & H1).
  destruct (Hk st1 H1) as (st2 & E2 & H2). exists st2.
  unfold bind. rewrite E1. auto.
Qed.

Lemma yields_tget self i zs :
  0 <= i < 23 -> yields (tget self i) zs (PInt (cell zs i)) zs.
Proof.
  intros Hi st H. exists st. split; [|exact H].
  pose proof (frame_length st zs H) as Hlen.
  apply tget_in_range; rewrite (frame_buffer_of st zs self H).
  - rewrite length_fmap. lia.
  - rewrite list_lookup_fmap, cell_lookup by lia. reflexivity.
Qed.

Lemma yields_tint self i zs :
  0 <= i < 23 -> yields (tint self i) zs (cell zs i) zs.
Proof.
  intros Hi. unfold tint. eapply yields_bind; [apply yields_tget, Hi|].
  apply yields_ret.
Qed.

Lemma yields_tset self i v zs :
  0 <= i < 23 -> yields (tset self i (PInt v)) zs tt (<[Z.to_nat i := v]> zs).
Proof.
  intros Hi st H. pose proof (frame_length st zs H) as Hlen.
  destruct H as [H Hz]. rewrite tset_in_range by assumption.
  eexists. split; [reflexivity|].
  pose proof (frame_buffer_of st zs self (conj H Hz)) as Hb.
  split.
  - apply one_buffer_set_buffer; [exact H|].
    rewrite length_insert. apply one_buffer_buffer_of, H.
  - unfold set_buffer. cbn [lists class_telegram].
    rewrite (one_buffer_resolve st self H), lookup_insert_eq, Hb.
    rewrite list_fmap_insert. reflexivity.
Qed.


Lemma yields_len {A} (m : M store A) zs a zs' :
  (length zs = 23%nat -> yields m zs a zs') -> yields m zs a zs'.
Proof. intros H st Hst. apply (H (frame_length st zs Hst)), Hst. Qed.

Lemma yields_eq {A} (m : M store A) zs a a' zs' zs'' :
  yields m zs a zs' -> a = a' -> zs' = zs'' -> yields m zs a' zs''.
Proof. intros H <- <-. exact H. Qed.

Lemma yields_as_int z zs : yields (as_int (PInt z)) zs z zs.
Proof. apply yields_ret. Qed.

(** A fixed offset lies in the frame. *)
Ltac offset :=
  unfold _controlField, _sourceAddrH, _sourceAddrL, _targetAddrH, _targetAddrL,
    _routing, _commandH, _commandL; lia.

(** One step of a straight-line method. *)
Ltac yields_step :=
  lazymatch goal with
  | |- yields (bind _ _) _ _ _ => eapply yields_bind
  | |- yields (tint _ _) _ _ _ => apply yields_tint; offset
  | |- yields (tget _ _) _ _ _ => apply yields_tget; offset
  | |- yields (tset _ _ _) _ _ _ => apply yields_tset; offset
  | |- yields (as_int (PInt _)) _ _ _ => apply yields_as_int
  | |- yields (ret _) _ _ _ => apply yields_ret
  end.

(** Setting a bit field: the field takes the new bits, and bits that
    neither the field nor the new value touch stay. *)
Lemma land_field_set (x y m : Z) :
  Z.land (Z.lor (Z.land x (Z.lnot m)) y) m = Z.land y m.
Proof.
  apply Z.bits_inj'. intros n Hn.
  rewrite !Z.land_spec, Z.lor_spec, Z.land_spec, Z.lnot_spec by lia.
  destruct (Z.testbit x n), (Z.testbit y n), (Z.testbit m n); reflexivity.
Qed.

Lemma land_field_keep (x y m k : Z) :
  Z.land m k = 0 -> Z.land y k = 0 ->
  Z.land (Z.lor (Z.land x (Z.lnot m)) y) k = Z.land x k.
Proof.
  intros Hm Hy. apply Z.bits_inj'. intros n Hn.
  apply (f_equal (fun z => Z.testbit z n)) in Hm, Hy.
  rewrite Z.land_spec, Z.bits_0 in Hm, Hy.
  rewrite !Z.land_spec, Z.lor_spec, Z.land_spec, Z.lnot_spec by lia.
  destruct (Z.testbit x n), (Z.testbit y n), (Z.testbit m n), (Z.testbit k n);
    try reflexivity; discriminate.
Qed.

Lemma land_land_0 (y m k : Z) : Z.land m k = 0 -> Z.land (Z.land y m) k = 0.
Proof. intros H. rewrite <- Z.land_assoc, H. apply Z.land_0_r. Qed.

Lemma reads_ret {A} (a : A) zs : reads (ret a) zs a.
Proof. intros st H. reflexivity. Qed.

Lemma reads_bind {A B} (m : M store A) (k : A -> M store B) zs a b :
  reads m zs a -> reads (k a) zs b -> reads (bind m k) zs b.
Proof. intros Hm Hk st H. unfold bind. rewrite (Hm st H). apply Hk, H. Qed.

Lemma reads_tget self i zs : 0 <= i < 23 -> reads (tget self i) zs (PInt (cell zs i)).
Proof.
  intros Hi st H. pose proof (frame_length st zs H) as Hlen.
  apply tget_in_range; rewrite (frame_buffer_of st zs self H).
  - rewrite length_fmap. lia.
  - rewrite list_lookup_fmap, cell_lookup by lia. reflexivity.
Qed.

Lemma reads_tint self i zs : 0 <= i < 23 -> reads (tint self i) zs (cell zs i).
Proof.
  intros Hi. unfold tint. eapply reads_bind; [apply reads_tget, Hi|].
  apply reads_ret.
Qed.

Lemma reads_yields {A} (m : M store A) zs a : reads m zs a -> yields m zs a zs.
Proof. intros H st Hst. exists st. split; [apply H, Hst | exact Hst]. Qed.

Lemma reads_eq {A} (m : M store A) zs a a' : reads m zs a -> a = a' -> reads m zs a'.
Proof. intros H <-. exact H. Qed.

(** One step of a straight-line getter. *)
Ltac reads_step :=
  lazymatch goal with
  | |- reads (bind _ _) _ _ => eapply reads_bind
  | |- reads (tint _ _) _ _ => apply reads_tint; offset
  | |- reads (tget _ _) _ _ => apply reads_tget; offset
  | |- reads (ret _) _ _ => apply reads_ret
  end.

(** Normalise the cells of a frame built by item assignments. *)
Ltac cells :=
  repeat first
    [ rewrite cell_insert_eq by (rewrite ?length_insert; lia)
    | rewrite cell_insert_ne by lia
    | rewrite list_insert_insert_eq ].

Lemma reads_getCommand self zs :
  reads (getCommand self) zs
    (Z.shiftr (Z.land (cell zs 7) 0xC0) 6 + Z.shiftl (Z.land (cell zs 6) 0x03) 2).
Proof. unfold getCommand. repeat reads_step. Qed.

Lemma reads_getPayloadLength self zs :
  reads (getPayloadLength self) zs (Z.land (cell zs 5) 15).
Proof. unfold getPayloadLength. repeat reads_step. Qed.

Lemma reads_getFirstPayloadByte self zs :
  reads (getFirstPayloadByte self) zs (Z.land (cell zs 7) 0x3F).
Proof. unfold getFirstPayloadByte. repeat reads_step. Qed.

Lemma reads_getTelegramLength self zs :
  reads (getTelegramLength self) zs (8 + Z.land (cell zs 5) 15).
Proof.
  unfold getTelegramLength. eapply reads_bind; [apply reads_getPayloadLength|].
  apply reads_ret.
Qed.

Lemma reads_getSourceAddress self zs :
  reads (getSourceAddress self) zs (cell zs 2 + Z.shiftl (cell zs 1) 8).
Proof. unfold getSourceAddress. repeat reads_step. Qed.

Lemma reads_getTargetAddress self zs :
  reads (getTargetAddress self) zs (cell zs 4 + Z.shiftl (cell zs 3) 8).
Proof. unfold getTargetAddress. repeat reads_step. Qed.

Lemma yields_setPayloadLength self n zs :
  yields (setPayloadLength self n) zs tt
    (<[5%nat := Z.lor (Z.land (cell zs 5) (Z.lnot 15)) (Z.land n 15)]> zs).
Proof.
  apply yields_len; intros Hlen. unfold setPayloadLength.
  eapply yields_eq; [repeat yields_step | reflexivity |].
  unfold _routing. cells. reflexivity.
Qed.

Lemma yields_setCommand self command zs :
  yields (setCommand self command) zs tt
    (<[7%nat := Z.lor (Z.land (cell zs 7) (Z.lnot 0xC0)) (Z.shiftl command 6)]>
       (<[6%nat := Z.lor (Z.land (cell zs 6) (Z.lnot 0x03)) (Z.shiftr command 2)]> zs)).
Proof.
  apply yields_len; intros Hlen. unfold setCommand.
  eapply yields_eq; [repeat yields_step | reflexivity |].
  unfold _commandH, _commandL. cells. reflexivity.
Qed.

Lemma yields_setTargetAddress self addr zs :
  yields (setTargetAddress self addr) zs tt
    (<[3%nat := Z.land (Z.shiftr addr 8) 0xFF]> (<[4%nat := Z.land addr 0xFF]> zs)).
Proof.
  unfold setTargetAddress. eapply yields_eq; [repeat yields_step | reflexivity |].
  reflexivity.
Qed.

Lemma yields_setSourceAddress self addr zs :
  yields (setSourceAddress self addr) zs tt
    (<[1%nat := Z.land (Z.shiftr addr 8) 0xFF]> (<[2%nat := Z.land addr 0xFF]> zs)).
Proof.
  unfold setSourceAddress. eapply yields_eq; [repeat yields_step | reflexivity |].
  reflexivity.
Qed.

Lemma yields_setFirstPayloadByte self data zs :
  yields (setFirstPayloadByte self (PInt data)) zs tt
    (<[7%nat := Z.lor (Z.land (cell zs 7) (Z.lnot 0x3F)) (Z.land data 0x3F)]> zs).
Proof.
  apply yields_len; intros Hlen. unfold setFirstPayloadByte.
  eapply yields_eq; [repeat yields_step | reflexivity |].
  unfold _commandL. cells. reflexivity.
Qed.

Lemma yields_changePriority self priority zs :
  yields (changePriority self priority) zs tt
    (<[0%nat := Z.lor (Z.land (cell zs 0) (Z.lnot 12)) (Z.land priority 12)]> zs).
Proof.
  apply yields_len; intros Hlen. unfold changePriority.
  eapply yields_eq; [repeat yields_step | reflexivity |].
  unfold _controlField. cells. reflexivity.
Qed.

Lemma yields_clearFirstPayloadByte self zs :
  yields (clearFirstPayloadByte self) zs tt
    (<[7%nat := Z.land (cell zs 7) (Z.lnot 0x3F)]> zs).
Proof.
  unfold clearFirstPayloadByte. eapply yields_eq; [repeat yields_step | reflexivity |].
  reflexivity.
Qed.


(** The address bytes written by the setters read back as the address
    modulo 2^16. *)
Lemma address_bytes (addr : Z) :
  Z.land addr 0xFF + Z.shiftl (Z.land (Z.shiftr addr 8) 0xFF) 8 = addr mod 65536.
Proof.
  change 0xFF with (Z.ones 8). rewrite !Z.land_ones by lia.
  rewrite Z.shiftr_div_pow2, Z.shiftl_mul_pow2 by lia.
  change (2 ^ 8) with 256.
  pose proof (Z.div_mod addr 256 ltac:(lia)).
  pose proof (Z.mod_pos_bound addr 256 ltac:(lia)).
  pose proof (Z.mod_pos_bound (addr / 256) 256 ltac:(lia)).
  pose proof (Z.div_mod (addr / 256) 256 ltac:(lia)).
  apply (Z.mod_unique addr 65536 (addr / 256 / 256)); lia.
Qed.

Lemma command_bits (c : Z) :
  0 <= c < 16 ->
  Z.shiftr (Z.land (Z.shiftl c 6) 0xC0) 6 + Z.shiftl (Z.land (Z.shiftr c 2) 0x03) 2 = c
  /\ Z.land (Z.shiftl c 6) 0x3F = 0
  /\ Z.land (Z.shiftr c 2) (Z.lnot 0x03) = 0.
Proof.
  intros Hc.
  assert (H : c = 0 \/ c = 1 \/ c = 2 \/ c = 3 \/ c = 4 \/ c = 5 \/ c = 6 \/ c = 7
              \/ c = 8 \/ c = 9 \/ c = 10 \/ c = 11 \/ c = 12 \/ c = 13 \/ c = 14
              \/ c = 15) by lia.
  repeat (destruct H as [->|H]; [repeat split; reflexivity|]).
  subst c. repeat split; reflexivity.
Qed.

(** X2 — on a telegram buffer of integers, [setPayloadLength(n)] followed
    by [getPayloadLength()] returns [n & 15]: a length of 16 or more is cut
    to its low four bits without an error.  The other bits of the routing
    byte and every other cell keep their values. *)
Theorem setPayloadLength_getPayloadLength
    (st : store) (zs : list Z) (self : instance) (n : Z) :
  frame st zs ->
  exists st' zs',
    setPayloadLength self n st = Ret tt st' /\ frame st' zs' /\
    getPayloadLength self st' = Ret (Z.land n 15) st' /\
    Z.land (cell zs' 5) (Z.lnot 15) = Z.land (cell zs 5) (Z.lnot 15) /\
    (forall i, 0 <= i -> i <> 5 -> cell zs' i = cell zs i).
Proof.
  intros H. pose proof (frame_length st zs H) as Hlen.
  destruct (yields_setPayloadLength self n zs st H) as (st' & E & H').
  eexists st', _. split; [exact E|]. split; [exact H'|].
  split; [|split].
  - rewrite (reads_getPayloadLength self _ st' H'). cells.
    rewrite land_field_set, <- Z.land_assoc. reflexivity.
  - cells.
    apply land_field_keep; [reflexivity|]. apply land_land_0. reflexivity.
  - intros i Hi Hne. cells. reflexivity.
Qed.

Lemma setPayloadLength_getPayloadLength_witness :
  exists st',
    setPayloadLength 0%nat 3 Scenario.fresh_store = Ret tt st' /\
    getPayloadLength 0%nat st' = Ret 3 st'.
Proof.
  destruct (setPayloadLength_getPayloadLength Scenario.fresh_store cleared_frame
              0%nat 3 ltac:(frame_computed)) as (st' & zs' & E & _ & G & _).
  exists st'. split; [exact E | exact G].
Defined.

(** X3 — for a command between 0 and 15, [setCommand(c)] followed by
    [getCommand()] returns [c]; the first payload byte (low six bits of the
    cell 7), the upper six bits of the cell 6 and all other cells are left
    as they were. *)
Theorem setCommand_getCommand
    (st : store) (zs : list Z) (self : instance) (c : Z) :
  frame st zs -> 0 <= c < 16 ->
  exists st' zs',
    setCommand self c st = Ret tt st' /\ frame st' zs' /\
    getCommand self st' = Ret c st' /\
    getFirstPayloadByte self st' = Ret (Z.land (cell zs 7) 0x3F) st' /\
    Z.land (cell zs' 6) (Z.lnot 0x03) = Z.land (cell zs 6) (Z.lnot 0x03) /\
    (forall i, 0 <= i -> i <> 6 -> i <> 7 -> cell zs' i = cell zs i).
Proof.
  intros H Hc. pose proof (frame_length st zs H) as Hlen.
  destruct (command_bits c Hc) as (Hrt & Hlow & Hhigh).
  destruct (yields_setCommand self c zs st H) as (st' & E & H').
  eexists st', _. split; [exact E|]. split; [exact H'|].
  split; [|split; [|split]].
  - rewrite (reads_getCommand self _ st' H'). cells.
    rewrite !land_field_set, Hrt. reflexivity.
  - rewrite (reads_getFirstPayloadByte self _ st' H'). cells.
    rewrite land_field_keep by (reflexivity || exact Hlow). reflexivity.
  - cells. apply land_field_keep; [reflexivity | exact Hhigh].
  - intros i Hi H6 H7. cells. reflexivity.
Qed.

Lemma setCommand_getCommand_witness :
  exists st',
    setCommand 0%nat 2 Scenario.fresh_store = Ret tt st' /\
    getCommand 0%nat st' = Ret 2 st'.
Proof.
  destruct (setCommand_getCommand Scenario.fresh_store cleared_frame
              0%nat 2 ltac:(frame_computed) ltac:(lia))
    as (st' & zs' & E & _ & G & _).
  exists st'. split; [exact E | exact G].
Defined.

(** X4 — [setTargetAddress(addr)] followed by [getTargetAddress()], and
    [setSourceAddress(addr)] followed by [getSourceAddress()], return
    [addr mod 65536] for every integer [addr] (the address itself when it
    fits 16 bits); only the two address cells concerned change. *)
Theorem address_round_trip
    (st : store) (zs : list Z) (self : instance) (addr : Z) :
  frame st zs ->
  (exists st' zs',
     setTargetAddress self addr st = Ret tt st' /\ frame st' zs' /\
     getTargetAddress self st' = Ret (addr mod 65536) st' /\
     (forall i, 0 <= i -> i <> 3 -> i <> 4 -> cell zs' i = cell zs i)) /\
  (exists st' zs',
     setSourceAddress self addr st = Ret tt st' /\ frame st' zs' /\
     getSourceAddress self st' = Ret (addr mod 65536) st' /\
     (forall i, 0 <= i -> i <> 1 -> i <> 2 -> cell zs' i = cell zs i)).
Proof.
  intros H. pose proof (frame_length st zs H) as Hlen. split.
  - destruct (yields_setTargetAddress self addr zs st H) as (st' & E & H').
    eexists st', _. split; [exact E|]. split; [exact H'|]. split.
    + rewrite (reads_getTargetAddress self _ st' H'). cells.
      rewrite address_bytes. reflexivity.
    + intros i Hi H3 H4. cells. reflexivity.
  - destruct (yields_setSourceAddress self addr zs st H) as (st' & E & H').
    eexists st', _. split; [exact E|]. split; [exact H'|]. split.
    + rewrite (reads_getSourceAddress self _ st' H'). cells.
      rewrite address_bytes. reflexivity.
    + intros i Hi H1 H2. cells. reflexivity.
Qed.

Lemma address_round_trip_witness :
  (exists st', setTargetAddress 0%nat 0x0901 Scenario.fresh_store = Ret tt st' /\
               getTargetAddress 0%nat st' = Ret 0x0901 st') /\
  (exists st', setSourceAddress 0%nat 0x1103 Scenario.fresh_store = Ret tt st' /\
               getSourceAddress 0%nat st' = Ret 0x1103 st').
Proof.
  split.
  - destruct (proj1 (address_round_trip Scenario.fresh_store cleared_frame
                       0%nat 0x0901 ltac:(frame_computed)))
      as (st' & zs' & E & _ & G & _).
    exists st'. split; [exact E | exact G].
  - destruct (proj2 (address_round_trip Scenario.fresh_store cleared_frame
                       0%nat 0x1103 ltac:(frame_computed)))
      as (st' & zs' & E & _ & G & _).
    exists st'. split; [exact E | exact G].
Defined.

(** X5 — [setFirstPayloadByte(data)] followed by [getFirstPayloadByte()]
    returns [data & 0x3F]; the command read by [getCommand()] is the same
    before and after, and no cell other than the cell 7 changes. *)
Theorem setFirstPayloadByte_getFirstPayloadByte
    (st : store) (zs : list Z) (self : instance) (data : Z) :
  frame st zs ->
  exists st' zs',
    setFirstPayloadByte self (PInt data) st = Ret tt st' /\ frame st' zs' /\
    getFirstPayloadByte self st' = Ret (Z.land data 0x3F) st' /\
    (exists c, getCommand self st = Ret c st /\ getCommand self st' = Ret c st') /\
    (forall i, 0 <= i -> i <> 7 -> cell zs' i = cell zs i).
Proof.
  intros H. pose proof (frame_length st zs H) as Hlen.
  destruct (yields_setFirstPayloadByte self data zs st H) as (st' & E & H').
  eexists st', _. split; [exact E|]. split; [exact H'|].
  split; [|split].
  - rewrite (reads_getFirstPayloadByte self _ st' H'). cells.
    rewrite land_field_set, <- Z.land_assoc. reflexivity.
  - eexists. split; [apply (reads_getCommand self zs st H)|].
    rewrite (reads_getCommand self _ st' H'). cells.
    rewrite land_field_keep by (reflexivity || (apply land_land_0; reflexivity)).
    reflexivity.
  - intros i Hi H7. cells. reflexivity.
Qed.

Lemma setFirstPayloadByte_getFirstPayloadByte_witness :
  exists st',
    setFirstPayloadByte 0%nat (PInt 0x2A) Scenario.fresh_store = Ret tt st' /\
    getFirstPayloadByte 0%nat st' = Ret 0x2A st'.
Proof.
  destruct (setFirstPayloadByte_getFirstPayloadByte Scenario.fresh_store
              cleared_frame 0%nat 0x2A ltac:(frame_computed))
    as (st' & zs' & E & _ & G & _).
  exists st'. split; [exact E | exact G].
Defined.

(** X6 — [copyAttributes(dest)] sets the priority bits of the control
    byte to 12 (normal priority), the target address to the object's
    address (mod 65536) and the payload length to the object's length cut
    to four bits; the other bits of the control and routing bytes, and all
    cells other than 0, 3, 4 and 5, are kept. *)
Theorem copyAttributes_getters
    (st : store) (zs : list Z) (o : KnxComObject.t) (dest : instance) :
  frame st zs ->
  exists st' zs',
    KnxComObject.copyAttributes o dest st = Ret tt st' /\ frame st' zs' /\
    Z.land (cell zs' 0) CONTROL_FIELD_PRIORITY_MASK
    = KnxComObject.KNX_PRIORITY_NORMAL_VALUE /\
    Z.land (cell zs' 0) (Z.lnot CONTROL_FIELD_PRIORITY_MASK)
    = Z.land (cell zs 0) (Z.lnot CONTROL_FIELD_PRIORITY_MASK) /\
    getTargetAddress dest st' = Ret (KnxComObject.getAddress o mod 65536) st' /\
    getPayloadLength dest st' = Ret (Z.land (KnxComObject.getLength o) 15) st' /\
    Z.land (cell zs' 5) (Z.lnot 15) = Z.land (cell zs 5) (Z.lnot 15) /\
    (forall i, 0 <= i -> i <> 0 -> i <> 3 -> i <> 4 -> i <> 5 ->
       cell zs' i = cell zs i).
Proof.
  intros H. pose proof (frame_length st zs H) as Hlen.
  unfold KnxComObject.copyAttributes, bind.
  destruct (yields_changePriority dest (KnxComObject.getPriority o) zs st H)
    as (st1 & E1 & H1). rewrite E1.
  destruct (yields_setTargetAddress dest (KnxComObject.getAddress o) _ st1 H1)
    as (st2 & E2 & H2). rewrite E2.
  destruct (yields_setPayloadLength dest (KnxComObject._length o) _ st2 H2)
    as (st3 & E3 & H3). rewrite E3.
  eexists st3, _. split; [reflexivity|]. split; [exact H3|].
  unfold CONTROL_FIELD_PRIORITY_MASK.
  split; [|split; [|split; [|split; [|split]]]].
  - cells. rewrite land_field_set. reflexivity.
  - cells. apply land_field_keep; [reflexivity|]. apply land_land_0. reflexivity.
  - rewrite (reads_getTargetAddress dest _ st3 H3). cells.
    rewrite address_bytes. reflexivity.
  - rewrite (reads_getPayloadLength dest _ st3 H3). cells.
    rewrite land_field_set, <- Z.land_assoc. reflexivity.
  - cells. apply land_field_keep; [reflexivity|]. apply land_land_0. reflexivity.
  - intros i Hi H0 H3' H4 H5. cells. reflexivity.
Qed.

Lemma copyAttributes_getters_witness :
  exists st',
    KnxComObject.copyAttributes
      (KnxComObject.new Scenario.dptBits 0x0901 2 0x2C) 0%nat Scenario.fresh_store
    = Ret tt st' /\
    getTargetAddress 0%nat st' = Ret 0x0901 st' /\
    getPayloadLength 0%nat st' = Ret 3 st'.
Proof.
  destruct (copyAttributes_getters Scenario.fresh_store cleared_frame
              (KnxComObject.new Scenario.dptBits 0x0901 2 0x2C) 0%nat
              ltac:(frame_computed))
    as (st' & zs' & E & _ & _ & _ & G1 & G2 & _).
  exists st'. split; [exact E|]. split; [exact G1 | exact G2].
Defined.

Lemma for_fold_app {S X B} (xs ys : list X) (acc : B) (body : B -> X -> M S B) (s : S) :
  for_fold (xs ++ ys) acc body s
  = (acc' <- for_fold xs acc body ;; for_fold ys acc' body) s.
Proof.
  revert acc s. induction xs as [|x xs IH]; intros acc s; cbn [for_fold app].
  - reflexivity.
  - unfold bind at 1 2 3. destruct (body acc x s) as [a s'| |]; [|reflexivity..].
    rewrite IH. reflexivity.
Qed.

(** The loop of the checksum computation folds XOR over the first cells. *)
Lemma reads_xor_loop self zs (n : nat) (acc : Z) :
  (n <= 23)%nat ->
  reads (for_fold (range 0 (Z.of_nat n)) acc
           (fun xorSum i => b <- tint self i ;; ret (Z.lxor xorSum b)))
        zs (fold_left Z.lxor (take n zs) acc).
Proof.
  intros Hn st H. pose proof (frame_length st zs H) as Hlen.
  induction n as [|n IH].
  - reflexivity.
  - unfold range in *. rewrite Z.sub_0_r in *. rewrite seqZ_S, for_fold_app.
    unfold bind at 1. rewrite IH by lia.
    cbn [for_fold]. unfold bind at 1 2.
    rewrite (reads_tint self (0 + Z.of_nat n) zs ltac:(lia) st H).
    unfold ret. f_equal.
    rewrite (take_S_r zs n (cell zs (0 + Z.of_nat n))).
    + rewrite fold_left_app. reflexivity.
    + rewrite <- (Nat2Z.id n) at 1. rewrite <- (Z.add_0_l (Z.of_nat n)) at 1.
      apply cell_lookup. lia.
Qed.

Lemma payload_length_bounds (r : Z) : 0 <= Z.land r 15 < 16.
Proof.
  change 15 with (Z.ones 4). rewrite Z.land_ones by lia.
  apply Z.mod_pos_bound. reflexivity.
Qed.

(** The checksum of a frame: the complement of the XOR of the cells before
    the checksum offset, cut to a byte. *)
Lemma reads_calculateChecksum self zs :
  reads (calculateChecksum self) zs
    (Z.land (Z.lnot (xor_all (take (Z.to_nat (7 + Z.land (cell zs 5) 15)) zs))) 0xFF).
Proof.
  pose proof (payload_length_bounds (cell zs 5)) as Hb.
  unfold calculateChecksum.
  eapply reads_bind; [apply reads_getPayloadLength|].
  eapply reads_bind; [|apply reads_ret].
  eapply reads_eq.
  - replace (KNX_TELEGRAM_HEADER_SIZE + Z.land (cell zs 5) 15 + 1)
      with (Z.of_nat (Z.to_nat (7 + Z.land (cell zs 5) 15)))
      by (unfold KNX_TELEGRAM_HEADER_SIZE; lia).
    apply reads_xor_loop. lia.
  - reflexivity.
Qed.

Lemma yields_updateChecksum self zs :
  yields (updateChecksum self) zs tt
    (<[Z.to_nat (7 + Z.land (cell zs 5) 15) :=
         Z.land (Z.lnot (xor_all (take (Z.to_nat (7 + Z.land (cell zs 5) 15)) zs))) 0xFF]>
       zs).
Proof.
  pose proof (payload_length_bounds (cell zs 5)) as Hb.
  unfold updateChecksum.
  eapply yields_bind; [apply reads_yields, reads_getPayloadLength|].
  eapply yields_bind.
  - apply reads_yields.
    replace (KNX_TELEGRAM_HEADER_SIZE + Z.land (cell zs 5) 15 + 1)
      with (Z.of_nat (Z.to_nat (7 + Z.land (cell zs 5) 15)))
      by (unfold KNX_TELEGRAM_HEADER_SIZE; lia).
    apply reads_xor_loop. lia.
  - eapply yields_eq; [apply yields_tset; unfold KNX_TELEGRAM_HEADER_SIZE; lia
                      | reflexivity |].
    f_equal. unfold KNX_TELEGRAM_HEADER_SIZE. lia.
Qed.

(** Assigning a cell the value it holds leaves the store as it is. *)
Lemma tset_same st zs self i v :
  frame st zs -> 0 <= i < 23 -> cell zs i = v ->
  tset self i (PInt v) st = Ret tt st.
Proof.
  intros H Hi Hv. pose proof (frame_length st zs H) as Hlen.
  rewrite tset_in_range by (assumption || apply H).
  rewrite list_insert_id.
  - rewrite set_buffer_same by apply H. reflexivity.
  - rewrite (frame_buffer_of st zs self H), list_lookup_fmap, cell_lookup by lia.
    rewrite Hv. reflexivity.
Qed.

(** The state after [updateChecksum]: the payload length is kept, the
    cell at offset 6 + length + 1 holds a byte that [calculateChecksum]
    returns, and a second [updateChecksum] changes nothing. *)
Lemma updateChecksum_settles
    (st : store) (zs : list Z) (self : instance) :
  frame st zs ->
  exists st' n c,
    getPayloadLength self st = Ret n st /\
    updateChecksum self st = Ret tt st' /\
    0 <= c < 256 /\
    getPayloadLength self st' = Ret n st' /\
    readRawByte self (KNX_TELEGRAM_HEADER_SIZE + n + 1) st' = Ret (PInt c) st' /\
    calculateChecksum self st' = Ret c st' /\
    updateChecksum self st' = Ret tt st'.
Proof.
  intros H. pose proof (frame_length st zs H) as Hlen.
  pose proof (payload_length_bounds (cell zs 5)) as Hb.
  destruct (yields_updateChecksum self zs st H) as (st' & E & H').
  set (k := Z.to_nat (7 + Z.land (cell zs 5) 15)) in *.
  set (c := Z.land (Z.lnot (xor_all (take k zs))) 0xFF) in *.
  assert (H5 : cell (<[k := c]> zs) 5 = cell zs 5)
    by (apply cell_insert_ne; subst k; lia).
  assert (Hc : Z.land (Z.lnot (xor_all (take (Z.to_nat
                 (7 + Z.land (cell (<[k := c]> zs) 5) 15)) (<[k := c]> zs)))) 0xFF = c).
  { rewrite H5. fold k. rewrite take_insert_ge by lia. reflexivity. }
  assert (Hcalc : calculateChecksum self st' = Ret c st').
  { rewrite (reads_calculateChecksum self _ st' H'), Hc. reflexivity. }
  exists st', (Z.land (cell zs 5) 15), c.
  split; [apply (reads_getPayloadLength self _ st H)|].
  split; [exact E|]. split.
  { subst c. change 0xFF with (Z.ones 8). rewrite Z.land_ones by lia.
    apply Z.mod_pos_bound. reflexivity. }
  split.
  { rewrite (reads_getPayloadLength self _ st' H'), H5. reflexivity. }
  split.
  { unfold readRawByte.
    assert (Hi : 0 <= KNX_TELEGRAM_HEADER_SIZE + Z.land (cell zs 5) 15 + 1 < 23)
      by (unfold KNX_TELEGRAM_HEADER_SIZE; lia).
    rewrite (reads_tget self _ (<[k:=c]> zs) Hi st' H').
    rewrite cell_insert_eq by (subst k; unfold KNX_TELEGRAM_HEADER_SIZE; lia).
    reflexivity. }
  split; [exact Hcalc|].
  unfold updateChecksum. unfold bind at 1.
  rewrite (reads_getPayloadLength self _ st' H'). unfold bind at 1.
  replace (KNX_TELEGRAM_HEADER_SIZE + Z.land (cell (<[k:=c]> zs) 5) 15 + 1)
    with (Z.of_nat k) by (rewrite H5; subst k; unfold KNX_TELEGRAM_HEADER_SIZE; lia).
  rewrite (reads_xor_loop self _ k 0 ltac:(subst k; lia) st' H').
  rewrite take_insert_ge by lia. fold (xor_all (take k zs)). fold c.
  apply (tset_same st' (<[k:=c]> zs)); [exact H' | subst k; lia |].
  apply cell_insert_eq; subst k; lia.
Qed.

(** X7 — on a telegram buffer of integers with payload length [n],
    [updateChecksum()] never raises, keeps the payload length, and stores at
    offset 6 + n + 1 a byte [c] (0 to 255) that is exactly what
    [calculateChecksum()] then returns; running [updateChecksum()] a second
    time leaves the buffer unchanged. *)
Theorem updateChecksum_calculateChecksum
    (st : store) (zs : list Z) (self : instance) :
  frame st zs ->
  exists st' n c,
    getPayloadLength self st = Ret n st /\
    updateChecksum self st = Ret tt st' /\
    0 <= c < 256 /\
    getPayloadLength self st' = Ret n st' /\
    readRawByte self (KNX_TELEGRAM_HEADER_SIZE + n + 1) st' = Ret (PInt c) st' /\
    calculateChecksum self st' = Ret c st' /\
    updateChecksum self st' = Ret tt st'.
Proof.
  exact (updateChecksum_settles st zs self).
Qed.

Lemma updateChecksum_calculateChecksum_witness :
  exists st',
    updateChecksum 0%nat Scenario.fresh_store = Ret tt st' /\
    readRawByte 0%nat 8 st' = Ret (PInt 162) st' /\
    calculateChecksum 0%nat st' = Ret 162 st'.
Proof.
  destruct (updateChecksum_calculateChecksum Scenario.fresh_store cleared_frame
              0%nat ltac:(frame_computed))
    as (st' & n & c & N & E & _ & _ & R & C & _).
  assert (Hn : n = 1) by (vm_compute in N; congruence). subst n.
  exists st'. split; [exact E|].
  assert (Hc : c = 162).
  { assert (E' : observe ((updateChecksum 0%nat ;; calculateChecksum 0%nat)
                            Scenario.fresh_store) = Returned 162)
      by (vm_compute; reflexivity).
    unfold bind in E'. rewrite E, C in E'. cbn in E'. congruence. }
  subst c. split; [exact R | exact C].
Defined.

(** X8 — on a telegram of payload length 1, [isChecksumCorrect()] returns
    [True] right after [updateChecksum()]: with this length the checksum is
    stored at offset 8, the fixed offset [getChecksum()] reads. *)
Theorem isChecksumCorrect_payload_length_1
    (st : store) (zs : list Z) (self : instance) :
  frame st zs ->
  getPayloadLength self st = Ret 1 st ->
  exists st',
    updateChecksum self st = Ret tt st' /\
    isChecksumCorrect self st' = Ret true st'.
Proof.
  intros H Hn.
  destruct (updateChecksum_settles st zs self H)
    as (st' & n & c & N & E & _ & _ & R & C & _).
  rewrite Hn in N. injection N as <-.
  exists st'. split; [exact E|].
  unfold isChecksumCorrect, getChecksum, bind.
  unfold readRawByte, KNX_TELEGRAM_HEADER_SIZE in R.
  change (6 + 1 + 1) with 8 in R.
  rewrite R, C. cbn [eq_int]. rewrite Z.eqb_refl. reflexivity.
Qed.

Lemma isChecksumCorrect_payload_length_1_witness :
  exists st',
    updateChecksum 0%nat Scenario.fresh_store = Ret tt st' /\
    isChecksumCorrect 0%nat st' = Ret true st'.
Proof.
  apply (isChecksumCorrect_payload_length_1 Scenario.fresh_store cleared_frame 0%nat).
  - frame_computed.
  - vm_compute. reflexivity.
Defined.

Lemma for_each_app {S X} (xs ys : list X) (body : X -> M S unit) (s : S) :
  for_each (xs ++ ys) body s = (for_each xs body ;; for_each ys body) s.
Proof.
  revert s. induction xs as [|x xs IH]; intros s; cbn [for_each app].
  - reflexivity.
  - unfold bind at 1 2 3. destruct (body x s) as [a s'| |]; [|reflexivity..].
    rewrite IH. reflexivity.
Qed.

(** The loop of [setLongPayload] after [m] rounds. *)
Lemma setLongPayload_loop self (vs zs : list Z) (m : nat) (st : store) :
  frame st zs -> (m <= length vs)%nat -> (m <= 14)%nat ->
  exists st' zs',
    for_each (range 0 (Z.of_nat m))
      (fun i => v <- getitem (PList (PInt <$> vs)) i ;; tset self (i + 8) v) st
    = Ret tt st' /\
    frame st' zs' /\
    forall i, 0 <= i ->
      cell zs' i = if (8 <=? i) && (i <? 8 + Z.of_nat m) then cell vs (i - 8)
                   else cell zs i.
Proof.
  intros H Hm Hm'. pose proof (frame_length st zs H) as Hlen.
  induction m as [|m IH].
  - exists st, zs. split; [reflexivity|]. split; [exact H|].
    intros i Hi. destruct (Z.leb_spec 8 i), (Z.ltb_spec i (8 + Z.of_nat 0));
      try reflexivity. lia.
  - destruct (IH ltac:(lia) ltac:(lia)) as (st1 & zs1 & E1 & H1 & C1).
    pose proof (frame_length st1 zs1 H1) as Hlen1.
    unfold range in *. rewrite Z.sub_0_r in *. rewrite seqZ_S, for_each_app.
    unfold bind at 1. rewrite E1. cbn [for_each]. unfold bind at 1 2.
    unfold getitem, list_getitem.
    rewrite py_index_in_range by (rewrite length_fmap; lia).
    rewrite list_lookup_fmap, cell_lookup by lia. cbn [fmap option_fmap option_map].
    unfold ret at 1.
    destruct (yields_tset self (0 + Z.of_nat m + 8) (cell vs (0 + Z.of_nat m)) zs1
                ltac:(lia) st1 H1) as (st2 & E2 & H2).
    rewrite E2. exists st2. eexists. split; [reflexivity|]. split; [exact H2|].
    intros i Hi.
    destruct (Z.eq_dec i (Z.of_nat m + 8)) as [->|Hne].
    + rewrite cell_insert_eq by lia.
      destruct (Z.leb_spec 8 (Z.of_nat m + 8)),
               (Z.ltb_spec (Z.of_nat m + 8) (8 + Z.of_nat (Datatypes.S m)));
        try lia.
      cbn [andb]. f_equal. lia.
    + rewrite cell_insert_ne by lia. rewrite C1 by exact Hi.
      destruct (8 <=? i) eqn:E3; [|reflexivity]. cbn [andb].
      destruct (Z.ltb_spec i (8 + Z.of_nat m)),
               (Z.ltb_spec i (8 + Z.of_nat (Datatypes.S m))); try reflexivity; lia.
Qed.

(** X9 — [setLongPayload(origin, nbOfBytes)] with a list of integers that
    has at least [min(nbOfBytes, 14)] elements copies that many of them to
    the cells from offset 8 on and leaves every other cell as it was; no
    more than 14 cells are ever written. *)
Theorem setLongPayload_cells
    (st : store) (zs vs : list Z) (self : instance) (nbOfBytes : Z) :
  frame st zs ->
  0 <= nbOfBytes ->
  Z.min nbOfBytes 14 <= Z.of_nat (length vs) ->
  exists st' zs',
    setLongPayload self (PList (PInt <$> vs)) nbOfBytes st = Ret tt st' /\
    frame st' zs' /\
    forall i, 0 <= i ->
      cell zs' i = if (8 <=? i) && (i <? 8 + Z.min nbOfBytes 14) then cell vs (i - 8)
                   else cell zs i.
Proof.
  intros H Hn Hvs. unfold setLongPayload.
  unfold KNX_TELEGRAM_PAYLOAD_MAX_SIZE. change (16 - 2) with 14.
  destruct (setLongPayload_loop self vs zs (Z.to_nat (Z.min nbOfBytes 14)) st H
              ltac:(lia) ltac:(lia)) as (st' & zs' & E & H' & C).
  rewrite Z2Nat.id in E, C by lia.
  exists st', zs'. split; [|split; [exact H' | exact C]].
  rewrite <- E. f_equal. f_equal.
  destruct (Z.gtb_spec nbOfBytes 14); lia.
Qed.

Lemma setLongPayload_cells_witness :
  exists st',
    setLongPayload 0%nat (PList (PInt <$> [0x12; 0x34])) 2 Scenario.fresh_store
    = Ret tt st' /\
    readRawByte 0%nat 8 st' = Ret (PInt 0x12) st' /\
    readRawByte 0%nat 9 st' = Ret (PInt 0x34) st' /\
    readRawByte 0%nat 10 st' = Ret (PInt 0) st'.
Proof.
  destruct (setLongPayload_cells Scenario.fresh_store cleared_frame [0x12; 0x34]
              0%nat 2 ltac:(frame_computed) ltac:(lia) ltac:(vm_compute; discriminate))
    as (st' & zs' & E & H' & C).
  exists st'. split; [exact E|].
  unfold readRawByte.
  rewrite (reads_tget 0%nat 8 zs' ltac:(lia) st' H'),
          (reads_tget 0%nat 9 zs' ltac:(lia) st' H'),
          (reads_tget 0%nat 10 zs' ltac:(lia) st' H').
  rewrite !C by lia. repeat split; reflexivity.
Defined.

(** X10 — [copyValue] on a com-object of length 2 raises [TypeError]
    whether its value slot holds [None] or an integer, and leaves the
    telegram untouched: the slot is subscripted as if it were a list. *)
Theorem copyValue_length_2_raises
    (st : store) (o : KnxComObject.t) (dest : instance) :
  KnxComObject._length o = 2 ->
  (forall l, KnxComObject._value o <> PList l) ->
  KnxComObject.copyValue o dest st = Exc TypeError st.
Proof.
  intros Hlen Hv. unfold KnxComObject.copyValue. rewrite Hlen. cbn [Z.eqb Pos.eqb].
  unfold setLongPayload. cbn [Z.gtb Z.compare Pos.compare Pos.compare_cont].
  unfold range. cbn [Z.sub Z.opp Z.add Z.pos_sub].
  change (seqZ 0 1) with [0]. cbn [for_each]. unfold bind.
  destruct (KnxComObject._value o) as [|z|b|l|t]; try reflexivity.
  exfalso. exact (Hv l eq_refl).
Qed.

Lemma copyValue_length_2_raises_witness :
  KnxComObject.copyValue
    (KnxComObject.set_value (PInt 7) (KnxComObject.new Scenario.dptBits 1 1 0x2C))
    0%nat Scenario.fresh_store
  = Exc TypeError Scenario.fresh_store.
Proof.
  apply copyValue_length_2_raises.
  - vm_compute. reflexivity.
  - intros l. cbn. discriminate.
Defined.

End FrameFacts.

(* ===================================================================== *)
(** ** Further properties of the TP-UART link *)
(* ===================================================================== *)

(** Project the fields of an updated link state. *)
Ltac world_fields :=
  cbn [KnxTPUart.telegrams KnxTPUart.module KnxTPUart._tx KnxTPUart._rx
       KnxTPUart.self KnxTPUart.calls KnxTPUart.set_telegrams
       KnxTPUart.set_module KnxTPUart.set_tx KnxTPUart.set_rx
       KnxTPUart.set_self KnxTPUart.set_calls].

Section LinkFacts.
Import KnxTPUart.

Lemma bytearray_bytes {S} (zs : list Z) (s : S) :
  all_bytes zs -> bytearray (PInt <$> zs) s = Ret zs s.
Proof.
  intros H. induction H as [|z zs Hz H IH]; [reflexivity|].
  cbn [fmap list_fmap bytearray]. unfold bind at 1, as_int at 1, ret at 1.
  replace ((0 <=? z) && (z <? 256)) with true
    by (symmetry; apply andb_true_iff; split; [apply Z.leb_le | apply Z.ltb_lt]; lia).
  unfold bind at 1. change (list_fmap Z pyval PInt zs) with (PInt <$> zs).
  rewrite IH. reflexivity.
Qed.

Lemma address_request_bytes (addr : Z) :
  0 <= addr < 65536 ->
  all_bytes [TPUART_SET_ADDR_REQ; Z.shiftr addr 8; Z.land addr 0x0F].
Proof.
  intros H. repeat constructor; try (unfold TPUART_SET_ADDR_REQ; lia).
  - apply Z.shiftr_nonneg. lia.
  - rewrite Z.shiftr_div_pow2 by lia. change (2 ^ 8) with 256.
    apply Z.div_lt_upper_bound; lia.
  - apply Z.land_nonneg. lia.
  - change 0x0F with (Z.ones 4). rewrite Z.land_ones by lia.
    pose proof (Z.mod_pos_bound addr (2 ^ 4) ltac:(lia)). lia.
Qed.

(** X11 — between [reset] and [init], in normal mode: [init] refuses with
    253 while no event callback is bound and with 252 while no acknowledge
    callback is bound, changing nothing.  Once both are bound it writes the
    bytes 0x28, address >> 8, address & 0x0F and 0x02 to the port, puts RX
    and TX in their idle states and returns 0; from then on both callback
    setters refuse with 254 and change nothing. *)
Theorem init_after_callbacks (w : world) (f g f' g' : callable) :
  rx_state (_rx w) = RX_INIT ->
  tx_state (_tx w) = TX_INIT ->
  _mode (self w) <> BUS_MONITOR ->
  is_open (_serial (self w)) = true ->
  0 <= _physicalAddr (self w) < 65536 ->
  exists w1 w2 w3,
    (_evtCallbackFct (self w) = None ->
     init w = Ret KNX_TPUART_ERROR_NULL_EVT_CALLBACK_FCT w) /\
    setEvtCallback (Some f) w = Ret KNX_TPUART_OK w1 /\
    (ackFctPtr (_tx w) = None ->
     init w1 = Ret KNX_TPUART_ERROR_NULL_ACK_CALLBACK_FCT w1) /\
    setAckCallback (Some g) w1 = Ret KNX_TPUART_OK w2 /\
    init w2 = Ret KNX_TPUART_OK w3 /\
    outgoing (_serial (self w3))
    = outgoing (_serial (self w))
      ++ [0x28; Z.shiftr (_physicalAddr (self w)) 8;
          Z.land (_physicalAddr (self w)) 0x0F; 0x02] /\
    rx_state (_rx w3) = RX_IDLE_WAITING_FOR_CTRL_FIELD /\
    tx_state (_tx w3) = TX_IDLE /\
    calls w3 = calls w /\
    setEvtCallback (Some f') w3 = Ret KNX_TPUART_ERROR_NOT_INIT_STATE w3 /\
    setAckCallback (Some g') w3 = Ret KNX_TPUART_ERROR_NOT_INIT_STATE w3.
Proof.
  intros Hrx Htx Hmode Hopen Haddr.
  pose proof (address_request_bytes _ Haddr) as Hb.
  link_fields w. subst.
  assert (Hm : (_mode0 =? BUS_MONITOR) = false) by (apply Z.eqb_neq; exact Hmode).
  eexists _, _, _.
  split; [intros ->; unfold init, bind, get; cbn; rewrite Hm; reflexivity|].
  split; [reflexivity|].
  split; [intros ->; unfold init, bind, get; cbn; rewrite Hm; reflexivity|].
  split; [reflexivity|].
  split.
  { unfold init. unfold bind at 1, get at 1. cbn -[bytearray bind].
    rewrite Hm. unfold bind at 1.
    rewrite (bytearray_bytes _ _ Hb : bytearray [PInt _; PInt _; PInt _] _ = _).
    cbn. reflexivity. }
  cbn. rewrite <- app_assoc. repeat split; reflexivity.
Qed.

Lemma init_after_callbacks_witness :
  let w := Scenario.link_after (Scenario.reset_link []) in
  exists w1 w2 w3,
    setEvtCallback (Some (Function 0)) w = Ret 0 w1 /\
    setAckCallback (Some (Function 1)) w1 = Ret 0 w2 /\
    init w2 = Ret 0 w3 /\
    outgoing (_serial (self w3)) = [0x01; 0x28; 0x11; 0x03; 0x02].
Proof.
  intros w.
  destruct (init_after_callbacks w (Function 0) (Function 1) (Function 0) (Function 1))
    as (w1 & w2 & w3 & _ & E1 & _ & E2 & E3 & O & _);
    [vm_compute; reflexivity | vm_compute; reflexivity
    | intros E; vm_compute in E; discriminate E
    | vm_compute; reflexivity
    | vm_compute; split; [intros E; discriminate E | reflexivity] |].
  exists w1, w2, w3. repeat split; assumption.
Defined.

(** The state [reset] works on once the port is open and both state
    machines are in their reset states. *)
Lemma reset_prepares (clock : list Z) (w : world) :
  port_follows_state w ->
  reset clock w
  = reset_attempts 10 clock
      (set_self (set_serial (set_is_open true (_serial (self w))) (self w))
         (set_tx (set_tx_state TX_RESET (_tx w))
            (set_rx (set_rx_state RX_RESET (_rx w)) w))).
Proof.
  unfold port_follows_state. intros (Hrx & Htx & H). link_fields w.
  unfold reset. unfold bind at 1, get at 1. cbn [_rx _tx rx_state tx_state].
  destruct ((rx_state0 >? RX_RESET) || (tx_state0 >? TX_RESET)) eqn:E.
  - cbn. reflexivity.
  - destruct is_open0.
    + exfalso. apply orb_false_iff in E. destruct E as [E1 E2].
      rewrite Z.gtb_ltb in E1, E2. apply Z.ltb_ge in E1, E2.
      specialize (H eq_refl). lia.
    + assert (rx_state0 = 0 /\ tx_state0 = 0) as [-> ->].
      { apply orb_false_iff in E. destruct E as [E1 E2].
        rewrite Z.gtb_ltb in E1, E2. apply Z.ltb_ge in E1, E2.
        unfold RX_RESET, TX_RESET in *. lia. }
      cbn. reflexivity.
Qed.

(** X12 — [reset] with a transceiver whose next byte is the reset
    indication 0x03: one request byte 0x01 is written, the indication is
    consumed at the first poll, RX and TX are put in their INIT states, the
    port is left open and 0 is returned; no callback is invoked. *)
Theorem reset_answered (w : world) (startTime nowTime : Z) (rest clock : list Z) :
  port_follows_state w ->
  incoming (_serial (self w)) = 0x03 :: rest ->
  exists w',
    reset (startTime :: nowTime :: clock) w = Ret KNX_TPUART_OK w' /\
    rx_state (_rx w') = RX_INIT /\
    tx_state (_tx w') = TX_INIT /\
    is_open (_serial (self w')) = true /\
    outgoing (_serial (self w')) = outgoing (_serial (self w)) ++ [0x01] /\
    incoming (_serial (self w')) = rest /\
    calls w' = calls w.
Proof.
  intros H Hin. rewrite (reset_prepares _ w H). link_fields w. subst.
  cbn -[Z.sub]. rewrite Z.sub_diag. cbn.
  eexists. split; [reflexivity|]. repeat split; reflexivity.
Qed.

Lemma reset_answered_witness :
  exists w',
    (module_body ;; new [0x03; 0x8B] 0x1103 0 ;; reset [0; 1]) blank
    = Ret 0 w' /\
    rx_state (_rx w') = RX_INIT /\
    outgoing (_serial (self w')) = [0x01] /\
    incoming (_serial (self w')) = [0x8B].
Proof.
  destruct (reset_answered (Scenario.link_after (module_body ;; new [0x03; 0x8B] 0x1103 0))
              0 1 [0x8B] [])
    as (w' & E & R & _ & _ & O & I & _).
  - vm_compute. repeat split; intros E; discriminate E.
  - vm_compute. reflexivity.
  - exists w'. split; [|repeat split; assumption].
    etransitivity; [|exact E]. vm_compute. reflexivity.
Defined.

(** An attempt on a silent port whose second reading of the clock is at
    least a second after the first. *)
Lemma reset_attempts_expired (n : nat) :
  forall (clock : list Z) (w : world),
    is_open (_serial (self w)) = true ->
    incoming (_serial (self w)) = [] ->
    expired clock n ->
    reset_attempts n clock w
    = Ret KNX_TPUART_ERROR
        (set_self
           (set_serial
              (set_is_open false
                 (set_outgoing (outgoing (_serial (self w)) ++ replicate n 0x01)
                    (_serial (self w))))
              (self w)) w).
Proof.
  induction n as [|n IH]; intros clock w Hopen Hin (pairs & Hlen & Hp & ->).
  - link_fields w. subst. cbn. rewrite app_nil_r. reflexivity.
  - destruct pairs as [|[a b] pairs]; [discriminate|].
    apply Forall_cons in Hp. destruct Hp as [Hab Hp]. cbn [fst snd] in Hab.
    cbn [map concat app fst snd reset_attempts].
    unfold bind at 1.
    assert (E : serial_write TPUART_RESET_REQ w
                = Ret tt (set_self
                            (set_serial
                               (set_outgoing (outgoing (_serial (self w)) ++ [0x01])
                                  (_serial (self w)))
                               (self w)) w)).
    { link_fields w. subst. reflexivity. }
    rewrite E. clear E.
    set (w1 := set_self _ w).
    assert (Hopen1 : is_open (_serial (self w1)) = true) by exact Hopen.
    assert (Hin1 : incoming (_serial (self w1)) = []) by exact Hin.
    assert (E : reset_wait (b :: concat (map (fun p => [fst p; snd p]) pairs)) a a w1
                = Ret (false, concat (map (fun p => [fst p; snd p]) pairs)) w1).
    { cbn [reset_wait]. rewrite Z.sub_diag. cbn [Z.ltb Z.compare].
      unfold bind at 1, serial_inWaiting, bind at 1, get at 1.
      rewrite Hopen1, Hin1. cbn [length Z.of_nat ret Z.gtb Z.compare].
      destruct pairs as [|p pairs']; cbn [map concat app reset_wait];
        replace (b - a <? 1000) with false
          by (symmetry; apply Z.ltb_ge; lia); reflexivity. }
    unfold bind at 1. rewrite E. cbn [fst snd].
    rewrite (IH _ w1 Hopen1 Hin1).
    + subst w1. link_fields w. cbn. rewrite <- app_assoc. reflexivity.
    + exists pairs. split; [|split; [exact Hp | reflexivity]].
      cbn in Hlen. lia.
Qed.

(** X13 — [reset] on a silent port gives up after exactly ten requests:
    when no byte ever arrives and every attempt runs out its second, ten
    bytes 0x01 are written, the port is closed, RX and TX are left in their
    reset states, no callback is invoked and 255 is returned. *)
Theorem reset_gives_up (w : world) (clock : list Z) :
  port_follows_state w ->
  incoming (_serial (self w)) = [] ->
  expired clock 10 ->
  exists w',
    reset clock w = Ret KNX_TPUART_ERROR w' /\
    outgoing (_serial (self w')) = outgoing (_serial (self w)) ++ replicate 10 0x01 /\
    is_open (_serial (self w')) = false /\
    rx_state (_rx w') = RX_RESET /\
    tx_state (_tx w') = TX_RESET /\
    calls w' = calls w.
Proof.
  intros H Hin Hclock. rewrite (reset_prepares _ w H).
  rewrite reset_attempts_expired; [| reflexivity | exact Hin | exact Hclock].
  eexists. split; [reflexivity|]. link_fields w. cbn. repeat split; reflexivity.
Qed.

Lemma reset_gives_up_witness :
  exists w',
    reset (concat (replicate 10 [0; 1000])) (Scenario.link_after (Scenario.start [] []))
    = Ret 255 w' /\
    outgoing (_serial (self w'))
    = [0x01; 0x28; 0x11; 0x03; 0x02] ++ replicate 10 0x01 /\
    is_open (_serial (self w')) = false.
Proof.
  destruct (reset_gives_up (Scenario.link_after (Scenario.start [] []))
              (concat (replicate 10 [0; 1000])))
    as (w' & E & O & C & _).
  - vm_compute. split; [intros E; discriminate E|].
    split; [intros E; discriminate E|]. intros _. left. reflexivity.
  - vm_compute. reflexivity.
  - exists (replicate 10 (0, 1000)). split; [reflexivity|].
    split; [|reflexivity]. repeat constructor; cbn; lia.
  - exists w'. split; [exact E|]. split; [exact O | exact C].
Defined.

Lemma all_bytes_cell (zs : list Z) (i : Z) :
  all_bytes zs -> 0 <= cell zs i < 256.
Proof.
  intros H. unfold cell. destruct (zs !! Z.to_nat i) as [z|] eqn:E; cbn; [|lia].
  exact (proj1 (Forall_lookup _ zs) H _ _ E).
Qed.

(** The two statements that fill [_txByte] and write it to the port. *)
Lemma send_byte_run (w : world) (t : KnxTelegram.instance) (zs : list Z) (service : Z) :
  sentTelegram (_tx w) = Some t ->
  is_open (_serial (self w)) = true ->
  length (_txByte (module w)) = 2%nat ->
  frame (telegrams w) zs ->
  all_bytes zs ->
  0 <= txByteIndex (_tx w) < 23 ->
  0 <= service <= 0x80 ->
  send_byte service w
  = Ret tt
      (set_self
         (set_serial
            (set_outgoing
               (outgoing (_serial (self w))
                ++ [service + txByteIndex (_tx w); cell zs (txByteIndex (_tx w))])
               (_serial (self w)))
            (self w))
         (set_module
            (set_global_txByte [PInt (service + txByteIndex (_tx w));
                                PInt (cell zs (txByteIndex (_tx w)))]
               (module w))
            w)).
Proof.
  intros Ht Hopen Hlen Hf Hb Hi Hs.
  pose proof (all_bytes_cell zs (txByteIndex (_tx w)) Hb) as Hc.
  link_fields w. subst.
  destruct _txByte0 as [|b0 [|b1 [|]]]; try discriminate Hlen.
  assert (Eg : KnxTelegram.readRawByte t txByteIndex0 st
               = Ret (PInt (cell zs txByteIndex0)) st)
    by (apply (reads_tget t _ zs Hi st Hf)).
  assert (E0 : forall (s : world) x, list_setitem [b0; b1] 0 x s = Ret [x; b1] s)
    by reflexivity.
  assert (E1 : forall (s : world) a x, list_setitem [a; b1] 1 x s = Ret [a; x] s)
    by reflexivity.
  unfold send_byte. unfold bind at 1, get at 1.
  cbn [_tx module _txByte txByteIndex sentTelegram].
  unfold bind at 1. rewrite E0.
  unfold bind at 1, upd_module at 1, modify at 1.
  unfold bind at 1, on_telegrams at 1, zoom. cbn [telegrams set_module]. rewrite Eg.
  unfold bind at 1. rewrite E1.
  unfold bind at 1, upd_module at 1, modify at 1.
  unfold bind at 1.
  rewrite (bytearray_bytes [service + txByteIndex0; cell zs txByteIndex0]).
  - cbn. reflexivity.
  - repeat constructor; lia.
Qed.

(** One [TxTask] while a telegram goes out: the byte at the index is
    written after its service byte. *)
Lemma TxTask_sends_byte (w : world) (t : KnxTelegram.instance) (zs : list Z)
    (i n now : Z) :
  sending w t zs i n -> all_bytes zs -> 0 <= i < 23 ->
  exists w',
    TxTask now now w = Ret tt w' /\
    outgoing (_serial (self w'))
    = outgoing (_serial (self w))
      ++ [(if n =? 1 then 0x40 else 0x80) + i; cell zs i] /\
    calls w' = calls w /\
    telegrams w' = telegrams w /\
    (if n =? 1
     then tx_state (_tx w') = TX_WAITING_ACK /\
          _sentMessageTimeMillisec (module w') = now
     else sending w' t zs (i + 1) (n - 1) /\
          _sentMessageTimeMillisec (module w') = _sentMessageTimeMillisec (module w)).
Proof.
  intros (Htx & Ht & Hi & Hn & Hrx & Hopen & Hlen & Hf) Hb Hi'.
  assert (Er : (rx_state (_rx w) =? RX_EIB_TELEGRAM_RECEPTION_STARTED) = false)
    by (apply Z.eqb_neq; exact Hrx).
  unfold TxTask. unfold bind at 1, get at 1. rewrite Htx.
  change (TX_TELEGRAM_SENDING_ONGOING =? TX_WAITING_ACK) with false. cbv iota.
  unfold bind at 1, ret at 1. unfold bind at 1, get at 1.
  rewrite Htx, Er, Hn.
  change (TX_TELEGRAM_SENDING_ONGOING =? TX_TELEGRAM_SENDING_ONGOING) with true.
  cbn [negb]. cbv iota.
  assert (Es : forall service, 0 <= service <= 0x80 -> _)
    by (intros service Hs;
        exact (send_byte_run w t zs service Ht Hopen Hlen Hf Hb
                 ltac:(rewrite Hi; exact Hi') Hs)).
  destruct (n =? 1) eqn:En.
  - unfold bind at 1. rewrite Es by (cbn; lia). clear Es.
    link_fields w. subst. cbn.
    eexists. split; [reflexivity|]. repeat split; reflexivity.
  - unfold bind at 1. rewrite Es by (cbn; lia). clear Es.
    link_fields w. subst. cbn.
    eexists. split; [reflexivity|]. do 3 (split; [reflexivity|]).
    split; [|reflexivity].
    do 4 (split; [reflexivity|]). split; [exact Hrx|].
    do 2 (split; [reflexivity|]). exact Hf.
Qed.

Lemma drop_cell (zs : list Z) (i : Z) :
  0 <= i < Z.of_nat (length zs) ->
  drop (Z.to_nat i) zs = cell zs i :: drop (Z.to_nat (i + 1)) zs.
Proof.
  intros H. replace (Z.to_nat (i + 1)) with (Datatypes.S (Z.to_nat i)) by lia.
  apply drop_S. apply cell_lookup. exact H.
Qed.

(** X15 — while a telegram goes out, every [TxTask] writes one byte of it
    after a service byte that carries the byte's index: 0x80 + index, and
    0x40 + index for the last byte.  With [n] bytes remaining from the
    index [i], [n] calls write the cells [i] to [i + n - 1] framed in this
    way, leave TX in WAITING_ACK with the send time of the last call, and
    invoke no callback; the telegram is not modified. *)
Theorem TxTask_frames_telegram (times : list Z) :
  forall (w : world) (t : KnxTelegram.instance) (zs : list Z) (i : Z),
    sending w t zs i (Z.of_nat (length times)) ->
    all_bytes zs -> 0 <= i -> times <> [] ->
    i + Z.of_nat (length times) <= 23 ->
    exists w',
      tx_ticks times w = Ret tt w' /\
      outgoing (_serial (self w'))
      = outgoing (_serial (self w))
        ++ framed i (take (length times) (drop (Z.to_nat i) zs)) /\
      tx_state (_tx w') = TX_WAITING_ACK /\
      _sentMessageTimeMillisec (module w') = List.last times 0 /\
      calls w' = calls w /\
      telegrams w' = telegrams w.
Proof.
  induction times as [|now times IH]; intros w t zs i Hs Hb Hi Hne Hmax;
    [contradiction|].
  pose proof (frame_length _ zs (proj2 (proj2 (proj2 (proj2 (proj2 (proj2 (proj2 Hs)))))))) as Hlen.
  cbn [length] in Hs, Hmax.
  destruct (TxTask_sends_byte w t zs i _ now Hs Hb ltac:(lia))
    as (w1 & E1 & O1 & C1 & T1 & R1).
  unfold tx_ticks. cbn [for_each]. unfold bind at 1. rewrite E1.
  rewrite (drop_cell zs i) by lia.
  destruct times as [|now' times].
  - cbn in R1. destruct R1 as [R1 R2].
    exists w1. cbn [for_each ret List.last length take framed].
    split; [reflexivity|]. rewrite O1. cbn [Z.of_nat Pos.of_succ_nat Z.eqb Pos.eqb].
    repeat split; assumption.
  - replace (Z.of_nat (Datatypes.S (length (now' :: times))) =? 1) with false in O1, R1
      by (symmetry; apply Z.eqb_neq; cbn [length]; lia).
    destruct R1 as [R1 R2].
    replace (Z.of_nat (Datatypes.S (length (now' :: times))) - 1)
      with (Z.of_nat (length (now' :: times))) in R1 by lia.
    destruct (IH w1 t zs (i + 1) R1 Hb ltac:(lia) ltac:(discriminate)
                ltac:(cbn [length] in *; lia))
      as (w2 & E2 & O2 & S2 & M2 & C2 & T2).
    exists w2. split; [exact E2|].
    split; [|split; [exact S2|split; [exact M2|split; congruence]]].
    rewrite O2, O1, <- app_assoc. f_equal.
    cbn [length take].
    rewrite (drop_cell zs (i + 1)) by (cbn [length] in *; lia).
    cbn [take framed app]. reflexivity.
Qed.

Lemma all_bytes_insert (zs : list Z) (k : nat) (z : Z) :
  all_bytes zs -> 0 <= z < 256 -> all_bytes (<[k := z]> zs).
Proof. intros H Hz. apply Forall_insert; assumption. Qed.

Lemma land_255_byte (z : Z) : 0 <= Z.land z 0xFF < 256.
Proof.
  change 0xFF with (Z.ones 8). rewrite Z.land_ones by lia.
  apply Z.mod_pos_bound. reflexivity.
Qed.

(** [sendTelegram] on an idle link, and the frame it leaves. *)
Lemma sendTelegram_idle
    (w : world) (t : KnxTelegram.instance) (zs : list Z) :
  tx_state (_tx w) = TX_IDLE ->
  frame (telegrams w) zs ->
  0 <= _physicalAddr (self w) < 65536 ->
  exists w' zs',
    sendTelegram t w = Ret KNX_TPUART_OK w' /\
    frame (telegrams w') zs' /\
    KnxTelegram.getSourceAddress t (telegrams w')
    = Ret (_physicalAddr (self w)) (telegrams w') /\
    (zs' = zs \/
     KnxTelegram.calculateChecksum t (telegrams w')
     = Ret (cell zs' (7 + Z.land (cell zs 5) 15)) (telegrams w')) /\
    (forall i, 0 <= i -> i <> 1 -> i <> 2 -> i <> 7 + Z.land (cell zs 5) 15 ->
       cell zs' i = cell zs i) /\
    (all_bytes zs -> all_bytes zs') /\
    tx_state (_tx w') = TX_TELEGRAM_SENDING_ONGOING /\
    sentTelegram (_tx w') = Some t /\
    txByteIndex (_tx w') = 0 /\
    nbRemainingBytes (_tx w') = 8 + Z.land (cell zs 5) 15 /\
    ackFctPtr (_tx w') = ackFctPtr (_tx w) /\
    _rx w' = _rx w /\ module w' = module w /\ self w' = self w /\
    calls w' = calls w.
Proof.
  intros Htx Hf Haddr. pose proof (frame_length _ zs Hf) as Hlen.
  pose proof (payload_length_bounds (cell zs 5)) as Hn.
  link_fields w. subst.
  unfold sendTelegram. unfold bind at 1, get at 1. cbn [_tx tx_state self _physicalAddr].
  change (negb (TX_IDLE =? TX_IDLE)) with false. cbv iota.
  unfold bind at 1, on_telegrams at 1, zoom. cbn [telegrams].
  rewrite (reads_getSourceAddress t zs st Hf).
  destruct (cell zs 2 + Z.shiftl (cell zs 1) 8 =? _physicalAddr0) eqn:E.
  - apply Z.eqb_eq in E. cbn [negb].
    unfold bind at 1, ret at 1.
    unfold bind at 1, upd_tx at 1, modify at 1.
    unfold bind at 1, on_telegrams at 1, zoom. world_fields.
    rewrite (reads_getTelegramLength t zs st Hf).
    cbn -[KnxTelegram.getSourceAddress KnxTelegram.calculateChecksum cell].
    eexists _, zs. split; [reflexivity|].
    cbn -[KnxTelegram.getSourceAddress KnxTelegram.calculateChecksum cell].
    split; [exact Hf|].
    split; [rewrite (reads_getSourceAddress t zs st Hf), E; reflexivity|].
    split; [left; reflexivity|]. split; [reflexivity|]. split; [auto|].
    repeat split; reflexivity.
  - cbn [negb].
    destruct (yields_setSourceAddress t _physicalAddr0 zs st Hf) as (st1 & E1 & H1).
    destruct (yields_updateChecksum t _ st1 H1) as (st2 & E2 & H2).
    set (zs1 := <[1%nat := Z.land (Z.shiftr _physicalAddr0 8) 0xFF]>
                  (<[2%nat := Z.land _physicalAddr0 0xFF]> zs)) in *.
    assert (H5 : cell zs1 5 = cell zs 5).
    { subst zs1. rewrite !cell_insert_ne by lia. reflexivity. }
    rewrite H5 in *.
    set (k := Z.to_nat (7 + Z.land (cell zs 5) 15)) in *.
    set (sum := Z.land (Z.lnot (xor_all (take k zs1))) 0xFF) in *.
    assert (Hlen1 : length zs1 = 23%nat) by (subst zs1; rewrite !length_insert; exact Hlen).
    assert (H5' : cell (<[k := sum]> zs1) 5 = cell zs 5).
    { rewrite cell_insert_ne by (subst k; lia). exact H5. }
    unfold bind at 1. unfold bind at 1, on_telegrams at 1, zoom. world_fields.
    rewrite E1. unfold on_telegrams at 1, zoom. world_fields.
    rewrite E2.
    unfold bind at 1, upd_tx at 1, modify at 1.
    unfold bind at 1, on_telegrams at 1, zoom. world_fields.
    rewrite (reads_getTelegramLength t _ st2 H2), H5'.
    cbn -[KnxTelegram.getSourceAddress KnxTelegram.calculateChecksum cell].
    eexists _, _. split; [reflexivity|].
    cbn -[KnxTelegram.getSourceAddress KnxTelegram.calculateChecksum cell].
    split; [exact H2|].
    split.
    { rewrite (reads_getSourceAddress t _ st2 H2).
      rewrite !(cell_insert_ne _ k) by (subst k; lia).
      subst zs1. rewrite cell_insert_ne by lia.
      rewrite !cell_insert_eq by (rewrite ?length_insert; lia).
      rewrite address_bytes, Z.mod_small by lia. reflexivity. }
    split.
    { right. rewrite (reads_calculateChecksum t _ st2 H2), H5'. fold k.
      rewrite take_insert_ge by lia. fold sum.
      rewrite cell_insert_eq by (subst k; lia). reflexivity. }
    split.
    { intros i Hi Hi1 Hi2 Hik. rewrite cell_insert_ne by (subst k; lia).
      subst zs1. rewrite !cell_insert_ne by lia. reflexivity. }
    split.
    { intros Hb. apply all_bytes_insert; [|apply land_255_byte].
      subst zs1. repeat apply all_bytes_insert; try apply land_255_byte. exact Hb. }
    repeat split; reflexivity.
Qed.

(** X14 — [sendTelegram] on a link whose TX is idle returns 0 and arms the
    transmitter with the telegram: 8 + payload length bytes remain from
    index 0 and TX is in SENDING_ONGOING.  The telegram leaves with the
    link's own address as source address; when that address had to be
    written the checksum is recomputed, and no other cell changes.  RX, the
    port and the callbacks are not touched. *)
Theorem sendTelegram_arms_transmitter
    (w : world) (t : KnxTelegram.instance) (zs : list Z) :
  tx_state (_tx w) = TX_IDLE ->
  frame (telegrams w) zs ->
  0 <= _physicalAddr (self w) < 65536 ->
  exists w' zs',
    sendTelegram t w = Ret KNX_TPUART_OK w' /\
    frame (telegrams w') zs' /\
    KnxTelegram.getSourceAddress t (telegrams w')
    = Ret (_physicalAddr (self w)) (telegrams w') /\
    (zs' = zs \/
     KnxTelegram.calculateChecksum t (telegrams w')
     = Ret (cell zs' (7 + Z.land (cell zs 5) 15)) (telegrams w')) /\
    (forall i, 0 <= i -> i <> 1 -> i <> 2 -> i <> 7 + Z.land (cell zs 5) 15 ->
       cell zs' i = cell zs i) /\
    (all_bytes zs -> all_bytes zs') /\
    tx_state (_tx w') = TX_TELEGRAM_SENDING_ONGOING /\
    sentTelegram (_tx w') = Some t /\
    txByteIndex (_tx w') = 0 /\
    nbRemainingBytes (_tx w') = 8 + Z.land (cell zs 5) 15 /\
    ackFctPtr (_tx w') = ackFctPtr (_tx w) /\
    _rx w' = _rx w /\ module w' = module w /\ self w' = self w /\
    calls w' = calls w.
Proof. exact (sendTelegram_idle w t zs). Qed.

Lemma TxTask_frames_telegram_witness :
  exists w',
    tx_ticks (seqZ 1 9) (Scenario.link_below (armed [])) = Ret tt w' /\
    outgoing (_serial (self w'))
    = [0x01; 0x28; 0x11; 0x03; 0x02;
       0x80; 0xBC; 0x81; 0x11; 0x82; 0x03; 0x83; 0x00; 0x84; 0x01;
       0x85; 0xE1; 0x86; 0x00; 0x87; 0x81; 0x48; 0x30] /\
    tx_state (_tx w') = TX_WAITING_ACK.
Proof.
  destruct (TxTask_frames_telegram (seqZ 1 9) (Scenario.link_below (armed []))
              4%nat armed_frame 0)
    as (w' & E & O & S & _).
  - do 4 (split; [vm_compute; reflexivity|]).
    split; [intros E; vm_compute in E; discriminate E|].
    do 2 (split; [vm_compute; reflexivity|]). frame_computed.
  - unfold all_bytes, armed_frame. cbn [app replicate]. repeat constructor; lia.
  - lia.
  - discriminate.
  - vm_compute. intros E; discriminate E.
  - exists w'. split; [exact E|]. split; [|exact S].
    rewrite O. vm_compute. reflexivity.
Defined.

Lemma sendTelegram_arms_transmitter_witness :
  exists w',
    sendTelegram 1%nat (Scenario.link_after (Scenario.start [] [])) = Ret 0 w' /\
    KnxTelegram.getSourceAddress 1%nat (telegrams w') = Ret 0x1103 (telegrams w') /\
    nbRemainingBytes (_tx w') = 9.
Proof.
  destruct (sendTelegram_arms_transmitter (Scenario.link_after (Scenario.start [] []))
              1%nat cleared_frame)
    as (w' & zs' & E & _ & G & _ & _ & _ & _ & _ & _ & N & _).
  - vm_compute. reflexivity.
  - frame_computed.
  - vm_compute. split; [intros E; discriminate E | reflexivity].
  - exists w'. split; [exact E|]. split; [exact G | exact N].
Defined.

(** A byte with its three low bits set is no control field and none of
    the bytes 0x8B and 0x03. *)
Lemma state_indication_byte (b : Z) :
  Z.land b 0x07 = 0x07 ->
  (Z.land b 211 =? 144) = false /\ (b =? 0x8B) = false /\ (b =? 0x03) = false.
Proof.
  intros H.
  assert (H0 : Z.testbit b 0 = true).
  { replace true with (Z.testbit (Z.land b 7) 0) by (rewrite H; reflexivity).
    rewrite Z.land_spec. cbn. rewrite andb_true_r. reflexivity. }
  assert (H2 : Z.testbit b 2 = true).
  { replace true with (Z.testbit (Z.land b 7) 2) by (rewrite H; reflexivity).
    rewrite Z.land_spec. cbn. rewrite andb_true_r. reflexivity. }
  repeat split; apply Z.eqb_neq; intros E.
  - assert (K : Z.testbit (Z.land b 211) 0 = Z.testbit 144 0) by (rewrite E; reflexivity).
    rewrite Z.land_spec, H0 in K. discriminate K.
  - subst b. discriminate H2.
  - subst b. discriminate H2.
Qed.

(** X16 — a byte whose three low bits are set, read in the idle RX state,
    is a state indication whatever its other bits are: [RxTask] reports the
    event STATE_INDICATION and stores the byte; the RX and TX states, the
    telegrams and the port output are left as they were. *)
Theorem RxTask_state_indication (fuel : nat) (w : world) (f : callable)
    (b : Z) (rest : list Z) (nowTime rxTime : Z) :
  Z.land b 0x07 = 0x07 ->
  rx_state (_rx w) = RX_IDLE_WAITING_FOR_CTRL_FIELD ->
  _evtCallbackFct (self w) = Some f ->
  is_open (_serial (self w)) = true ->
  incoming (_serial (self w)) = b :: rest ->
  exists w',
    RxTask fuel nowTime rxTime w = Ret tt w' /\
    calls w' = calls w ++ [EvtCall TPUART_EVENT_STATE_INDICATION] /\
    _stateIndication (self w') = b /\
    incoming (_serial (self w')) = rest /\
    outgoing (_serial (self w')) = outgoing (_serial (self w)) /\
    _rx w' = _rx w /\ _tx w' = _tx w /\ telegrams w' = telegrams w.
Proof.
  intros Hb Hrx Hevt Hopen Hin.
  destruct (state_indication_byte b Hb) as (B1 & B2 & B3).
  link_fields w. subst.
  unfold RxTask, bind, get, serial_inWaiting, serial_read, upd_serial, upd_self,
    upd_module, modify, ret.
  cbn -[Z.land Z.of_nat].
  replace (Z.of_nat (Datatypes.S (length rest)) >? 0) with true
    by (symmetry; apply Z.gtb_lt; lia).
  cbn -[Z.land].
  unfold EIB_CONTROL_FIELD_PATTERN_MASK, EIB_CONTROL_FIELD_VALID_PATTERN,
    TPUART_STATE_INDICATION_MASK.
  rewrite B1, B2, B3, Hb. cbn.
  eexists. split; [reflexivity|]. repeat split; reflexivity.
Qed.

Lemma RxTask_state_indication_witness :
  exists w',
    RxTask 1 0 0 (Scenario.link_after (Scenario.start [] [0x47])) = Ret tt w' /\
    calls w' = [EvtCall TPUART_EVENT_STATE_INDICATION] /\
    _stateIndication (self w') = 0x47.
Proof.
  destruct (RxTask_state_indication 1 (Scenario.link_after (Scenario.start [] [0x47]))
              (Function 0) 0x47 [] 0 0)
    as (w' & E & C & S & _); try (vm_compute; reflexivity).
  exists w'. split; [exact E|]. split; [exact C | exact S].
Defined.

(** Open [RxTask] up to the tests on the clock and on the bytes read. *)
Ltac rx_cbn :=
  cbn -[Z.land Z.of_nat Z.sub Z.gtb Z.add Z.shiftl
        KnxTelegram.writeRawByte KnxTelegram.getSourceAddress
        KnxTelegram.getTargetAddress KnxTelegram.isChecksumCorrect
        KnxTelegram.copy isAddressedAssigned].

Ltac rx_open :=
  unfold RxTask, bind, get, serial_inWaiting, serial_read, serial_write, upd_serial,
    upd_self, upd_module, upd_rx, upd_tx, call_evt, call_ack, modify, ret;
  rx_cbn.

Ltac byte_waits :=
  match goal with
  | |- context [Z.of_nat (Datatypes.S ?n) >? 0] =>
      replace (Z.of_nat (Datatypes.S n) >? 0) with true
        by (symmetry; apply Z.gtb_lt; lia)
  end.

Ltac gap_is b :=
  match goal with
  | |- context [?x >? 2000] =>
      replace (x >? 2000) with b
        by (symmetry; first [apply Z.gtb_lt; lia
                            | rewrite Z.gtb_ltb; apply Z.ltb_ge; lia])
  end.

(** X17 — the byte 0x03 read in the idle RX state is a reset indication:
    [RxTask] first calls the acknowledge callback with 3 when a telegram
    was being sent or awaited its acknowledge, stops TX and RX, and then
    reports the event RESET.  From then on [sendTelegram] is refused with
    255. *)
Theorem RxTask_reset_indication (fuel : nat) (w : world) (f : callable)
    (rest : list Z) (nowTime rxTime : Z) :
  rx_state (_rx w) = RX_IDLE_WAITING_FOR_CTRL_FIELD ->
  _evtCallbackFct (self w) = Some f ->
  (tx_state (_tx w) = TX_TELEGRAM_SENDING_ONGOING \/ tx_state (_tx w) = TX_WAITING_ACK ->
   ackFctPtr (_tx w) <> None) ->
  is_open (_serial (self w)) = true ->
  incoming (_serial (self w)) = 0x03 :: rest ->
  exists w',
    RxTask fuel nowTime rxTime w = Ret tt w' /\
    calls w'
    = calls w
      ++ (if (tx_state (_tx w) =? TX_TELEGRAM_SENDING_ONGOING)
             || (tx_state (_tx w) =? TX_WAITING_ACK)
          then [AckCall TPUART_RESET_RESPONSE] else [])
      ++ [EvtCall TPUART_EVENT_RESET] /\
    tx_state (_tx w') = TX_STOPPED /\
    rx_state (_rx w') = RX_STOPPED /\
    incoming (_serial (self w')) = rest /\
    outgoing (_serial (self w')) = outgoing (_serial (self w)) /\
    telegrams w' = telegrams w /\
    forall t, sendTelegram t w' = Ret KNX_TPUART_ERROR w'.
Proof.
  intros Hrx Hevt Hack Hopen Hin. link_fields w. subst.
  rx_open. byte_waits. cbn.
  destruct ((tx_state0 =? TX_TELEGRAM_SENDING_ONGOING) || (tx_state0 =? TX_WAITING_ACK))
    eqn:Eb.
  - destruct ackFctPtr0 as [g|].
    + cbn. eexists. split; [reflexivity|]. cbn. rewrite <- app_assoc.
      repeat split; reflexivity.
    + exfalso. apply Hack; [|reflexivity].
      apply orb_true_iff in Eb. destruct Eb as [E|E]; apply Z.eqb_eq in E; auto.
  - cbn. eexists. split; [reflexivity|]. cbn. repeat split; reflexivity.
Qed.

Lemma RxTask_reset_indication_witness :
  exists w',
    RxTask 1 0 0 (Scenario.link_below (armed [0x03])) = Ret tt w' /\
    calls w' = [AckCall TPUART_RESET_RESPONSE; EvtCall TPUART_EVENT_RESET] /\
    tx_state (_tx w') = TX_STOPPED /\
    sendTelegram 4%nat w' = Ret 255 w'.
Proof.
  destruct (RxTask_reset_indication 1 (Scenario.link_below (armed [0x03]))
              (Function 0) [] 0 0)
    as (w' & E & C & S & _ & _ & _ & _ & R).
  - vm_compute. reflexivity.
  - vm_compute. reflexivity.
  - intros _. vm_compute. discriminate.
  - vm_compute. reflexivity.
  - vm_compute. reflexivity.
  - exists w'. split; [exact E|]. split; [exact C|]. split; [exact S | apply R].
Defined.

(** X18 — in the RX states RECEPTION_STARTED, RECEPTION_NOT_ADDRESSED and
    RECEPTION_LENGTH_INVALID, with no byte waiting: a [RxTask] run more
    than 2000 microseconds after the last byte reports the event
    RECEPTION_ERROR and returns RX to idle, so a telegram for another
    device also ends in this event; a run within 2000 microseconds changes
    nothing at all. *)
Theorem RxTask_timeout_reports_error (fuel : nat) (w : world) (f : callable)
    (nowTime rxTime : Z) :
  rx_state (_rx w) = RX_EIB_TELEGRAM_RECEPTION_STARTED \/
  rx_state (_rx w) = RX_EIB_TELEGRAM_RECEPTION_NOT_ADDRESSED \/
  rx_state (_rx w) = RX_EIB_TELEGRAM_RECEPTION_LENGTH_INVALID ->
  _evtCallbackFct (self w) = Some f ->
  is_open (_serial (self w)) = true ->
  incoming (_serial (self w)) = [] ->
  (nowTime - _lastByteRxTimeMicrosec (module w) > 2000 ->
   exists w',
     RxTask fuel nowTime rxTime w = Ret tt w' /\
     calls w' = calls w ++ [EvtCall TPUART_EVENT_EIB_TELEGRAM_RECEPTION_ERROR] /\
     rx_state (_rx w') = RX_IDLE_WAITING_FOR_CTRL_FIELD /\
     addressedComObjectIndex (_rx w') = addressedComObjectIndex (_rx w) /\
     telegrams w' = telegrams w /\ _tx w' = _tx w /\ self w' = self w /\
     module w' = module w) /\
  (nowTime - _lastByteRxTimeMicrosec (module w) <= 2000 ->
   RxTask fuel nowTime rxTime w = Ret tt w).
Proof.
  intros Hrx Hevt Hopen Hin. link_fields w. subst. split; intros Hgap.
  - rx_open. destruct Hrx as [-> | [-> | ->]]; cbn -[Z.sub Z.gtb]; gap_is true; cbn;
      (eexists; split; [reflexivity|]; repeat split; reflexivity).
  - rx_open. destruct Hrx as [-> | [-> | ->]]; cbn -[Z.sub Z.gtb]; gap_is false; cbn;
      reflexivity.
Qed.

Lemma RxTask_timeout_reports_error_witness :
  let w := Scenario.link_after (Scenario.start [] [0xBC] ;; RxTask 1 100 100) in
  rx_state (_rx w) = RX_EIB_TELEGRAM_RECEPTION_STARTED /\
  (exists w', RxTask 1 2101 2101 w = Ret tt w' /\
              calls w' = [EvtCall TPUART_EVENT_EIB_TELEGRAM_RECEPTION_ERROR]) /\
  RxTask 1 2100 2100 w = Ret tt w.
Proof.
  intros w.
  destruct (RxTask_timeout_reports_error 1 w (Function 0) 2101 2101) as [L _];
    [left; vm_compute; reflexivity | vm_compute; reflexivity..|].
  destruct (RxTask_timeout_reports_error 1 w (Function 0) 2100 2100) as [_ R];
    [left; vm_compute; reflexivity | vm_compute; reflexivity..|].
  split; [vm_compute; reflexivity|]. split.
  - destruct L as (w' & E & C & _); [vm_compute; reflexivity|].
    exists w'. split; [exact E | exact C].
  - apply R. vm_compute. intros E; discriminate E.
Defined.

(** Copying a telegram into another one never raises and changes nothing:
    both read and write the one buffer. *)
Lemma reads_copy (t1 t2 : KnxTelegram.instance) (zs : list Z) :
  reads (KnxTelegram.copy t1 t2) zs tt.
Proof.
  intros st H. pose proof (payload_length_bounds (cell zs 5)) as Hb.
  unfold KnxTelegram.copy. unfold bind at 1.
  rewrite (reads_getTelegramLength t1 zs st H).
  assert (K : forall n : nat, (n <= 23)%nat ->
            for_each (range 0 (Z.of_nat n))
              (fun i => v <- KnxTelegram.tget t1 i ;; KnxTelegram.tset t2 i v) st
            = Ret tt st).
  { induction n as [|n IH]; intros Hn; [reflexivity|].
    unfold range in *. rewrite Z.sub_0_r in *. rewrite seqZ_S, for_each_app.
    unfold bind at 1. rewrite IH by lia. cbn [for_each]. unfold bind at 1 2.
    rewrite (reads_tget t1 (0 + Z.of_nat n) zs ltac:(lia) st H).
    rewrite (tset_same st zs t2 (0 + Z.of_nat n) _ H ltac:(lia) eq_refl). reflexivity. }
  replace (8 + Z.land (cell zs 5) 15)
    with (Z.of_nat (Z.to_nat (8 + Z.land (cell zs 5) 15))) by lia.
  apply K. lia.
Qed.

(** X19 — in RECEPTION_ADDRESSED, when the inter-byte timeout fires on a
    telegram whose checksum verifies, [RxTask] publishes the index found
    when the telegram was addressed, reports the event
    RECEIVED_EIB_TELEGRAM once and returns RX to idle.  The copy into the
    receive slot leaves the telegram store as it was. *)
Theorem RxTask_delivers_telegram (fuel : nat) (w : world) (f : callable)
    (zs : list Z) (nowTime rxTime : Z) :
  rx_state (_rx w) = RX_EIB_TELEGRAM_RECEPTION_ADDRESSED ->
  nowTime - _lastByteRxTimeMicrosec (module w) > 2000 ->
  frame (telegrams w) zs ->
  KnxTelegram.isChecksumCorrect (_telegram (module w)) (telegrams w)
  = Ret true (telegrams w) ->
  _evtCallbackFct (self w) = Some f ->
  is_open (_serial (self w)) = true ->
  incoming (_serial (self w)) = [] ->
  exists w',
    RxTask fuel nowTime rxTime w = Ret tt w' /\
    calls w' = calls w ++ [EvtCall TPUART_EVENT_RECEIVED_EIB_TELEGRAM] /\
    addressedComObjectIndex (_rx w') = _addressedComObjectIndex (module w) /\
    rx_state (_rx w') = RX_IDLE_WAITING_FOR_CTRL_FIELD /\
    receivedTelegram (_rx w') = receivedTelegram (_rx w) /\
    telegrams w' = telegrams w /\ _tx w' = _tx w /\ self w' = self w /\
    module w' = module w.
Proof.
  intros Hrx Hgap Hf Hsum Hevt Hopen Hin. link_fields w. subst.
  unfold RxTask. unfold bind at 1, get at 1.
  cbn [rx_state _rx module _lastByteRxTimeMicrosec _telegram receivedTelegram
       _addressedComObjectIndex].
  change (RX_EIB_TELEGRAM_RECEPTION_ADDRESSED >=? RX_EIB_TELEGRAM_RECEPTION_STARTED)
    with true.
  gap_is true. cbv iota.
  change (RX_EIB_TELEGRAM_RECEPTION_ADDRESSED =? RX_EIB_TELEGRAM_RECEPTION_LENGTH_INVALID)
    with false.
  change (RX_EIB_TELEGRAM_RECEPTION_ADDRESSED =? RX_EIB_TELEGRAM_RECEPTION_ADDRESSED)
    with true.
  cbv iota.
  unfold bind at 1 2 3. unfold on_telegrams at 1, zoom.
  cbn [telegrams]. rewrite Hsum.
  unfold bind at 1, on_telegrams at 1, zoom. world_fields.
  rewrite (reads_copy _ _ zs st Hf).
  cbn. eexists. split; [reflexivity|]. repeat split; reflexivity.
Qed.

Lemma RxTask_delivers_telegram_witness :
  let w := Scenario.link_after (Scenario.received 0x32) in
  exists w',
    RxTask 1 2901 2901 w = Ret tt w' /\
    calls w' = [EvtCall TPUART_EVENT_RECEIVED_EIB_TELEGRAM] /\
    addressedComObjectIndex (_rx w') = PInt 1.
Proof.
  intros w.
  destruct (RxTask_delivers_telegram 1 w (Function 0)
              (Scenario.write_frame 0x32 ++ replicate 14 0) 2901 2901)
    as (w' & E & C & A & _).
  - vm_compute. reflexivity.
  - vm_compute. reflexivity.
  - frame_computed.
  - vm_compute. reflexivity.
  - vm_compute. reflexivity.
  - vm_compute. reflexivity.
  - vm_compute. reflexivity.
  - exists w'. split; [exact E|]. rewrite C, A. split; vm_compute; reflexivity.
Defined.

(** A write of a byte into the frame, seen from the link. *)
Lemma writeRawByte_run (t : KnxTelegram.instance) (b i : Z) (zs : list Z)
    (st : KnxTelegram.store) :
  frame st zs -> 0 <= i < 23 ->
  exists st', KnxTelegram.writeRawByte t (PInt b) i st = Ret tt st' /\
              frame st' (<[Z.to_nat i := b]> zs).
Proof. intros H Hi. exact (yields_tset t i b zs Hi st H). Qed.

(** X20 — a byte read in RECEPTION_ADDRESSED before the timeout is stored
    at the offset [_readBytesNb], which then advances by one; once 23
    bytes are stored the byte is dropped and RX goes to
    RECEPTION_LENGTH_INVALID instead.  The count never exceeds 23, so the
    reception never writes outside the telegram, and no callback is
    invoked. *)
Theorem RxTask_stores_payload_byte (fuel : nat) (w : world) (zs : list Z)
    (b : Z) (rest : list Z) (nowTime rxTime : Z) :
  rx_state (_rx w) = RX_EIB_TELEGRAM_RECEPTION_ADDRESSED ->
  nowTime - _lastByteRxTimeMicrosec (module w) <= 2000 ->
  0 <= _readBytesNb (module w) <= 23 ->
  frame (telegrams w) zs ->
  is_open (_serial (self w)) = true ->
  incoming (_serial (self w)) = b :: rest ->
  exists w',
    RxTask fuel nowTime rxTime w = Ret tt w' /\
    (if _readBytesNb (module w) =? 23
     then rx_state (_rx w') = RX_EIB_TELEGRAM_RECEPTION_LENGTH_INVALID /\
          _readBytesNb (module w') = 23 /\
          telegrams w' = telegrams w
     else rx_state (_rx w') = RX_EIB_TELEGRAM_RECEPTION_ADDRESSED /\
          _readBytesNb (module w') = _readBytesNb (module w) + 1 /\
          frame (telegrams w') (<[Z.to_nat (_readBytesNb (module w)) := b]> zs)) /\
    _lastByteRxTimeMicrosec (module w') = rxTime /\
    incoming (_serial (self w')) = rest /\
    outgoing (_serial (self w')) = outgoing (_serial (self w)) /\
    calls w' = calls w /\ _tx w' = _tx w.
Proof.
  intros Hrx Hgap Hnb Hf Hopen Hin. link_fields w. subst.
  rx_open. gap_is false. rx_cbn. byte_waits. rx_cbn.
  unfold KNX_TELEGRAM_MAX_SIZE.
  destruct (_readBytesNb0 =? 23) eqn:En.
  - eexists. split; [reflexivity|].
    apply Z.eqb_eq in En. cbn. repeat split; try reflexivity. exact En.
  - apply Z.eqb_neq in En.
    destruct (writeRawByte_run _telegram0 b _readBytesNb0 zs st Hf ltac:(lia))
      as (st' & E & Hf').
    unfold on_telegrams, zoom. world_fields. rewrite E. cbn.
    eexists. split; [reflexivity|]. cbn.
    split; [split; [reflexivity | split; [reflexivity | exact Hf']]|].
    repeat split; reflexivity.
Qed.

Lemma RxTask_stores_payload_byte_witness :
  let w := Scenario.link_after
             (Scenario.start Scenario.example_objects
                [0xBC; 0x11; 0x01; 0x00; 0x01; 0xE1; 0x00] ;;
              Scenario.rx_ticks (map (fun k => 100 * k) (seqZ 1 6))) in
  exists w',
    RxTask 1 700 700 w = Ret tt w' /\
    _readBytesNb (module w') = 7 /\
    rx_state (_rx w') = RX_EIB_TELEGRAM_RECEPTION_ADDRESSED.
Proof.
  intros w.
  destruct (RxTask_stores_payload_byte 1 w
              ([0xBC; 0x11; 0x01; 0x00; 0x01; 0xE1] ++ replicate 17 0) 0x00 [] 700 700)
    as (w' & E & R & _).
  - vm_compute. reflexivity.
  - vm_compute. intros E; discriminate E.
  - vm_compute. split; intros E; discriminate E.
  - frame_computed.
  - vm_compute. reflexivity.
  - vm_compute. reflexivity.
  - exists w'. split; [exact E|].
    change (_readBytesNb (module w) =? 23) with false in R.
    destruct R as (R1 & R2 & _). split; [rewrite R2; vm_compute; reflexivity | exact R1].
Defined.

Lemma list_getitem_in_range {S A} (l : list A) (i : Z) (x : A) (s : S) :
  0 <= i -> l !! Z.to_nat i = Some x -> list_getitem l i s = Ret x s.
Proof.
  intros Hi Hx. unfold list_getitem.
  rewrite py_index_in_range by (apply lookup_lt_Some in Hx; lia).
  rewrite Hx. reflexivity.
Qed.

(** The final loop of [isAddressedAssigned] over the table positions from
    [s] on. *)
Lemma search_loop (w : world) (l : list KnxComObject.t) (idx : list Z)
    (last : pyval) (addr stop : Z) (m : nat) :
  attached w l idx last ->
  forall s : Z,
    0 <= s -> s + Z.of_nat m <= stop -> s + Z.of_nat m <= Z.of_nat (length idx) ->
    for_each_return (seqZ s (Z.of_nat m)) (fun i =>
       a <- address_at i ;;
       if a =? addr then
         index <- table_at i ;;
         upd_module (set_global_addressedComObjectIndex index) ;;
         ret (Some (PBool true))
       else if i >? stop then ret (Some (PBool false))
       else ret None) w
    = match first_match l addr (take m (drop (Z.to_nat s) idx)) with
      | Some j =>
          Ret (Some (PBool true))
            (set_module (set_global_addressedComObjectIndex (PInt j) (module w)) w)
      | None => Ret None w
      end.
Proof.
  intros (Hl & Ht & Hn & Hv). induction m as [|m IH]; intros s Hs Hm Hstop.
  - reflexivity.
  - rewrite seqZ_cons by lia. cbn [for_each_return].
    assert (Hj : exists j, idx !! Z.to_nat s = Some j) by (apply lookup_lt_is_Some; lia).
    destruct Hj as [j Hj].
    pose proof (proj1 (Forall_lookup _ idx) Hv _ _ Hj) as Hjv. cbn beta in Hjv.
    assert (Ho : exists o, l !! Z.to_nat j = Some o) by (apply lookup_lt_is_Some; lia).
    destruct Ho as [o Ho].
    assert (Hg : forall u : world,
              list_getitem ((PInt <$> idx) ++ [last]) s u = Ret (PInt j) u).
    { intros u. apply list_getitem_in_range; [lia|].
      rewrite lookup_app_l by (rewrite length_fmap; lia).
      rewrite list_lookup_fmap, Hj. reflexivity. }
    rewrite (drop_S idx j (Z.to_nat s) Hj). cbn [take first_match]. rewrite Ho.
    assert (Ea : address_at s w = Ret (KnxComObject.getAddress o) w).
    { unfold address_at. unfold bind at 1, get at 1. rewrite Ht, Hl.
      unfold bind at 1. rewrite Hg.
      unfold bind at 1. rewrite (list_getitem_in_range l j o) by (lia || exact Ho).
      reflexivity. }
    unfold bind at 1. cbv beta. unfold bind at 1. rewrite Ea.
    destruct (KnxComObject.getAddress o =? addr).
    + unfold bind at 1, table_at at 1, bind at 1, get at 1. rewrite Ht, Hg.
      reflexivity.
    + replace (s >? stop) with false
        by (symmetry; rewrite Z.gtb_ltb; apply Z.ltb_ge; lia).
      unfold ret at 1. cbv iota beta.
      replace (Z.pred (Z.of_nat (Datatypes.S m))) with (Z.of_nat m) by lia.
      rewrite (IH (Z.succ s)) by lia.
      replace (Z.to_nat (Z.succ s)) with (Datatypes.S (Z.to_nat s)) by lia.
      reflexivity.
Qed.

(** Below 16 assigned objects the search goes through all table positions
    but the last. *)
Lemma isAddressedAssigned_below_16
    (fuel : nat) (w : world) (l : list KnxComObject.t) (idx : list Z)
    (last : pyval) (addr : Z) (index : pyval) :
  attached w l idx last ->
  (length idx < 15)%nat ->
  isAddressedAssigned (Datatypes.S fuel) addr index w
  = match first_match l addr idx with
    | Some j =>
        Ret (PBool true)
          (set_module (set_global_addressedComObjectIndex (PInt j) (module w)) w)
    | None => Ret PNone w
    end.
Proof.
  intros Ha Hn. pose proof Ha as (Hl & Ht & Hnb & Hv).
  unfold isAddressedAssigned. unfold bind at 1, get at 1.
  replace (_assignedComObjectsNb (self w) =? 0) with false
    by (symmetry; apply Z.eqb_neq; lia).
  unfold bind at 1. rewrite halving_loop_skipped by lia.
  cbn [snd]. unfold bind at 1, get at 1. unfold bind at 1.
  cbn [while_]. unfold bind at 1, ret at 1. cbn [Z.eqb negb].
  unfold ret at 1. unfold bind at 1. unfold range.
  replace (_assignedComObjectsNb (self w) - 1 - 0)
    with (Z.of_nat (length idx)) by lia.
  rewrite (search_loop w l idx last addr _ _ Ha 0) by lia.
  change (Z.to_nat 0) with 0%nat. rewrite drop_0, firstn_all.
  destruct (first_match l addr idx); reflexivity.
Qed.

(** X21 — with 1 to 15 assigned objects [isAddressedAssigned] is a linear
    search through all table positions but the last: the entry of the
    first object found at the address is published and [True] returned;
    when none of them is at the address the call returns [None], whatever
    the last table position holds, and changes nothing. *)
Theorem isAddressedAssigned_linear_search
    (fuel : nat) (w : world) (l : list KnxComObject.t) (idx : list Z)
    (last : pyval) (addr : Z) (index : pyval) :
  attached w l idx last ->
  (length idx < 15)%nat ->
  isAddressedAssigned (Datatypes.S fuel) addr index w
  = match first_match l addr idx with
    | Some j =>
        Ret (PBool true)
          (set_module (set_global_addressedComObjectIndex (PInt j) (module w)) w)
    | None => Ret PNone w
    end.
Proof. exact (isAddressedAssigned_below_16 fuel w l idx last addr index). Qed.

Lemma isAddressedAssigned_linear_search_witness :
  let w := Scenario.link_after (Scenario.attach (Scenario.objects_at [0x13; 0x12; 0x11]) []) in
  isAddressedAssigned 1 0x12 PNone w
  = Ret (PBool true)
      (set_module (set_global_addressedComObjectIndex (PInt 1) (module w)) w) /\
  isAddressedAssigned 1 0x11 PNone w = Ret PNone w.
Proof.
  intros w.
  assert (Ha : attached w (Scenario.objects_at [0x13; 0x12; 0x11]) [1; 0] PNone).
  { split; [vm_compute; reflexivity|]. split; [vm_compute; reflexivity|].
    split; [vm_compute; reflexivity|]. repeat constructor; cbn; lia. }
  split.
  - rewrite (isAddressedAssigned_linear_search 0 w _ [1; 0] PNone 0x12 PNone Ha)
      by (cbn; lia).
    reflexivity.
  - rewrite (isAddressedAssigned_linear_search 0 w _ [1; 0] PNone 0x11 PNone Ha)
      by (cbn; lia).
    reflexivity.
Defined.

(** X22 — the sixth byte of a telegram closes its header: [RxTask] stores
    it and looks the target address up.  When the search finds an object
    the link writes the acknowledge byte 0x11, publishes the index found
    and goes to RECEPTION_ADDRESSED; otherwise it writes 0x10 and goes to
    RECEPTION_NOT_ADDRESSED.  No callback is invoked. *)
Theorem RxTask_acknowledges_address (fuel : nat) (w : world) (zs : list Z)
    (l : list KnxComObject.t) (idx : list Z) (last : pyval)
    (b : Z) (rest : list Z) (nowTime rxTime : Z) :
  rx_state (_rx w) = RX_EIB_TELEGRAM_RECEPTION_STARTED ->
  nowTime - _lastByteRxTimeMicrosec (module w) <= 2000 ->
  _readBytesNb (module w) = 5 ->
  frame (telegrams w) zs ->
  attached w l idx last ->
  (length idx < 15)%nat ->
  is_open (_serial (self w)) = true ->
  incoming (_serial (self w)) = b :: rest ->
  exists w',
    RxTask (Datatypes.S fuel) nowTime rxTime w = Ret tt w' /\
    match first_match l (cell zs 4 + Z.shiftl (cell zs 3) 8) idx with
    | Some j =>
        rx_state (_rx w') = RX_EIB_TELEGRAM_RECEPTION_ADDRESSED /\
        outgoing (_serial (self w')) = outgoing (_serial (self w)) ++ [0x11] /\
        _addressedComObjectIndex (module w') = PInt j
    | None =>
        rx_state (_rx w') = RX_EIB_TELEGRAM_RECEPTION_NOT_ADDRESSED /\
        outgoing (_serial (self w')) = outgoing (_serial (self w)) ++ [0x10] /\
        _addressedComObjectIndex (module w') = _addressedComObjectIndex (module w)
    end /\
    frame (telegrams w') (<[5%nat := b]> zs) /\
    _readBytesNb (module w') = 6 /\
    incoming (_serial (self w')) = rest /\
    calls w' = calls w /\ _tx w' = _tx w.
Proof.
  intros Hrx Hgap Hnb Hf Ha Hn Hopen Hin.
  pose proof (frame_length _ zs Hf) as Hlen.
  destruct Ha as (Hl & Ht & Hc & Hv).
  link_fields w. subst.
  rx_open. gap_is false. rx_cbn. byte_waits. rx_cbn.
  destruct (writeRawByte_run _telegram0 b 5 zs st Hf ltac:(lia)) as (st' & E & Hf').
  unfold on_telegrams, zoom. world_fields. rewrite E. rx_cbn.
  change (5 + 1) with 6. rx_cbn.
  rewrite (reads_getTargetAddress _telegram0 _ st' Hf').
  rewrite !cell_insert_ne by lia.
  match goal with
  | |- context [isAddressedAssigned _ ?a ?i ?u] =>
      rewrite (isAddressedAssigned_below_16 fuel u l idx last a i)
        by (assumption || (repeat split; assumption))
  end.
  destruct (first_match l (cell zs 4 + Z.shiftl (cell zs 3) 8) idx) as [j|]; cbn;
    (eexists; split; [reflexivity|]; cbn;
     split; [repeat split; reflexivity|];
     split; [exact Hf'|]; repeat split; reflexivity).
Qed.

Lemma RxTask_acknowledges_address_witness :
  let w := Scenario.link_after
             (Scenario.start Scenario.example_objects
                [0xBC; 0x11; 0x01; 0x00; 0x01; 0xE1] ;;
              Scenario.rx_ticks (map (fun k => 100 * k) (seqZ 1 5))) in
  exists w',
    RxTask 1 600 600 w = Ret tt w' /\
    rx_state (_rx w') = RX_EIB_TELEGRAM_RECEPTION_ADDRESSED /\
    outgoing (_serial (self w')) = [0x01; 0x28; 0x11; 0x03; 0x02; 0x11] /\
    _addressedComObjectIndex (module w') = PInt 1.
Proof.
  intros w.
  destruct (RxTask_acknowledges_address 0 w
              ([0xBC; 0x11; 0x01; 0x00; 0x01; 0xE1] ++ replicate 17 0)
              Scenario.example_objects [1] PNone 0xE1 [] 600 600)
    as (w' & E & R & _).
  - vm_compute. reflexivity.
  - vm_compute. intros E; discriminate E.
  - vm_compute. reflexivity.
  - frame_computed.
  - split; [vm_compute; reflexivity|]. split; [vm_compute; reflexivity|].
    split; [vm_compute; reflexivity|]. repeat constructor; cbn; lia.
  - cbn. lia.
  - vm_compute. reflexivity.
  - vm_compute. reflexivity.
  - exists w'. split; [exact E|].
    change (first_match Scenario.example_objects
              (cell ([0xBC; 0x11; 0x01; 0x00; 0x01; 0xE1] ++ replicate 17 0) 4
               + Z.shiftl (cell ([0xBC; 0x11; 0x01; 0x00; 0x01; 0xE1] ++ replicate 17 0) 3) 8)
              [1]) with (Some 1) in R.
    destruct R as (R1 & R2 & R3). split; [exact R1|]. split; [|exact R3].
    rewrite R2. vm_compute. reflexivity.
Defined.

(** X23 — the second to fifth byte of a telegram, read in
    RECEPTION_STARTED before the timeout, are stored at the offset
    [_readBytesNb], which advances by one.  RX stays in RECEPTION_STARTED,
    except at the third byte: when the source address then reads as the
    link's own address, RX goes to RECEPTION_NOT_ADDRESSED.  Nothing is
    written to the port and no callback is invoked. *)
Theorem RxTask_stores_header_byte (fuel : nat) (w : world) (zs : list Z)
    (b : Z) (rest : list Z) (nowTime rxTime : Z) :
  rx_state (_rx w) = RX_EIB_TELEGRAM_RECEPTION_STARTED ->
  nowTime - _lastByteRxTimeMicrosec (module w) <= 2000 ->
  1 <= _readBytesNb (module w) <= 4 ->
  frame (telegrams w) zs ->
  is_open (_serial (self w)) = true ->
  incoming (_serial (self w)) = b :: rest ->
  exists w',
    RxTask fuel nowTime rxTime w = Ret tt w' /\
    frame (telegrams w') (<[Z.to_nat (_readBytesNb (module w)) := b]> zs) /\
    _readBytesNb (module w') = _readBytesNb (module w) + 1 /\
    rx_state (_rx w')
    = (if (_readBytesNb (module w) =? 2)
          && (b + Z.shiftl (cell zs 1) 8 =? _physicalAddr (self w))
       then RX_EIB_TELEGRAM_RECEPTION_NOT_ADDRESSED
       else RX_EIB_TELEGRAM_RECEPTION_STARTED) /\
    incoming (_serial (self w')) = rest /\
    outgoing (_serial (self w')) = outgoing (_serial (self w)) /\
    calls w' = calls w /\ _tx w' = _tx w.
Proof.
  intros Hrx Hgap Hnb Hf Hopen Hin.
  pose proof (frame_length _ zs Hf) as Hlen.
  link_fields w. subst.
  rx_open. gap_is false. rx_cbn. byte_waits. rx_cbn.
  destruct (writeRawByte_run _telegram0 b _readBytesNb0 zs st Hf ltac:(lia))
    as (st' & E & Hf').
  unfold on_telegrams, zoom. world_fields. rewrite E. rx_cbn.
  destruct (_readBytesNb0 =? 2) eqn:E2.
  - apply Z.eqb_eq in E2. subst _readBytesNb0.
    change (2 + 1 =? 3) with true. rx_cbn.
    rewrite (reads_getSourceAddress _telegram0 _ st' Hf').
    change (Z.to_nat 2) with 2%nat.
    rewrite cell_insert_eq, cell_insert_ne by lia.
    destruct (b + Z.shiftl (cell zs 1) 8 =? _physicalAddr0); cbn;
      (eexists; split; [reflexivity|]; cbn;
       split; [exact Hf'|]; repeat split; reflexivity).
  - apply Z.eqb_neq in E2.
    replace (_readBytesNb0 + 1 =? 3) with false by (symmetry; apply Z.eqb_neq; lia).
    replace (_readBytesNb0 + 1 =? 6) with false by (symmetry; apply Z.eqb_neq; lia).
    cbn. eexists. split; [reflexivity|]. cbn.
    split; [exact Hf'|]. repeat split; reflexivity.
Qed.

Lemma RxTask_stores_header_byte_witness :
  let w := Scenario.link_after
             (Scenario.start Scenario.example_objects [0xBC; 0x11; 0x03] ;;
              Scenario.rx_ticks [100; 200]) in
  exists w',
    RxTask 1 300 300 w = Ret tt w' /\
    _readBytesNb (module w') = 3 /\
    rx_state (_rx w') = RX_EIB_TELEGRAM_RECEPTION_NOT_ADDRESSED.
Proof.
  intros w.
  destruct (RxTask_stores_header_byte 1 w ([0xBC; 0x11; 0x00; 0x00; 0x00; 0xE1] ++ replicate 17 0)
              0x03 [] 300 300)
    as (w' & E & _ & N & R & _).
  - vm_compute. reflexivity.
  - vm_compute. intros E; discriminate E.
  - vm_compute. split; intros E; discriminate E.
  - frame_computed.
  - vm_compute. reflexivity.
  - vm_compute. reflexivity.
  - exists w'. split; [exact E|]. split; [rewrite N | rewrite R];
      vm_compute; reflexivity.
Defined.

End LinkFacts.
